(** * iromsgl: the operator front-end of the disc-robot workflow

    A shallow embedding of [src/iromlab/iromlab.py]: the Tk callbacks
    [on_create], [on_open], [on_submit], [on_quit], the start-up check
    [getConfiguration] and the polling loop of [main], as functions on an
    explicit program state.  The collaborators that the module calls but
    does not define (the catalog service, the drive detection, the disc
    worker, the operator's answers) enter as explicit inputs. *)

From Stdlib Require Import ZArith Ascii Lia.
From Stdlib Require String.
From stdpp Require Import base option list functions gmap strings pretty.

Local Open Scope Z_scope.

(** ** Python string and integer primitives used by the module *)

Module Py.

(** Characters are code points below 256.  [str.isspace] holds there for
    TAB..CR, FS..US, SPACE, NEL and NBSP. *)
Definition isspace (c : ascii) : bool :=
  let n := N_of_ascii c in
  ((9 <=? n) && (n <=? 13) || (28 <=? n) && (n <=? 32)
   || (n =? 133) || (n =? 160))%N.

Fixpoint lstrip_chars (l : list ascii) : list ascii :=
  match l with
  | c :: l' => if isspace c then lstrip_chars l' else l
  | [] => []
  end.

Definition rstrip_chars (l : list ascii) : list ascii :=
  rev (lstrip_chars (rev l)).

(** [s.strip()] *)
Definition strip (s : string) : string :=
  String.string_of_list_ascii
    (rstrip_chars (lstrip_chars (String.list_ascii_of_string s))).

Definition digit_of (c : ascii) : option Z :=
  let n := N_of_ascii c in
  if ((48 <=? n) && (n <=? 57))%N then Some (Z.of_N n - 48) else None.

Definition is_underscore (c : ascii) : bool := (N_of_ascii c =? 95)%N.

(** Decimal digits, single underscores allowed between two digits. *)
Fixpoint digits_val (acc : Z) (after_digit : bool) (l : list ascii)
  : option Z :=
  match l with
  | [] => if after_digit then Some acc else None
  | c :: l' =>
      match digit_of c with
      | Some d => digits_val (acc * 10 + d) true l'
      | None =>
          if is_underscore c && after_digit
          then digits_val acc false l'
          else None
      end
  end.

Definition signed_val (l : list ascii) : option Z :=
  match l with
  | c :: l' =>
      if (N_of_ascii c =? 43)%N then digits_val 0 false l'
      else if (N_of_ascii c =? 45)%N then Z.opp <$> digits_val 0 false l'
      else digits_val 0 false l
  | [] => None
  end.

(** The characters that [int] skips around the number: the C [isspace]
    set TAB..CR and SPACE, and NEL and NBSP, which it first turns into
    spaces.  FS..US are not skipped. *)
Definition int_space (c : ascii) : bool :=
  let n := N_of_ascii c in
  ((9 <=? n) && (n <=? 13) || (n =? 32) || (n =? 133) || (n =? 160))%N.

Fixpoint int_lstrip (l : list ascii) : list ascii :=
  match l with
  | c :: l' => if int_space c then int_lstrip l' else l
  | [] => []
  end.

Definition int_rstrip (l : list ascii) : list ascii :=
  rev (int_lstrip (rev l)).

(** [int(s)] for a string argument: [None] stands for [ValueError].
    Surrounding whitespace is ignored, one sign is allowed, leading
    zeros are allowed.  The limit on the number of digits that an
    interpreter may be set to (4300 by default since 3.11) is left out. *)
Definition int (s : string) : option Z :=
  signed_val
    (int_rstrip (int_lstrip (String.list_ascii_of_string s))).

End Py.

(** [representsInt], lines 635-642: [True] unless [int(s)] raises
    [ValueError]. *)
Definition representsInt (s : string) : bool :=
  match Py.int s with
  | Some _ => true
  | None => false
  end.

(** ** Paths and CSV rows *)

Definition dquote : string := String (ascii_of_nat 34) EmptyString.
Definition newline : ascii := ascii_of_nat 10.
Definition creturn : ascii := ascii_of_nat 13.

Module Path.

Definition sep (platform : string) : ascii :=
  if decide (platform = "Windows") then "\"%char else "/"%char.

Fixpoint last_char (s : string) : option ascii :=
  match s with
  | EmptyString => None
  | String c EmptyString => Some c
  | String _ s' => last_char s'
  end.

Definition starts_with (p : ascii → bool) (s : string) : bool :=
  match s with
  | String c _ => p c
  | EmptyString => false
  end.

Definition ends_with (p : ascii → bool) (s : string) : bool :=
  match last_char s with
  | Some c => p c
  | None => false
  end.

Definition nonempty (s : string) : bool :=
  match s with
  | EmptyString => false
  | String _ _ => true
  end.

Definition is_slash (c : ascii) : bool := bool_decide (c = "/"%char).
Definition is_colon (c : ascii) : bool := bool_decide (c = ":"%char).

(** [posixpath.join(a, b)]: an absolute [b] replaces [a]. *)
Definition posix_join (a b : string) : string :=
  if starts_with is_slash b then b
  else if negb (nonempty a) || ends_with is_slash a then a +:+ b
  else a +:+ String "/" b.

(** The separators of [ntpath]: backslash and slash. *)
Definition nt_sep (c : ascii) : bool :=
  bool_decide (c = "\"%char) || bool_decide (c = "/"%char).

(** The part of [s] before its first separator, and the rest. *)
Fixpoint span_nosep (s : string) : string * string :=
  match s with
  | EmptyString => (EmptyString, EmptyString)
  | String c s' =>
      if nt_sep c then (EmptyString, s)
      else let '(h, t) := span_nosep s' in (String c h, t)
  end.

(** Whether [s] goes on as the UNC prefix does after its two
    separators: [?\UNC\], in any case of the letters.  Then the prefix
    and what follows it; else nothing and [s]. *)
Definition unc_start (s : string) : string * string :=
  match s with
  | String c2 (String c3 (String c4 (String c5 (String c6 (String c7 s'))))) =>
      if bool_decide (c2 = "?"%char) && nt_sep c3
         && (bool_decide (c4 = "U"%char) || bool_decide (c4 = "u"%char))
         && (bool_decide (c5 = "N"%char) || bool_decide (c5 = "n"%char))
         && (bool_decide (c6 = "C"%char) || bool_decide (c6 = "c"%char))
         && nt_sep c7
      then (String c2 (String c3 (String c4 (String c5 (String c6
              (String c7 EmptyString))))), s')
      else (EmptyString, s)
  | _ => (EmptyString, s)
  end.

(** [ntpath.splitdrive(p)] (CPython 3.11): a drive letter with its colon,
    or the server and share of a UNC path. *)
Definition splitdrive (p : string) : string * string :=
  match p with
  | String c0 (String c1 rest) =>
      if nt_sep c0 && nt_sep c1 then
        let '(prefix, body) := unc_start rest in
        let '(server, tail) := span_nosep body in
        match tail with
        | EmptyString => (p, EmptyString)
        | String s1 tail' =>
            let '(share, path) := span_nosep tail' in
            match path with
            | EmptyString => (p, EmptyString)
            | String _ _ =>
                (String c0 (String c1
                   (prefix +:+ server +:+ String s1 share)), path)
            end
        end
      else if is_colon c1 then (String c0 (String c1 EmptyString), rest)
      else (EmptyString, p)
  | _ => (EmptyString, p)
  end.

(** [str.lower] on code points below 256. *)
Definition lower_char (c : ascii) : ascii :=
  let n := N_of_ascii c in
  if ((65 <=? n) && (n <=? 90) || (192 <=? n) && (n <=? 214)
      || (216 <=? n) && (n <=? 222))%N
  then ascii_of_N (n + 32) else c.

Fixpoint lower (s : string) : string :=
  match s with
  | EmptyString => EmptyString
  | String c s' => String (lower_char c) (lower s')
  end.

(** [ntpath.join(a, b)] (CPython 3.11). *)
Definition nt_join (a b : string) : string :=
  let '(result_drive, result_path) := splitdrive a in
  let '(p_drive, p_path) := splitdrive b in
  let '(drive, path) :=
    if starts_with nt_sep p_path then
      (* the second path is absolute *)
      (if nonempty p_drive || negb (nonempty result_drive)
       then p_drive else result_drive,
       p_path)
    else if nonempty p_drive && negb (bool_decide (p_drive = result_drive))
            && negb (bool_decide (lower p_drive = lower result_drive)) then
      (* another drive: the first path is ignored *)
      (p_drive, p_path)
    else
      (* the second path is relative to the first *)
      (if nonempty p_drive && negb (bool_decide (p_drive = result_drive))
       then p_drive else result_drive,
       (if nonempty result_path && negb (ends_with nt_sep result_path)
        then result_path +:+ String "\" EmptyString
        else result_path) +:+ p_path) in
  (* a separator between a UNC drive and a relative path *)
  if nonempty path && negb (starts_with nt_sep path)
     && nonempty drive && negb (ends_with is_colon drive)
  then drive +:+ String "\" path
  else drive +:+ path.

(** [os.path.join(a, b)]: [ntpath] on Windows, [posixpath] elsewhere. *)
Definition join (platform a b : string) : string :=
  if decide (platform = "Windows") then nt_join a b else posix_join a b.

(** A relative file name without a drive: what the module appends to
    its folders. *)
Definition plain (b : string) : bool :=
  match b with
  | String c rest => negb (nt_sep c) && negb (starts_with is_colon rest)
  | EmptyString => false
  end.

End Path.

Module Csv.

Definition special (c : ascii) : bool :=
  bool_decide (c = ","%char ∨ c = ascii_of_nat 34 ∨ c = newline ∨ c = creturn).

Fixpoint has_special (s : string) : bool :=
  match s with
  | EmptyString => false
  | String c s' => special c || has_special s'
  end.

Fixpoint double_quotes (s : string) : string :=
  match s with
  | EmptyString => EmptyString
  | String c s' =>
      if decide (c = ascii_of_nat 34)
      then String c (String c (double_quotes s'))
      else String c (double_quotes s')
  end.

(** One field under the default minimal quoting. *)
Definition field (s : string) : string :=
  if has_special s then dquote +:+ double_quotes s +:+ dquote else s.

Fixpoint join_fields (l : list string) : string :=
  match l with
  | [] => EmptyString
  | [x] => field x
  | x :: l' => field x +:+ "," +:+ join_fields l'
  end.

(** The text of one row; the line terminator is the list structure of
    the file (one element per newline-terminated row). *)
Definition row (cells : list string) : string := join_fields cells.

(** Reading back a row without quoted fields. *)
Fixpoint split_plain (cur : string) (s : string) : list string :=
  match s with
  | EmptyString => [String.rev cur]
  | String c s' =>
      if decide (c = ","%char) then String.rev cur :: split_plain EmptyString s'
      else split_plain (String c cur) s'
  end.

End Csv.

(** ** Program state *)

(** String-valued and boolean attributes of the shared [config] module. *)
Inductive str_attr :=
  | version | batchFolder | batchManifest | cdDriveLetter | rootDir | tempDir
  | secondsToTimeout | prefixBatch | audioFormat | reportFormatString
  | isoBusterExe | dBpowerampConsoleRipExe | socketHost | socketPort
  | shntoolExe | flacExe | cdInfoExe.

Inductive flag :=
  | readyToStart | finishedBatch | quitFlag | batchIsOpen | processingDisc
  | finishedDisc | enablePPNLookup | startOnFinalize | enableSocketAPI.

(** Widgets of [carrierEntry] and their Tk [state] option. *)
Inductive button :=
  | bNew | bOpen | bExit | submit_button
  | usepreviousPPN_button | usepreviousTitle_button.

Inductive entry := catid_entry | title_entry | volumeNo_entry.

Inductive wstate := normal | disabled.

(** The remembered entries [self.catidOld], [self.titleOld],
    [self.volumeNoOld]. *)
Inductive self_str := catidOld | titleOld | volumeNoOld.

#[global] Instance str_attr_eq_dec : EqDecision str_attr.
Proof. solve_decision. Defined.
#[global] Instance flag_eq_dec : EqDecision flag.
Proof. solve_decision. Defined.
#[global] Instance button_eq_dec : EqDecision button.
Proof. solve_decision. Defined.
#[global] Instance entry_eq_dec : EqDecision entry.
Proof. solve_decision. Defined.
#[global] Instance wstate_eq_dec : EqDecision wstate.
Proof. solve_decision. Defined.
#[global] Instance self_str_eq_dec : EqDecision self_str.
Proof. solve_decision. Defined.

(** Everything the callbacks do to the outside, in program order. *)
Inductive effect :=
  | ShowError (title msg : string)
  | ShowInfo (title msg : string)
  | AskYesNo (title msg : string) (answer : bool)
  | SruSearch (query db : string)
  | GetDrives
  | LogInfo (msg : string)
  | Sleep (milliseconds : Z)
  | Stdout (text : string)
  | TvInsert (text : string) (values : string * string * string)
  | ThreadStart (carrierData : gmap string string).

Record world := World {
  platform : string;
  cstr : str_attr → string;
  cflag : flag → bool;
  bstate : button → wstate;
  estate : entry → wstate;
  etext : entry → string;
  svar : self_str → string;
  carrierNumber : Z;
  t1 : option (gmap string string);
  dirs : gset string;
  files : gmap string (list string);
  workers : list (gmap string string);
  trace : list effect
}.

Definition upd_cstr f w :=
  let 'World a b c d e g h i j k l m n := w in World a (f b) c d e g h i j k l m n.
Definition upd_cflag f w :=
  let 'World a b c d e g h i j k l m n := w in World a b (f c) d e g h i j k l m n.
Definition upd_bstate f w :=
  let 'World a b c d e g h i j k l m n := w in World a b c (f d) e g h i j k l m n.
Definition upd_estate f w :=
  let 'World a b c d e g h i j k l m n := w in World a b c d (f e) g h i j k l m n.
Definition upd_etext f w :=
  let 'World a b c d e g h i j k l m n := w in World a b c d e (f g) h i j k l m n.
Definition upd_svar f w :=
  let 'World a b c d e g h i j k l m n := w in World a b c d e g (f h) i j k l m n.
Definition upd_carrierNumber f w :=
  let 'World a b c d e g h i j k l m n := w in World a b c d e g h (f i) j k l m n.
Definition upd_t1 f w :=
  let 'World a b c d e g h i j k l m n := w in World a b c d e g h i (f j) k l m n.
Definition upd_dirs f w :=
  let 'World a b c d e g h i j k l m n := w in World a b c d e g h i j (f k) l m n.
Definition upd_files f w :=
  let 'World a b c d e g h i j k l m n := w in World a b c d e g h i j k (f l) m n.
Definition upd_workers f w :=
  let 'World a b c d e g h i j k l m n := w in World a b c d e g h i j k l (f m) n.
Definition upd_trace f w :=
  let 'World a b c d e g h i j k l m n := w in World a b c d e g h i j k l m (f n).

(** ** Callbacks as state transformers with Python's ways of leaving *)

Inductive exn :=
  | SystemExit | OSError | UnboundLocalError | StopIteration | IndexError
  | ValueError | AttributeError | KeyError
  | TypeError.

#[global] Instance exn_eq_dec : EqDecision exn.
Proof. solve_decision. Defined.

Inductive result (A : Type) :=
  | Ok (a : A)        (* normal return *)
  | Raised (e : exn)  (* an exception leaves the function *)
  | Exited            (* [os._exit(0)] *)
  | Waiting.          (* still inside a polling loop *)
Arguments Ok {A} a.
Arguments Raised {A} e.
Arguments Exited {A}.
Arguments Waiting {A}.

Definition M (A : Type) : Type := world → result A * world.

#[global] Instance M_ret : MRet M := λ A a w, (Ok a, w).
#[global] Instance M_bind : MBind M := λ A B f m w,
  match m w with
  | (Ok a, w') => f a w'
  | (Raised e, w') => (Raised e, w')
  | (Exited, w') => (Exited, w')
  | (Waiting, w') => (Waiting, w')
  end.

#[global] Instance M_fmap : FMap M := λ A B f m w,
  match m w with
  | (Ok a, w') => (Ok (f a), w')
  | (Raised e, w') => (Raised e, w')
  | (Exited, w') => (Exited, w')
  | (Waiting, w') => (Waiting, w')
  end.

Definition act {A} (f : world → result A * world) : M A := f.
Definition gets {A} (f : world → A) : M A := λ w, (Ok (f w), w).
Definition modify (f : world → world) : M unit := λ w, (Ok tt, f w).
Definition raise {A} (e : exn) : M A := λ w, (Raised e, w).
Definition os_exit {A} : M A := λ w, (Exited, w).
Definition emit (e : effect) : M unit := modify (upd_trace (λ t, t ++ [e])).

(** [try: m except <handled>: h] *)
Definition try_except {A} (m : M A) (handled : exn → bool) (h : M A) : M A :=
  λ w, match m w with
       | (Raised e, w') => if handled e then h w' else (Raised e, w')
       | r => r
       end.

Definition any_exn (e : exn) : bool := true.
Definition is_OSError (e : exn) : bool :=
  match e with OSError => true | _ => false end.
Definition is_SystemExit (e : exn) : bool :=
  match e with SystemExit => true | _ => false end.


(** ** Primitive operations *)

Definition nl : string := String newline EmptyString.

Definition get_str (a : str_attr) : M string := gets (λ w, cstr w a).
Definition set_str (a : str_attr) (v : string) : M unit :=
  modify (upd_cstr <[a := v]>).
Definition get_flag (f : flag) : M bool := gets (λ w, cflag w f).
Definition set_flag (f : flag) (v : bool) : M unit :=
  modify (upd_cflag <[f := v]>).
Definition set_svar (x : self_str) (v : string) : M unit :=
  modify (upd_svar <[x := v]>).

Definition showerror (title msg : string) : M unit := emit (ShowError title msg).
Definition showinfo (title msg : string) : M unit := emit (ShowInfo title msg).
Definition askyesno (title msg : string) (answer : bool) : M bool :=
  emit (AskYesNo title msg answer);; mret answer.
Definition logging_info (msg : string) : M unit := emit (LogInfo msg).
Definition sleep (milliseconds : Z) : M unit := emit (Sleep milliseconds).

(** [widget.config(state=...)] *)
Definition button_config (b : button) (s : wstate) : M unit :=
  modify (upd_bstate <[b := s]>).
Definition entry_config (e : entry) (s : wstate) : M unit :=
  modify (upd_estate <[e := s]>).

(** [entry.get()], [entry.delete(0, tk.END)], [entry.insert(tk.END, s)];
    Tk ignores edits of a disabled entry. *)
Definition entry_get (e : entry) : M string := gets (λ w, etext w e).
Definition entry_delete_all (e : entry) : M unit :=
  modify (λ w, match estate w e with
               | normal => upd_etext <[e := EmptyString]> w
               | disabled => w
               end).
Definition entry_insert_end (e : entry) (s : string) : M unit :=
  modify (λ w, match estate w e with
               | normal => upd_etext <[e := etext w e +:+ s]> w
               | disabled => w
               end).

(** *** Files: a set of directories and a map from file paths to their
    newline-terminated lines. *)

Definition path_join (a b : string) : M string :=
  gets (λ w, Path.join (platform w) a b).

Definition isfile (p : string) : M bool :=
  gets (λ w, bool_decide (is_Some (files w !! p))).
Definition isdir (p : string) : M bool :=
  gets (λ w, bool_decide (p ∈ dirs w)).

(** [os.makedirs(p)]: [FileExistsError] when the path is taken. *)
Definition makedirs (p : string) : M unit :=
  λ w, if bool_decide (p ∈ dirs w) || bool_decide (is_Some (files w !! p))
       then (Raised OSError, w)
       else (Ok tt, upd_dirs (λ d, {[p]} ∪ d) w).

(** [open(join(folder, name), mode)] for mode "w" ([truncate]) or "a":
    the folder has to exist (the empty folder name is the working
    directory) and the path must not be a directory. *)
Definition open_file (folder name : string) (truncate : bool) : M string :=
  p ← path_join folder name;
  act (λ w,
    if bool_decide (folder = EmptyString ∨ folder ∈ dirs w)
       && negb (bool_decide (p ∈ dirs w))
    then (Ok p,
          upd_files (λ fs, if truncate then <[p := []]> fs
                           else match fs !! p with
                                | Some _ => fs
                                | None => <[p := []]> fs
                                end) w)
    else (Raised OSError, w)).

Definition write_line (p line : string) : M unit :=
  modify (upd_files (λ fs, <[p := default [] (fs !! p) ++ [line]]> fs)).

(** Reading a local variable that may not have been assigned. *)
Definition local {A} (v : option A) : M A :=
  match v with
  | Some a => mret a
  | None => raise UnboundLocalError
  end.

(** ** Batch creation and opening (lines 96-236) *)

Definition headerBatchManifest : list string :=
  ["jobID"; "PPN"; "volumeNo"; "title"; "volumeID"; "success";
   "containsAudio"; "containsData"; "cdExtra"; "mixedMode"; "cdInteractive"].

(** [setupLogger]: the file handler opens [batch.log] in append mode. *)
Definition setupLogger : M unit :=
  folder ← get_str batchFolder;
  open_file folder "batch.log" false;;
  mret tt.

(** The widget updates shared by [on_create] and [on_open]. *)
Definition enable_carrier_entry : M unit :=
  ppn ← get_flag enablePPNLookup;
  (if (ppn : bool) then
     entry_config catid_entry normal;;
     button_config usepreviousPPN_button normal
   else
     entry_config title_entry normal;;
     button_config usepreviousTitle_button normal);;
  entry_config volumeNo_entry normal;;
  entry_delete_all volumeNo_entry;;
  entry_insert_end volumeNo_entry "1".

Definition mark_batch_open : M unit :=
  set_flag batchIsOpen true;;
  sof ← get_flag startOnFinalize;
  if negb (sof : bool) then set_flag readyToStart true else mret tt.

(** Lines 102-116 of [on_create]: the batch folder and the version
    marker; [batchID] is the value of [uuid.uuid1()]. *)
Definition create_batch_folder (batchID : string) : M (string * string) :=
  prefix ← get_str prefixBatch;
  let batchName := prefix +:+ "-" +:+ batchID in
  root ← get_str rootDir;
  folder ← path_join root batchName;
  set_str batchFolder folder;;
  try_except (makedirs folder) is_OSError
    (showerror "Error" ("Cannot create batch folder " +:+ folder));;
  vf ← open_file folder "version.txt" true;
  ver ← get_str version;
  write_line vf ver;;
  mret (batchName, folder).

(** Lines 118-143: the batch manifest.  The header is bound only when the
    file does not exist; the file is opened for appending and the header
    row is written. *)
Definition write_manifest_header (folder : string) : M unit :=
  manifest ← path_join folder "manifest.csv";
  set_str batchManifest manifest;;
  exists_already ← isfile manifest;
  let header := if negb exists_already then Some headerBatchManifest else None in
  bm ← open_file folder "manifest.csv" false;
  row ← local header;
  write_line bm (Csv.row row).

(** Lines 145-183: logging, the message to the operator, the widgets and
    the flags. *)
Definition announce_batch (batchName folder : string) : M unit :=
  successLogger ←
    try_except (setupLogger;; mret true) is_OSError
      (showerror "ERROR" "error trying to write log file";; mret false);
  if (successLogger : bool) then
    showinfo "Created batch" ("Created batch " +:+ batchName);;
    logging_info ("batchFolder set to " +:+ folder);;
    button_config bNew disabled;;
    button_config bOpen disabled;;
    enable_carrier_entry;;
    button_config submit_button normal;;
    mark_batch_open
  else mret tt.

Definition on_create (batchID : string) : M unit :=
  '(batchName, folder) ← create_batch_folder batchID;
  write_manifest_header folder;;
  announce_batch batchName folder.

(** [on_open]; [chosen] is what the directory dialog returns (the empty
    string when it is cancelled). *)
Definition on_open (chosen : string) : M unit :=
  set_str batchFolder chosen;;
  manifest ← path_join chosen "manifest.csv";
  set_str batchManifest manifest;;
  successLogger ←
    try_except (setupLogger;; mret true) is_OSError
      (showerror "ERROR" "error trying to write log file";; mret false);
  if (successLogger : bool) then
    logging_info ("*** Opening existing batch " +:+ chosen +:+ " ***");;
    if decide (chosen ≠ EmptyString) then
      button_config bNew disabled;;
      button_config bOpen disabled;;
      button_config submit_button normal;;
      enable_carrier_entry;;
      mark_batch_open
    else mret tt
  else mret tt.

(** ** Submission (lines 265-366) *)

(** What [sru.search] of the catalog client hands back: a false value
    ([None]) or a response with a record count and the records. *)
Record sru_record := {
  titlesMain : list string;
  titlesIntermediate : list string;
  titles : list string
}.

Record sru_response := {
  nr_of_records : Z;
  records : list sru_record
}.

Definition catalog := string → string → option sru_response.

(** [next(response.records)] *)
Definition next {A} (l : list A) : M A :=
  match l with
  | x :: _ => mret x
  | [] => raise StopIteration
  end.

(** Lines 323-332: the title of a record; [None] where [titles[0]] has
    nothing to return. *)
Definition record_title (record : sru_record) : option string :=
  match titlesMain record with
  | main :: _ =>
      match titlesIntermediate record with
      | inter :: _ => Some (main +:+ ", " +:+ inter)
      | [] => Some main
      end
  | [] => head (titles record)
  end.

Definition title_of_record (record : sru_record) : M string :=
  match record_title record with
  | Some title => mret title
  | None => raise IndexError
  end.

(** Lines 344-349: the dictionary handed to the worker. *)
Definition make_carrierData (jobID catid title volumeNo : string)
  : gmap string string :=
  <["volumeNo" := volumeNo]>
    (<["title" := title]> (<["PPN" := catid]> (<["jobID" := jobID]> ∅))).

(** Line 289. *)
Definition sruSearchString (catid : string) : string :=
  "OaiPmhIdentifier=" +:+ dquote +:+ "GGC:AC:" +:+ catid +:+ dquote.

(** Lines 283-297: the number of catalog records for the identifier, and
    the response when a search was made. *)
Definition lookup_records (sru : catalog) (ppn : bool) (catid : string)
  : M (Z * option sru_response) :=
  if ppn then
    if decide (catid = EmptyString) then mret (0, None)
    else
      emit (SruSearch (sruSearchString catid) "GGC");;
      match sru (sruSearchString catid) "GGC" with
      | None => mret (0, None)
      | Some response => mret (nr_of_records response, Some response)
      end
  else mret (1, None).

(** The texts of lines 334 and 337-338. *)
Definition confirm_msg (title : string) : string :=
  "Found title:" +:+ nl +:+ nl +:+ "'" +:+ title +:+ "'." +:+ nl +:+ nl
  +:+ " Is this correct?".

Definition load_msg (title volumeNo : string) : string :=
  "Please load disc ('" +:+ title +:+ "', volume " +:+ volumeNo
  +:+ ") into the disc loader, then press 'OK'".

(** Lines 335-366: confirmation and hand-over to the worker thread. *)
Definition confirm_and_start (ppn : bool) (confirm : bool)
    (jobID catid title volumeNo : string) : M unit :=
  ok ← askyesno "Confirm" (confirm_msg title) confirm;
  if (ok : bool) then
    showinfo "Load disc" (load_msg title volumeNo);;
    let carrierData := make_carrierData jobID catid title volumeNo in
    n ← gets carrierNumber;
    emit (TvInsert (pretty n) (catid, title, volumeNo));;
    (if ppn then
       entry_config catid_entry disabled;;
       button_config usepreviousPPN_button disabled
     else
       entry_config title_entry disabled;;
       button_config usepreviousTitle_button disabled);;
    entry_config volumeNo_entry disabled;;
    button_config submit_button disabled;;
    modify (upd_t1 (λ _, Some carrierData));;
    emit (ThreadStart carrierData);;
    modify (upd_workers (λ ws, ws ++ [carrierData]))
  else mret tt.

(** [on_submit]; [sru] is the catalog service, [confirm] the operator's
    answer to the confirmation dialog (if it is shown), [jobID] the value
    of [uuid.uuid1()] (if it is drawn). *)
Definition on_submit (sru : catalog) (confirm : bool) (jobID : string)
  : M unit :=
  set_flag processingDisc true;;
  modify (upd_carrierNumber (λ n, n + 1));;
  ppn ← get_flag enablePPNLookup;
  '(catid, entered_title) ←
    (if (ppn : bool) then
       catid ← Py.strip <$> entry_get catid_entry;
       set_svar catidOld catid;;
       mret (catid, None)
     else
       title ← Py.strip <$> entry_get title_entry;
       set_svar titleOld title;;
       mret (EmptyString, Some title)) : M (string * option string);
  volumeNo ← Py.strip <$> entry_get volumeNo_entry;
  set_svar volumeNoOld volumeNo;;
  '(noGGCRecords, response) ← lookup_records sru ppn catid;
  is_open ← get_flag batchIsOpen;
  if negb (is_open : bool) then
    showerror "Not ready"
      "You must first create a batch or open an existing batch"
  else if negb (representsInt volumeNo) then
    showerror "Type mismatch" "Volume number must be integer value"
  else
    match Py.int volumeNo with
    | None => raise ValueError
    | Some v =>
        if v <? 1 then
          showerror "Value error"
            "Volume number must be greater than or equal to 1"
        else if noGGCRecords =? 0 then
          showerror "PPN not found"
            ("Search for PPN=" +:+ catid +:+ " returned "
             +:+ "no matching record in catalog!")
        else
          title ←
            (if (ppn : bool) then
               resp ← local response;
               record ← next (records resp);
               title_of_record record
             else local entered_title);
          confirm_and_start ppn confirm jobID catid title volumeNo
    end.

(** ** The other callbacks (lines 69-94, 238-263, 529-547, 586-618) *)

(** Modelled from the spec: [cdworker.processDisc] is not part of the
    sources.  Section 6: the worker "signals completion back via a shared
    flag ... that the caller polls"; the flag polled on line 843 is
    [config.finishedDisc].  The thread that ends leaves [workers]. *)
Definition worker_done : M unit :=
  ws ← gets workers;
  match ws with
  | [] => mret tt
  | _ :: ws' =>
      modify (upd_workers (λ _, ws'));;
      set_flag finishedDisc true
  end.

(** Lines 89-90: [while config.processingDisc: time.sleep(2)].  During
    each sleep other threads run; [sched] says, sleep by sleep, whether a
    worker thread ends during it.  When [sched] is used up the loop is
    still polling. *)
Fixpoint wait_processingDisc (sched : list bool) : M unit :=
  busy ← get_flag processingDisc;
  if (busy : bool) then
    match sched with
    | [] => act (λ w, (Waiting, w))
    | ended :: sched' =>
        sleep 2000;;
        (if (ended : bool) then worker_done else mret tt);;
        wait_processingDisc sched'
    end
  else mret tt.

Definition quit_msg : string :=
  "Quitting because user pressed Exit, click OK to exit".

Definition on_quit (sched : list bool) : M unit :=
  set_flag quitFlag true;;
  button_config bExit disabled;;
  is_open ← get_flag batchIsOpen;
  (if (is_open : bool) then
     showinfo "Info"
       "User pressed Exit, quitting after current disc has been processed"
   else mret tt);;
  ready ← get_flag readyToStart;
  if negb (ready : bool) then
    sleep 2000;;
    showinfo "Exit" quit_msg;;
    os_exit
  else
    wait_processingDisc sched;;
    sleep 2000;;
    showinfo "Exit" quit_msg;;
    os_exit.

(** [str(int(self.volumeNoOld) + 1)] *)
Definition next_volumeNo : M string :=
  old ← gets (λ w, svar w volumeNoOld);
  match Py.int old with
  | Some v => mret (pretty (v + 1))
  | None => raise ValueError
  end.

Definition bump_volumeNo : M unit :=
  volumeNoNew ← next_volumeNo;
  entry_delete_all volumeNo_entry;;
  entry_insert_end volumeNo_entry volumeNoNew.

Definition use_previous (old : self_str) (e : entry) (title msg : string)
  : M unit :=
  prev ← gets (λ w, svar w old);
  if decide (prev = EmptyString) then showerror title msg
  else
    entry_delete_all e;;
    entry_insert_end e prev;;
    vol ← gets (λ w, svar w volumeNoOld);
    if decide (vol ≠ EmptyString) then bump_volumeNo else mret tt.

Definition on_usepreviousPPN : M unit :=
  use_previous catidOld catid_entry "PPN not defined"
    "Previous PPN is not defined".

Definition on_usepreviousTitle : M unit :=
  use_previous titleOld title_entry "Tile not defined"
    "Previous title is not defined".

(** [reset_carrier]: line 539 calls the title entry instead of
    configuring it, which raises [TypeError]. *)
Definition reset_carrier : M unit :=
  ppn ← get_flag enablePPNLookup;
  (if (ppn : bool) then
     button_config usepreviousPPN_button normal;;
     entry_config catid_entry normal;;
     entry_delete_all catid_entry
   else
     raise TypeError);;
  entry_config volumeNo_entry normal;;
  button_config submit_button normal;;
  entry_delete_all volumeNo_entry;;
  entry_insert_end volumeNo_entry "1".

(** [handleSocketRequests]; [message] is what the queue holds, if
    anything. *)
Definition handleSocketRequests (message : option string) : M unit :=
  match message with
  | None => mret tt
  | Some text =>
      ppn ← get_flag enablePPNLookup;
      let '(e, old) := if (ppn : bool) then (catid_entry, catidOld)
                       else (title_entry, titleOld) in
      try_except
        (entry_delete_all e;;
         entry_insert_end e text;;
         prev ← gets (λ w, svar w old);
         if decide (text = prev ∧ text ≠ EmptyString) then bump_volumeNo
         else mret tt)
        any_exn (mret tt)
  end.

(** ** Event dispatch and the loop of [main] (lines 519-522, 836-847)

    Left out: the display of log records ([poll_log_queue], [display]),
    [reset_gui] and the [KeyboardInterrupt] handler of [main] that calls
    it. *)

Inductive gui_event :=
  | Click (b : button)       (* the button's [command] *)
  | KeyControl (key : ascii) (* the [bind_all] shortcuts n, o, e, s *)
  | CloseWindow.             (* [WM_DELETE_WINDOW] *)

(** What a callback draws from outside while it runs. *)
Record inputs := {
  in_uuid : string;      (* [uuid.uuid1()] *)
  in_dir : string;       (* the directory dialog *)
  in_confirm : bool;     (* the confirmation dialog *)
  in_sched : list bool   (* worker endings while [on_quit] sleeps *)
}.

Definition command (sru : catalog) (b : button) (i : inputs) : M unit :=
  match b with
  | bNew => on_create (in_uuid i)
  | bOpen => on_open (in_dir i)
  | bExit => on_quit (in_sched i)
  | submit_button => on_submit sru (in_confirm i) (in_uuid i)
  | usepreviousPPN_button => on_usepreviousPPN
  | usepreviousTitle_button => on_usepreviousTitle
  end.

(** Tk reports an exception of a callback and goes on; [SystemExit]
    passes through. *)
Definition call_wrapper (m : M unit) : M unit :=
  try_except m (λ e, negb (is_SystemExit e)) (mret tt).

(** A click reaches the command only while the button is enabled; the
    keyboard bindings are made on the application and do not look at any
    widget state. *)
Definition deliver (sru : catalog) (ev : gui_event) (i : inputs) : M unit :=
  match ev with
  | Click b =>
      st ← gets (λ w, bstate w b);
      match st with
      | normal => call_wrapper (command sru b i)
      | disabled => mret tt
      end
  | KeyControl key =>
      if decide (key = "n"%char) then call_wrapper (command sru bNew i)
      else if decide (key = "o"%char) then call_wrapper (command sru bOpen i)
      else if decide (key = "e"%char) then call_wrapper (command sru bExit i)
      else if decide (key = "s"%char) then call_wrapper (command sru submit_button i)
      else mret tt
  | CloseWindow => call_wrapper (command sru bExit i)
  end.

Fixpoint update (sru : catalog) (evs : list (gui_event * inputs)) : M unit :=
  match evs with
  | [] => mret tt
  | (ev, i) :: evs' => deliver sru ev i;; update sru evs'
  end.

(** [self.t1.join()]: returns once the thread has ended. *)
Definition join_t1 : M unit :=
  t ← gets t1;
  match t with
  | None => raise AttributeError
  | Some cd =>
      ws ← gets workers;
      if bool_decide (cd ∈ ws) then act (λ w, (Waiting, w)) else mret tt
  end.

(** What arrives during one turn of the loop of [main]. *)
Record turn := {
  socket_message : option string;        (* the socket queue *)
  gui_events : list (gui_event * inputs); (* handled by [root.update()] *)
  worker_ends : bool                     (* a worker thread ends meanwhile *)
}.

(** One turn of the [while True] loop of [main]. *)
Definition main_iteration (sru : catalog) (t : turn) : M unit :=
  api ← get_flag enableSocketAPI;
  (if (api : bool) then handleSocketRequests (socket_message t) else mret tt);;
  update sru (gui_events t);;
  sleep 100;;
  (if worker_ends t then worker_done else mret tt);;
  fin ← get_flag finishedDisc;
  if (fin : bool) then
    join_t1;;
    reset_carrier;;
    set_flag processingDisc false;;
    set_flag finishedDisc false
  else mret tt.

(** ** Start-up (lines 42-67, 407-411, 645-688, 691-818, 821-827) *)

(** What start-up reads from its surroundings. *)
Record startup_env := {
  USERPROFILE : option string;   (* the environment variable *)
  package_dir : string;          (* the directory of this module *)
  normpath : string → string;    (* [os.path.normpath] *)
  (* [ETree.fromstring]: the text of each element below the root
     [config], or [None] when the file is not well-formed *)
  fromstring : list string → option (gmap string string);
  getDrives : list string        (* [cdinfo.getDrives()["drives"]] *)
}.

Definition errorExit {A} (error : string) : M A :=
  showerror "Error" error;; raise SystemExit.

Definition checkFileExists (fileIn : string) : M unit :=
  ok ← isfile fileIn;
  if (ok : bool) then mret tt
  else
    showerror "Error" ("file " +:+ fileIn +:+ " does not exist!");;
    raise SystemExit.

Definition checkDirExists (dirIn : string) : M unit :=
  ok ← isdir dirIn;
  if (ok : bool) then mret tt
  else
    showerror "Error" ("directory " +:+ dirIn +:+ " does not exist!");;
    raise SystemExit.

(** [findElementText(configElt, './config/' + name)] *)
Definition findElementText (elt : gmap string string) (name : string)
  : M string :=
  match elt !! name with
  | None => errorExit ("no element found at ./config/" +:+ name)
  | Some elementText => mret elementText
  end.

Definition read_required (elt : gmap string string) (a : str_attr)
    (name : string) : M unit :=
  v ← findElementText elt name;
  set_str a v.

(** [try: config.a = findElementText(...) except: pass] *)
Definition read_optional (elt : gmap string string) (a : str_attr)
    (name : string) : M unit :=
  try_except (read_required elt a name) any_exn (mret tt).

(** [try: if findElementText(...) == "True": ... else: ... except: pass] *)
Definition read_optional_flag (elt : gmap string string) (f : flag)
    (name : string) : M unit :=
  try_except
    (v ← findElementText elt name;
     set_flag f (bool_decide (v = "True")))
    any_exn (mret tt).

Definition normalise (env : startup_env) (a : str_attr) : M unit :=
  v ← get_str a;
  set_str a (normpath env v).

Definition join3 (a b c : string) : M string :=
  ab ← path_join a b; path_join ab c.
Definition join4 (a b c d : string) : M string :=
  abc ← join3 a b c; path_join abc d.

(** Lines 696-806 of [getConfiguration]: everything before the two
    checks of values. *)
Definition configure (env : startup_env) : M unit :=
  plat ← gets platform;
  packageDir ← mret (package_dir env);
  configDirUser ←
    (if decide (plat = "Windows") then
       match USERPROFILE env with
       | Some userDir => path_join userDir "iromlab"
       | None => raise KeyError
       end
     else path_join packageDir "conf");
  configFileUser ← path_join configDirUser "config.xml";
  toolsDirUser ← path_join packageDir "tools";
  found ← isfile configFileUser;
  (if (found : bool) then mret tt
   else emit (Stdout configFileUser);; errorExit "configuration file not found");;
  fs ← gets files;
  configBytes ←
    match fs !! configFileUser with
    | Some bytes => mret bytes
    | None => errorExit "could not open configuration file"
    end;
  configElt ←
    match fromstring env configBytes with
    | Some elt => mret elt
    | None => errorExit ("error parsing " +:+ configFileUser)
    end;
  read_required configElt cdDriveLetter "cdDriveLetter";;
  read_required configElt rootDir "rootDir";;
  read_required configElt tempDir "tempDir";;
  read_required configElt secondsToTimeout "secondsToTimeout";;
  read_required configElt prefixBatch "prefixBatch";;
  read_required configElt audioFormat "audioFormat";;
  read_required configElt reportFormatString "reportFormatString";;
  read_required configElt isoBusterExe "isoBusterExe";;
  read_required configElt dBpowerampConsoleRipExe "dBpowerampConsoleRipExe";;
  read_optional configElt socketHost "socketHost";;
  read_optional configElt socketPort "socketPort";;
  read_optional_flag configElt enablePPNLookup "enablePPNLookup";;
  read_optional_flag configElt startOnFinalize "startOnFinalize";;
  read_optional_flag configElt enableSocketAPI "enableSocketAPI";;
  normalise env rootDir;;
  normalise env tempDir;;
  normalise env isoBusterExe;;
  normalise env dBpowerampConsoleRipExe;;
  shntool ← join3 toolsDirUser "shntool" "shntool.exe";
  set_str shntoolExe shntool;;
  flac ← join4 toolsDirUser "flac" "win64" "flac.exe";
  set_str flacExe flac;;
  cdinfo ← join4 toolsDirUser "libcdio" "win64" "cd-info.exe";
  set_str cdInfoExe cdinfo;;
  (get_str rootDir ≫= checkDirExists);;
  (get_str tempDir ≫= checkDirExists);;
  (get_str isoBusterExe ≫= checkFileExists);;
  (get_str dBpowerampConsoleRipExe ≫= checkFileExists);;
  (get_str shntoolExe ≫= checkFileExists);;
  (get_str flacExe ≫= checkFileExists);;
  (get_str cdInfoExe ≫= checkFileExists).

(** Lines 808-813: the optical drive. *)
Definition check_drive (env : startup_env) : M unit :=
  emit GetDrives;;
  let cdDrives := getDrives env in
  letter ← get_str cdDriveLetter;
  if bool_decide (letter ∈ cdDrives) then mret tt
  else errorExit (dquote +:+ letter +:+ dquote
                  +:+ " is not a valid optical drive!").

(** Lines 815-818: the audio format. *)
Definition check_audioFormat : M unit :=
  fmt ← get_str audioFormat;
  if bool_decide (fmt ∈ ["wav"; "flac"]) then mret tt
  else errorExit (dquote +:+ fmt +:+ dquote
                  +:+ " is not a valid audio format (expected "
                  +:+ dquote +:+ "wav" +:+ dquote +:+ " or "
                  +:+ dquote +:+ "flac" +:+ dquote +:+ ")!").

Definition getConfiguration (env : startup_env) : M unit :=
  configure env;;
  check_drive env;;
  check_audioFormat.

Definition iromlab_version : string := "1.0.8".

(** [build_gui], lines 413-527: the widgets are made, the three batch
    buttons enabled and everything for carrier entry disabled. *)
Definition build_gui_widgets : M unit :=
  button_config bNew normal;;
  button_config bOpen normal;;
  button_config bExit normal;;
  ppn ← get_flag enablePPNLookup;
  (if (ppn : bool) then
     entry_config catid_entry disabled;;
     button_config usepreviousPPN_button disabled
   else
     entry_config title_entry disabled;;
     button_config usepreviousTitle_button disabled);;
  entry_config volumeNo_entry disabled;;
  button_config submit_button disabled.

(** [build_gui]: the configuration is read first (line 411). *)
Definition build_gui (env : startup_env) : M unit :=
  getConfiguration env;;
  build_gui_widgets.

(** [carrierEntry.__init__], lines 60-66 and then line 67. *)
Definition carrierEntry_init_vars : M unit :=
  set_flag readyToStart false;;
  set_flag finishedBatch false;;
  set_svar catidOld EmptyString;;
  set_svar titleOld EmptyString;;
  set_svar volumeNoOld EmptyString;;
  modify (upd_carrierNumber (λ _, 0));;
  modify (upd_t1 (λ _, None)).

Definition carrierEntry_init (env : startup_env) : M unit :=
  carrierEntry_init_vars;;
  build_gui env.

(** [main] up to its loop: no callback can run unless this returns. *)
Definition startup (env : startup_env) : M unit :=
  set_str version iromlab_version;;
  carrierEntry_init env.

(** The loop of [main], turn by turn; it ends only with the process. *)
Fixpoint main_loop (sru : catalog) (turns : list turn) : M unit :=
  match turns with
  | [] => mret tt
  | t :: turns' => main_iteration sru t;; main_loop sru turns'
  end.

Definition main (env : startup_env) (sru : catalog) (turns : list turn)
  : M unit :=
  startup env;; main_loop sru turns.

(** The effects of [m] run from [w]: what it adds to the trace. *)
Definition effects_of {A} (m : M A) (w : world) : list effect :=
  drop (length (trace w)) (trace (m w).2).

Definition thread_starts (es : list effect) : list (gmap string string) :=
  omap (λ e, match e with ThreadStart cd => Some cd | _ => None end) es.

(** The carriers handed to worker threads while [m] runs from [w]. *)
Definition started_by {A} (m : M A) (w : world) : list (gmap string string) :=
  thread_starts (effects_of m w).

(** ** Notions used in the statements *)

(** [appends P m]: running [m] only extends the trace, and only by
    effects that satisfy [P]. *)
Definition appends {A} (P : effect → Prop) (m : M A) : Prop :=
  ∀ w, ∃ es, trace (m w).2 = trace w ++ es ∧ Forall P es.

Definition is_drive_check (e : effect) : bool :=
  match e with GetDrives => true | _ => false end.

Definition is_thread_start (e : effect) : bool :=
  match e with ThreadStart _ => true | _ => false end.

Definition is_search (e : effect) : bool :=
  match e with SruSearch _ _ => true | _ => false end.

(** How often the drives are detected within a run of effects. *)
Definition drive_checks (es : list effect) : nat :=
  length (filter (λ e, is_drive_check e = true) es).

(** Effects other than a drive detection, or other than a thread start. *)
Definition quiet (e : effect) : Prop := is_drive_check e = false.
Definition no_thread (e : effect) : Prop := is_thread_start e = false.

(** The state in which [build_gui] runs: [main] has stored the version and
    [__init__] has set its variables. *)
Definition at_build_gui (w : world) : world :=
  ((set_str version iromlab_version;; carrierEntry_init_vars) w).2.

(** ** A concrete installation, for the examples *)

Definition config_xml (ppn startOnFin fmt : string) : gmap string string :=
  list_to_map
    [("cdDriveLetter", "D"); ("rootDir", "/data"); ("tempDir", "/tmp");
     ("secondsToTimeout", "300"); ("prefixBatch", "kb"); ("audioFormat", fmt);
     ("reportFormatString", "%F"); ("isoBusterExe", "/tools/isobuster.exe");
     ("dBpowerampConsoleRipExe", "/tools/rip.exe");
     ("socketHost", "127.0.0.1"); ("socketPort", "65432");
     ("enablePPNLookup", ppn); ("startOnFinalize", startOnFin);
     ("enableSocketAPI", "False")].

Definition example_env (xml : gmap string string) (drives : list string)
  : startup_env :=
  {| USERPROFILE := None;
     package_dir := "/opt/iromlab";
     normpath := λ p, p;
     fromstring := λ _, Some xml;
     getDrives := drives |}.

(** The machine before the program starts. *)
Definition example_boot : world :=
  World "Linux" (λ _, EmptyString) (λ _, false) (λ _, normal) (λ _, normal)
    (λ _, EmptyString) (λ _, EmptyString) 0 None
    {["/data"; "/tmp"]}
    (list_to_map
       [("/opt/iromlab/conf/config.xml", ["<config/>"]);
        ("/tools/isobuster.exe", []); ("/tools/rip.exe", []);
        ("/opt/iromlab/tools/shntool/shntool.exe", []);
        ("/opt/iromlab/tools/flac/win64/flac.exe", []);
        ("/opt/iromlab/tools/libcdio/win64/cd-info.exe", [])])
    [] [].

(** The program after a successful start, in title mode or PPN mode, with
    [startOnFinalize] off or on. *)
Definition example_started (ppn startOnFin : string) : world :=
  (startup (example_env (config_xml ppn startOnFin "flac") ["D"; "E"])
     example_boot).2.

Definition type_into (e : entry) (text : string) (w : world) : world :=
  upd_etext <[e := text]> w.

(** ** What a submission looks like from outside *)

(** The identifier and the volume number as [on_submit] reads them. *)
Definition entered_catid (w : world) : string :=
  if cflag w enablePPNLookup then Py.strip (etext w catid_entry)
  else EmptyString.

Definition entered_volumeNo (w : world) : string :=
  Py.strip (etext w volumeNo_entry).

(** The catalog is asked in PPN mode, for a non-empty identifier. *)
Definition searches (w : world) : list effect :=
  if cflag w enablePPNLookup then
    if decide (entered_catid w = EmptyString) then []
    else [SruSearch (sruSearchString (entered_catid w)) "GGC"]
  else [].

(** The value of [noGGCRecords] on line 299. *)
Definition records_found (sru : catalog) (w : world) : Z :=
  match (lookup_records sru (cflag w enablePPNLookup) (entered_catid w) w).1 with
  | Ok (n, _) => n
  | _ => 0
  end.

(** The title shown for confirmation: from the first catalog record in
    PPN mode, the entered one otherwise. *)
Definition title_for (sru : catalog) (w : world) (title : string) : Prop :=
  if cflag w enablePPNLookup then
    ∃ response record,
      sru (sruSearchString (entered_catid w)) "GGC" = Some response
      ∧ head (records response) = Some record
      ∧ record_title record = Some title
  else title = Py.strip (etext w title_entry).

(** The ways [on_submit] can go: how it leaves and what it does after the
    catalog search. *)
Inductive submission (sru : catalog) (confirm : bool) (jobID : string)
    (w : world) : result unit → list effect → Prop :=
  | sub_not_ready :
      cflag w batchIsOpen = false →
      submission sru confirm jobID w (Ok tt)
        [ShowError "Not ready"
           "You must first create a batch or open an existing batch"]
  | sub_type_mismatch :
      cflag w batchIsOpen = true →
      Py.int (entered_volumeNo w) = None →
      submission sru confirm jobID w (Ok tt)
        [ShowError "Type mismatch" "Volume number must be integer value"]
  | sub_value_error v :
      cflag w batchIsOpen = true →
      Py.int (entered_volumeNo w) = Some v → v < 1 →
      submission sru confirm jobID w (Ok tt)
        [ShowError "Value error"
           "Volume number must be greater than or equal to 1"]
  | sub_not_found v :
      cflag w batchIsOpen = true →
      Py.int (entered_volumeNo w) = Some v → 1 ≤ v →
      records_found sru w = 0 →
      submission sru confirm jobID w (Ok tt)
        [ShowError "PPN not found"
           ("Search for PPN=" +:+ entered_catid w +:+ " returned "
            +:+ "no matching record in catalog!")]
  | sub_raised v e :
      cflag w batchIsOpen = true →
      Py.int (entered_volumeNo w) = Some v → 1 ≤ v →
      records_found sru w ≠ 0 →
      cflag w enablePPNLookup = true →
      submission sru confirm jobID w (Raised e) []
  | sub_declined v title :
      cflag w batchIsOpen = true →
      Py.int (entered_volumeNo w) = Some v → 1 ≤ v →
      records_found sru w ≠ 0 →
      title_for sru w title →
      confirm = false →
      submission sru confirm jobID w (Ok tt)
        [AskYesNo "Confirm" (confirm_msg title) false]
  | sub_accepted v title :
      cflag w batchIsOpen = true →
      Py.int (entered_volumeNo w) = Some v → 1 ≤ v →
      records_found sru w ≠ 0 →
      title_for sru w title →
      confirm = true →
      submission sru confirm jobID w (Ok tt)
        [AskYesNo "Confirm" (confirm_msg title) true;
         ShowInfo "Load disc" (load_msg title (entered_volumeNo w));
         TvInsert (pretty (carrierNumber w + 1))
           (entered_catid w, title, entered_volumeNo w);
         ThreadStart
           (make_carrierData jobID (entered_catid w) title (entered_volumeNo w))].

(** A field of the carrier data holds a non-empty string. *)
Definition populated (cd : gmap string string) (key : string) : Prop :=
  ∃ v, cd !! key = Some v ∧ v ≠ EmptyString.

(** The call ends by showing an error box with one of the titles. *)
Definition error_shown {A} (m : M A) (w : world) (titles : list string) : Prop :=
  ∃ title msg,
    last (effects_of m w) = Some (ShowError title msg) ∧ title ∈ titles.

(** A turn of the loop in which the operator does nothing. *)
Definition idle (t : turn) : Prop := gui_events t = [].

(** A catalog with one record under the identifier 123456789. *)
Definition example_catalog : catalog := λ query db,
  if decide (query = sruSearchString "123456789") then
    Some {| nr_of_records := 1;
            records := [{| titlesMain := ["Het boek"];
                           titlesIntermediate := ["deel 2"];
                           titles := [] |}] |}
  else None.

(** A started program with a new batch [kb-0001]. *)
Definition example_batch (ppn startOnFin : string) : world :=
  (on_create "0001" (example_started ppn startOnFin)).2.

(** The operator has typed a title and a volume number (title mode), or a
    catalog identifier and a volume number (PPN mode). *)
Definition example_titled (startOnFin title volumeNo : string) : world :=
  type_into title_entry title
    (type_into volumeNo_entry volumeNo (example_batch "False" startOnFin)).

Definition example_ppn (catid volumeNo : string) : world :=
  type_into catid_entry catid
    (type_into volumeNo_entry volumeNo (example_batch "True" "False")).

Definition example_inputs (jobID : string) : inputs :=
  {| in_uuid := jobID; in_dir := EmptyString; in_confirm := true;
     in_sched := [false; true; false] |}.

(** ** Notions used in the statements on start-up *)

(** The folder of the configuration file (lines 698-714); there is none
    on Windows without [USERPROFILE]. *)
Definition config_dir (env : startup_env) (w : world) : option string :=
  if decide (platform w = "Windows") then
    (λ userDir, Path.join (platform w) userDir "iromlab") <$> USERPROFILE env
  else Some (Path.join (platform w) (package_dir env) "conf").

(** The elements that [getConfiguration] reads without a handler, and
    those it reads inside [try ... except: pass], in the order of the
    code. *)
Definition required_elements : list string :=
  ["cdDriveLetter"; "rootDir"; "tempDir"; "secondsToTimeout"; "prefixBatch";
   "audioFormat"; "reportFormatString"; "isoBusterExe";
   "dBpowerampConsoleRipExe"].

Definition optional_elements : list string :=
  ["socketHost"; "socketPort"; "enablePPNLookup"; "startOnFinalize";
   "enableSocketAPI"].

(** The error box of [findElementText] for an element that is not there. *)
Definition missing_element (elt : gmap string string) (name : string)
  : list effect :=
  match elt !! name with
  | None => [ShowError "Error" ("no element found at ./config/" +:+ name)]
  | Some _ => []
  end.

(** The text of an element, and the value of a flag after its optional
    element has been read. *)
Definition element_text (elt : gmap string string) (name : string) : string :=
  default EmptyString (elt !! name).

Definition configured_flag (elt : gmap string string) (name : string)
    (before : bool) : bool :=
  match elt !! name with
  | Some v => bool_decide (v = "True")
  | None => before
  end.

(** ** More examples *)

(** A catalog that counts one record for every identifier and hands
    none over. *)
Definition example_catalog_no_records : catalog := λ query db,
  Some {| nr_of_records := 1; records := [] |}.

(** The operator has submitted volume 2 of 123456789 and answered no to
    the confirmation: the form is still enabled. *)
Definition example_declined : world :=
  (on_submit example_catalog false "job-1" (example_ppn "123456789" "2")).2.

(** A carrier is being processed, in PPN mode and in title mode. *)
Definition example_processing : world :=
  (on_submit example_catalog true "job-1" (example_ppn "123456789" "1")).2.

Definition example_processing_title : world :=
  (on_submit example_catalog true "job-1"
     (example_titled "False" "Het boek" "1")).2.

(** A turn of the loop during which the worker ends. *)
Definition example_finishing_turn : turn :=
  {| socket_message := None; gui_events := []; worker_ends := true |}.

(** The example installation without its configuration file, and two
    configurations with an element taken out. *)
Definition example_unconfigured : world :=
  upd_files (delete "/opt/iromlab/conf/config.xml") example_boot.

Definition example_env_without (name : string) : startup_env :=
  example_env (delete name (config_xml "True" "False" "flac")) ["D"; "E"].
(** * Properties *)

(** ** Sequencing *)

Lemma bind_unfold {A B} (m : M A) (f : A → M B) (w : world) :
  (m ≫= f) w =
  match m w with
  | (Ok a, w') => f a w'
  | (Raised e, w') => (Raised e, w')
  | (Exited, w') => (Exited, w')
  | (Waiting, w') => (Waiting, w')
  end.
Proof. reflexivity. Qed.

Lemma bind_Ok {A B} (m : M A) (f : A → M B) w a w1 :
  m w = (Ok a, w1) → (m ≫= f) w = f a w1.
Proof. intros H. rewrite bind_unfold, H. reflexivity. Qed.

Lemma bind_Raised {A B} (m : M A) (f : A → M B) w e w1 :
  m w = (Raised e, w1) → (m ≫= f) w = (Raised e, w1).
Proof. intros H. rewrite bind_unfold, H. reflexivity. Qed.

Lemma bind_Ok_inv {A B} (m : M A) (f : A → M B) w b w2 :
  (m ≫= f) w = (Ok b, w2) →
  ∃ a w1, m w = (Ok a, w1) ∧ f a w1 = (Ok b, w2).
Proof.
  rewrite bind_unfold. destruct (m w) as [[a| | |] w1]; try discriminate.
  intros H. exists a, w1. split; [reflexivity | exact H].
Qed.

(** ** What a piece of code adds to the trace *)

Section Appends.
Context (P : effect → Prop).

Lemma appends_silent {A} (m : M A) :
  (∀ w, trace (m w).2 = trace w) → appends P m.
Proof.
  intros H w. exists []. rewrite H, app_nil_r. split; [reflexivity | constructor].
Qed.

Lemma appends_ret {A} (a : A) : appends P (mret a).
Proof. apply appends_silent. reflexivity. Qed.

Lemma appends_raise {A} e : appends P (raise (A := A) e).
Proof. apply appends_silent. reflexivity. Qed.

Lemma appends_os_exit {A} : appends P (os_exit (A := A)).
Proof. apply appends_silent. reflexivity. Qed.

Lemma appends_gets {A} (f : world → A) : appends P (gets f).
Proof. apply appends_silent. reflexivity. Qed.

Lemma appends_emit e : P e → appends P (emit e).
Proof.
  intros He [] . exists [e]. split; [reflexivity | by constructor].
Qed.

Lemma appends_bind {A B} (m : M A) (f : A → M B) :
  appends P m → (∀ a, appends P (f a)) → appends P (m ≫= f).
Proof.
  intros Hm Hf w. rewrite bind_unfold.
  destruct (Hm w) as (es1 & E1 & F1).
  destruct (m w) as [[a| | |] w1]; simpl in *; eauto.
  destruct (Hf a w1) as (es2 & E2 & F2).
  exists (es1 ++ es2). rewrite E2, E1, app_assoc.
  split; [reflexivity | by apply Forall_app].
Qed.

Lemma appends_fmap {A B} (g : A → B) (m : M A) :
  appends P m → appends P (g <$> m).
Proof.
  intros Hm w. destruct (Hm w) as (es & E & F). exists es.
  unfold fmap, M_fmap. destruct (m w) as [[a| | |] w1]; simpl in *; eauto.
Qed.

Lemma appends_try_except {A} (m h : M A) handled :
  appends P m → appends P h → appends P (try_except m handled h).
Proof.
  intros Hm Hh w. unfold try_except.
  destruct (Hm w) as (es1 & E1 & F1).
  destruct (m w) as [[a|e| |] w1]; simpl in *; eauto.
  destruct (handled e); simpl; eauto.
  destruct (Hh w1) as (es2 & E2 & F2).
  exists (es1 ++ es2). rewrite E2, E1, app_assoc.
  split; [reflexivity | by apply Forall_app].
Qed.

Lemma appends_waiting {A} : appends P (act (A := A) (λ w, (Waiting, w))).
Proof. apply appends_silent. reflexivity. Qed.

(** State updates that leave the trace alone. *)
Lemma appends_set_str a v : appends P (set_str a v).
Proof. apply appends_silent. by intros []. Qed.
Lemma appends_set_flag f v : appends P (set_flag f v).
Proof. apply appends_silent. by intros []. Qed.
Lemma appends_set_svar x v : appends P (set_svar x v).
Proof. apply appends_silent. by intros []. Qed.
Lemma appends_button_config b s : appends P (button_config b s).
Proof. apply appends_silent. by intros []. Qed.
Lemma appends_entry_config e s : appends P (entry_config e s).
Proof. apply appends_silent. by intros []. Qed.
Lemma appends_entry_delete_all e : appends P (entry_delete_all e).
Proof.
  apply appends_silent. intros []. unfold entry_delete_all, modify. simpl.
  by destruct (estate0 e).
Qed.
Lemma appends_entry_insert_end e s : appends P (entry_insert_end e s).
Proof.
  apply appends_silent. intros []. unfold entry_insert_end, modify. simpl.
  by destruct (estate0 e).
Qed.
Lemma appends_upd_carrierNumber f : appends P (modify (upd_carrierNumber f)).
Proof. apply appends_silent. by intros []. Qed.
Lemma appends_upd_t1 f : appends P (modify (upd_t1 f)).
Proof. apply appends_silent. by intros []. Qed.
Lemma appends_upd_workers f : appends P (modify (upd_workers f)).
Proof. apply appends_silent. by intros []. Qed.
Lemma appends_makedirs p : appends P (makedirs p).
Proof.
  apply appends_silent. intros []. unfold makedirs. simpl.
  by destruct (_ || _).
Qed.
Lemma appends_write_line p l : appends P (write_line p l).
Proof. apply appends_silent. by intros []. Qed.
Lemma appends_open_file folder name truncate :
  appends P (open_file folder name truncate).
Proof.
  apply appends_silent. intros []. unfold open_file, act, path_join.
  rewrite bind_unfold. simpl. by destruct (_ && _).
Qed.

End Appends.

Create HintDb appends.
#[export] Hint Resolve appends_ret appends_raise appends_os_exit appends_gets
  appends_fmap appends_waiting appends_set_str appends_set_flag
  appends_set_svar appends_button_config appends_entry_config
  appends_entry_delete_all appends_entry_insert_end appends_upd_carrierNumber
  appends_upd_t1 appends_upd_workers appends_makedirs appends_write_line
  appends_open_file : appends.

(** Walks through a callback; an emitted effect has to satisfy the
    predicate by computation. *)
Ltac appends_step :=
  first
    [ solve [auto with appends]
    | apply appends_emit; solve [lazy; reflexivity]
    | apply appends_try_except
    | apply appends_bind; [| intros ?]
    | match goal with
      | |- appends _ (let '(_, _) := ?x in _) => destruct x
      | |- appends _ (if ?b then _ else _) => destruct b
      | |- appends _ (match ?x with _ => _ end) => destruct x
      end ].
Ltac appends_walk := repeat appends_step.

(** ** No drive detection and no worker thread outside their places *)

Lemma on_create_quiet batchID : appends quiet (on_create batchID).
Proof.
  unfold on_create, create_batch_folder, write_manifest_header,
    announce_batch, setupLogger, enable_carrier_entry, mark_batch_open,
    showerror, showinfo, logging_info, local, path_join, isfile, get_str, get_flag.
  appends_walk.
Qed.
#[export] Hint Resolve on_create_quiet : appends.

Lemma on_open_quiet chosen : appends quiet (on_open chosen).
Proof.
  unfold on_open, setupLogger, enable_carrier_entry, mark_batch_open,
    showerror, showinfo, logging_info, path_join, get_str, get_flag.
  appends_walk.
Qed.
#[export] Hint Resolve on_open_quiet : appends.

Lemma on_submit_quiet sru confirm jobID :
  appends quiet (on_submit sru confirm jobID).
Proof.
  unfold on_submit, confirm_and_start, lookup_records, title_of_record, next,
    local, showerror, showinfo, askyesno, entry_get, get_flag.
  appends_walk.
Qed.
#[export] Hint Resolve on_submit_quiet : appends.

Lemma worker_done_silent P : appends P worker_done.
Proof. unfold worker_done. appends_walk. Qed.
#[export] Hint Resolve worker_done_silent : appends.

Lemma wait_processingDisc_quiet sched : appends quiet (wait_processingDisc sched).
Proof.
  induction sched as [|ended sched IH]; simpl; unfold get_flag, sleep.
  - appends_walk.
  - appends_walk.
Qed.
#[export] Hint Resolve wait_processingDisc_quiet : appends.

Lemma on_quit_quiet sched : appends quiet (on_quit sched).
Proof.
  unfold on_quit, showinfo, sleep, get_flag.
  appends_walk.
Qed.
#[export] Hint Resolve on_quit_quiet : appends.

Lemma bump_volumeNo_silent P : appends P bump_volumeNo.
Proof. unfold bump_volumeNo, next_volumeNo. appends_walk. Qed.
#[export] Hint Resolve bump_volumeNo_silent : appends.

Lemma use_previous_quiet old e title msg :
  appends quiet (use_previous old e title msg).
Proof.
  unfold use_previous, showerror.
  appends_walk.
Qed.
#[export] Hint Resolve use_previous_quiet : appends.

Lemma reset_carrier_silent P : appends P reset_carrier.
Proof. unfold reset_carrier, get_flag. appends_walk. Qed.
#[export] Hint Resolve reset_carrier_silent : appends.

Lemma handleSocketRequests_silent P message :
  appends P (handleSocketRequests message).
Proof.
  unfold handleSocketRequests, get_flag.
  appends_walk.
Qed.
#[export] Hint Resolve handleSocketRequests_silent : appends.

Lemma command_quiet sru b i : appends quiet (command sru b i).
Proof.
  destruct b; simpl; unfold on_usepreviousPPN, on_usepreviousTitle;
    auto using on_create_quiet, on_open_quiet, on_quit_quiet, on_submit_quiet,
      use_previous_quiet.
Qed.
#[export] Hint Resolve command_quiet : appends.

Lemma call_wrapper_quiet m : appends quiet m → appends quiet (call_wrapper m).
Proof. intros H. apply appends_try_except; [exact H | apply appends_ret]. Qed.
#[export] Hint Resolve call_wrapper_quiet : appends.

Lemma deliver_quiet sru ev i : appends quiet (deliver sru ev i).
Proof.
  destruct ev as [b|key|]; unfold deliver.
  - apply appends_bind; [apply appends_gets | intros []].
    + apply call_wrapper_quiet, command_quiet.
    + apply appends_ret.
  - repeat case_decide;
      first [apply call_wrapper_quiet, command_quiet | apply appends_ret].
  - apply call_wrapper_quiet, command_quiet.
Qed.
#[export] Hint Resolve deliver_quiet : appends.

Lemma update_quiet sru evs : appends quiet (update sru evs).
Proof.
  induction evs as [|[ev i] evs IH]; simpl.
  - apply appends_ret.
  - apply appends_bind; [apply deliver_quiet | intros _; exact IH].
Qed.
#[export] Hint Resolve update_quiet : appends.

Lemma join_t1_silent P : appends P join_t1.
Proof. unfold join_t1. appends_walk. Qed.
#[export] Hint Resolve join_t1_silent : appends.

Lemma main_iteration_quiet sru t : appends quiet (main_iteration sru t).
Proof.
  unfold main_iteration, get_flag, sleep. appends_walk.
Qed.
#[export] Hint Resolve main_iteration_quiet : appends.

Lemma main_loop_quiet sru turns : appends quiet (main_loop sru turns).
Proof.
  induction turns as [|t turns IH]; simpl.
  - apply appends_ret.
  - apply appends_bind; [apply main_iteration_quiet | intros _; exact IH].
Qed.
#[export] Hint Resolve main_loop_quiet : appends.


(** ** Effects of a run, counted *)

Lemma effects_of_eq {A} (m : M A) w es :
  trace (m w).2 = trace w ++ es → effects_of m w = es.
Proof. intros H. unfold effects_of. rewrite H. apply drop_app_length. Qed.

Lemma drive_checks_app es1 es2 :
  drive_checks (es1 ++ es2) = (drive_checks es1 + drive_checks es2)%nat.
Proof. unfold drive_checks. by rewrite filter_app, length_app. Qed.

Lemma drive_checks_quiet es : Forall quiet es → drive_checks es = 0%nat.
Proof.
  unfold drive_checks, quiet. induction 1 as [|e es He _ IH]; [reflexivity|].
  rewrite filter_cons_False; [exact IH | congruence].
Qed.

Lemma thread_starts_no_thread es : Forall no_thread es → thread_starts es = [].
Proof.
  unfold thread_starts, no_thread. induction 1 as [|e es He _ IH]; [reflexivity|].
  destruct e; simpl in *; first [discriminate | exact IH].
Qed.

Lemma appends_drive_checks {A} (m : M A) w :
  appends quiet m → drive_checks (effects_of m w) = 0%nat.
Proof.
  intros H. destruct (H w) as (es & E & F).
  rewrite (effects_of_eq _ _ _ E). by apply drive_checks_quiet.
Qed.

Lemma appends_started_by {A} (m : M A) w :
  appends no_thread m → started_by m w = [].
Proof.
  intros H. destruct (H w) as (es & E & F). unfold started_by.
  rewrite (effects_of_eq _ _ _ E). by apply thread_starts_no_thread.
Qed.

(** ** Start-up *)

Lemma configure_appends P env :
  (∀ t m, P (ShowError t m)) → (∀ s, P (Stdout s)) → appends P (configure env).
Proof.
  intros HE HS.
  assert (∀ A msg, appends P (errorExit (A := A) msg)) as Hexit.
  { intros A msg. unfold errorExit, showerror.
    apply appends_bind; [apply appends_emit, HE | intros; apply appends_raise]. }
  assert (∀ p, appends P (checkFileExists p)) as Hfile.
  { intros p. unfold checkFileExists, isfile, showerror.
    apply appends_bind; [apply appends_gets | intros []]; [apply appends_ret|].
    apply appends_bind; [apply appends_emit, HE | intros; apply appends_raise]. }
  assert (∀ p, appends P (checkDirExists p)) as Hdir.
  { intros p. unfold checkDirExists, isdir, showerror.
    apply appends_bind; [apply appends_gets | intros []]; [apply appends_ret|].
    apply appends_bind; [apply appends_emit, HE | intros; apply appends_raise]. }
  assert (∀ elt name, appends P (findElementText elt name)) as Hfind.
  { intros elt name. unfold findElementText. destruct (elt !! name); auto with appends. }
  assert (∀ s, appends P (emit (Stdout s))) as Hout.
  { intros s. apply appends_emit, HS. }
  unfold configure, read_required, read_optional, read_optional_flag,
    normalise, join4, join3, path_join, isfile, get_str.
  appends_walk.
Qed.

Lemma check_drive_found env w :
  cstr w cdDriveLetter ∈ getDrives env →
  check_drive env w = (Ok tt, upd_trace (λ t, t ++ [GetDrives]) w).
Proof.
  intros H. destruct w. unfold check_drive, emit, modify, get_str, gets.
  rewrite !bind_unfold. simpl in *. by rewrite bool_decide_eq_true_2.
Qed.

Lemma check_drive_missing env w :
  cstr w cdDriveLetter ∉ getDrives env →
  check_drive env w =
    (Raised SystemExit,
     upd_trace (λ t, t ++ [GetDrives;
                           ShowError "Error"
                             (dquote +:+ cstr w cdDriveLetter +:+ dquote
                              +:+ " is not a valid optical drive!")]) w).
Proof.
  intros H. destruct w.
  unfold check_drive, errorExit, showerror, emit, modify, get_str, gets, raise.
  rewrite !bind_unfold. simpl in *. rewrite bool_decide_eq_false_2 by done.
  rewrite !bind_unfold. simpl. by rewrite <- app_assoc.
Qed.

Lemma check_audioFormat_valid w :
  cstr w audioFormat = "wav" ∨ cstr w audioFormat = "flac" →
  check_audioFormat w = (Ok tt, w).
Proof.
  intros H. unfold check_audioFormat, get_str, gets. rewrite bind_unfold.
  rewrite bool_decide_eq_true_2; [reflexivity|].
  rewrite !elem_of_cons. tauto.
Qed.

Lemma check_audioFormat_invalid w :
  cstr w audioFormat ≠ "wav" → cstr w audioFormat ≠ "flac" →
  ∃ msg, check_audioFormat w =
           (Raised SystemExit, upd_trace (λ t, t ++ [ShowError "Error" msg]) w).
Proof.
  intros H1 H2. eexists. unfold check_audioFormat, get_str, gets.
  rewrite bind_unfold. rewrite bool_decide_eq_false_2.
  - unfold errorExit, showerror, emit, modify, raise. rewrite bind_unfold.
    reflexivity.
  - rewrite !elem_of_cons, elem_of_nil. tauto.
Qed.

Lemma check_audioFormat_quiet : appends quiet check_audioFormat.
Proof. unfold check_audioFormat, errorExit, showerror, get_str. appends_walk. Qed.

Lemma build_gui_appends P env :
  appends P (getConfiguration env) → appends P (build_gui env).
Proof. intros H. unfold build_gui, build_gui_widgets, get_flag. appends_walk. Qed.

Lemma startup_eq env w : startup env w = build_gui env (at_build_gui w).
Proof. by destruct w. Qed.

Lemma at_build_gui_trace w : trace (at_build_gui w) = trace w.
Proof. by destruct w. Qed.

Lemma startup_no_thread env : appends no_thread (startup env).
Proof.
  assert (appends no_thread (getConfiguration env)) as H.
  { unfold getConfiguration.
    apply appends_bind; [by apply configure_appends | intros _].
    unfold check_drive, check_audioFormat, errorExit, showerror, get_str.
    appends_walk. }
  intros w. rewrite startup_eq.
  destruct (build_gui_appends _ env H (at_build_gui w)) as (es & E & F).
  exists es. by rewrite E, at_build_gui_trace.
Qed.

(** A failing start-up is the whole run: the loop is never entered. *)
Lemma main_startup_fails env sru turns w r w' :
  startup env w = (r, w') → r ≠ Ok tt →
  main env sru turns w = (r, w') ∧ started_by (main env sru turns) w = [].
Proof.
  intros Hs Hr.
  assert (main env sru turns w = (r, w')) as Hm.
  { unfold main. rewrite bind_unfold, Hs. by destruct r as [[]| | |]. }
  split; [exact Hm|].
  unfold started_by, effects_of. rewrite Hm.
  pose proof (appends_started_by (startup env) w (startup_no_thread env)) as H.
  unfold started_by, effects_of in H. by rewrite Hs in H.
Qed.

Lemma bind_assoc {A B C} (m : M A) (f : A → M B) (g : B → M C) w :
  ((m ≫= f) ≫= g) w = (m ≫= λ a, f a ≫= g) w.
Proof. rewrite !bind_unfold. by destruct (m w) as [[a| | |] w1]. Qed.

(** Once [configure] has succeeded, the rest of start-up is the two checks
    and the making of the widgets. *)
Lemma startup_after_configure env w w1 :
  configure env (at_build_gui w) = (Ok tt, w1) →
  startup env w =
    (check_drive env ≫= λ _, check_audioFormat ≫= λ _, build_gui_widgets) w1.
Proof.
  intros Hc. rewrite startup_eq. unfold build_gui, getConfiguration.
  rewrite bind_assoc, (bind_Ok _ _ _ _ _ Hc), bind_assoc.
  reflexivity.
Qed.

Lemma after_drive_check_quiet :
  appends quiet (check_audioFormat ≫= λ _, build_gui_widgets).
Proof.
  apply appends_bind; [apply check_audioFormat_quiet | intros _].
  unfold build_gui_widgets, get_flag. appends_walk.
Qed.

Lemma startup_trace env w w1 :
  configure env (at_build_gui w) = (Ok tt, w1) →
  ∃ es1 es2,
    trace (startup env w).2 = trace w ++ es1 ++ GetDrives :: es2
    ∧ Forall quiet es1 ∧ Forall quiet es2.
Proof.
  intros Hc. rewrite (startup_after_configure _ _ _ Hc).
  destruct (configure_appends quiet env (λ _ _, eq_refl) (λ _, eq_refl)
              (at_build_gui w)) as (es1 & E1 & F1).
  rewrite Hc, at_build_gui_trace in E1. simpl in E1.
  exists es1. rewrite bind_unfold.
  destruct (decide (cstr w1 cdDriveLetter ∈ getDrives env)) as [Hin|Hout].
  - rewrite (check_drive_found _ _ Hin).
    destruct (after_drive_check_quiet (upd_trace (λ t, t ++ [GetDrives]) w1))
      as (es2 & E2 & F2).
    exists es2. rewrite E2. destruct w1; simpl in *. subst.
    by rewrite <- !app_assoc.
  - rewrite (check_drive_missing _ _ Hout).
    exists [ShowError "Error"
              (dquote +:+ cstr w1 cdDriveLetter +:+ dquote
               +:+ " is not a valid optical drive!")].
    destruct w1; simpl in *. subst. rewrite <- !app_assoc.
    split; [reflexivity|]. split; [done|]. by repeat constructor.
Qed.

(** C6: the drive identifier is checked against the detected drives once,
    during start-up (in [getConfiguration]) and never by the loop or a
    submission; when [config.cdDriveLetter] is not among the detected
    drives the error is shown, [sys.exit()] ends the run and no carrier
    has been handed to a worker. *)
Theorem C6_drive_checked_once_at_startup env sru turns w w1 :
  configure env (at_build_gui w) = (Ok tt, w1) →
  drive_checks (effects_of (startup env) w) = 1%nat
  ∧ (∀ w', drive_checks (effects_of (main_loop sru turns) w') = 0%nat)
  ∧ (∀ confirm jobID w',
       drive_checks (effects_of (on_submit sru confirm jobID) w') = 0%nat)
  ∧ (cstr w1 cdDriveLetter ∉ getDrives env →
       (main env sru turns w).1 = Raised SystemExit
       ∧ started_by (main env sru turns) w = []
       ∧ last (trace (main env sru turns w).2)
         = Some (ShowError "Error"
                   (dquote +:+ cstr w1 cdDriveLetter +:+ dquote
                    +:+ " is not a valid optical drive!"))).
Proof.
  intros Hc. split; [|split; [|split]].
  - destruct (startup_trace _ _ _ Hc) as (es1 & es2 & E & F1 & F2).
    rewrite (effects_of_eq _ _ _ E), drive_checks_app.
    change (GetDrives :: es2) with ([GetDrives] ++ es2).
    rewrite drive_checks_app.
    rewrite (drive_checks_quiet es1), (drive_checks_quiet es2) by done.
    reflexivity.
  - intros w'. apply appends_drive_checks, main_loop_quiet.
  - intros confirm jobID w'. apply appends_drive_checks, on_submit_quiet.
  - intros Hout.
    pose proof (startup_after_configure _ _ _ Hc) as Hs.
    rewrite bind_unfold, (check_drive_missing _ _ Hout) in Hs.
    destruct (main_startup_fails _ sru turns _ _ _ Hs ltac:(done)) as [Hm Hn].
    split; [by rewrite Hm|]. split; [exact Hn|].
    rewrite Hm. destruct w1. simpl. apply last_Some.
    exists (trace0 ++ [GetDrives]). by rewrite <- app_assoc.
Qed.

Lemma build_gui_widgets_returns w : (build_gui_widgets w).1 = Ok tt.
Proof.
  destruct w. unfold build_gui_widgets, get_flag, gets, button_config,
    entry_config, modify.
  rewrite !bind_unfold. simpl. by destruct (cflag0 enablePPNLookup).
Qed.

(** C7: the audio format is validated during start-up; any value other
    than "wav" and "flac" shows the error and ends the run with
    [sys.exit()] before a carrier can be submitted, and each of the two
    values passes the check. *)
Theorem C7_audio_format_validated env sru turns w w2 :
  (configure env;; check_drive env) (at_build_gui w) = (Ok tt, w2) →
  if bool_decide (cstr w2 audioFormat = "wav" ∨ cstr w2 audioFormat = "flac")
  then
    check_audioFormat w2 = (Ok tt, w2)
    ∧ (startup env w).1 = Ok tt
  else
    (∃ msg, check_audioFormat w2 =
              (Raised SystemExit,
               upd_trace (λ t, t ++ [ShowError "Error" msg]) w2))
    ∧ (main env sru turns w).1 = Raised SystemExit
    ∧ started_by (main env sru turns) w = [].
Proof.
  intros Hc.
  assert (startup env w = (check_audioFormat ≫= λ _, build_gui_widgets) w2)
    as Hs.
  { rewrite startup_eq. unfold build_gui, getConfiguration.
    rewrite bind_assoc.
    apply bind_Ok_inv in Hc as ([] & w1 & Hc1 & Hc2).
    rewrite (bind_Ok _ _ _ _ _ Hc1), bind_assoc, (bind_Ok _ _ _ _ _ Hc2).
    reflexivity. }
  case_bool_decide as Hfmt.
  - pose proof (check_audioFormat_valid _ Hfmt) as Hv. split; [exact Hv|].
    rewrite Hs, (bind_Ok _ _ _ _ _ Hv). apply build_gui_widgets_returns.
  - destruct (check_audioFormat_invalid w2) as (msg & Hi); [tauto..|].
    split; [by exists msg|].
    rewrite bind_unfold, Hi in Hs.
    destruct (main_startup_fails _ sru turns _ _ _ Hs ltac:(done)) as [Hm Hn].
    by rewrite Hm.
Qed.

(** ** Submission *)

Ltac unfold_callback :=
  unfold confirm_and_start, lookup_records, title_of_record, next, local,
    entry_get, entry_config, button_config, set_svar, set_flag, get_flag,
    set_str, get_str, showerror, showinfo, askyesno, logging_info, sleep,
    emit, raise, os_exit, modify, gets, act,
    mbind, M_bind, mret, M_ret, fmap, M_fmap.

Ltac callback_simpl :=
  cbn -[Py.strip Py.int make_carrierData pretty String.append
        confirm_msg load_msg sruSearchString app];
  rewrite ?fn_lookup_insert, ?fn_lookup_insert_ne by done.

(** The same, with the state updates carried out first. *)
Ltac state_simpl :=
  repeat (progress
    (cbv beta iota zeta delta
       [upd_cstr upd_cflag upd_bstate upd_estate upd_etext upd_svar
        upd_carrierNumber upd_t1 upd_dirs upd_files upd_workers upd_trace
        platform cstr cflag bstate estate etext svar carrierNumber t1 dirs
        files workers trace negb fst snd];
     rewrite ?fn_lookup_insert, ?fn_lookup_insert_ne by done));
  callback_simpl.

Lemma submission_eq sru confirm jobID w r es es' :
  submission sru confirm jobID w r es → es = es' →
  submission sru confirm jobID w r es'.
Proof. by intros H <-. Qed.

(** The end of a path through [on_submit]: name the effects, then say
    which way it went (constructor [c]). *)
Ltac submission_leaf c :=
  eexists; split; [|split; [|split]];
  [ rewrite <- ?app_assoc; simpl; reflexivity
  | reflexivity
  | simpl; rewrite ?app_nil_r; reflexivity
  | eapply submission_eq; [eapply c|];
    unfold records_found, title_for, entered_volumeNo, entered_catid,
      lookup_records;
    unfold_callback; callback_simpl;
    repeat match goal with
           | H : cflag _ _ = _ |- _ => simpl in H
           | H : ?f ?x = _ |- context [?f ?x] => rewrite H
           end;
    callback_simpl;
    repeat case_decide; try done; try lia; eauto ].

Lemma on_submit_submission sru confirm jobID w :
  ∃ es,
    trace (on_submit sru confirm jobID w).2 = trace w ++ searches w ++ es
    ∧ cflag (on_submit sru confirm jobID w).2 = <[processingDisc := true]> (cflag w)
    ∧ workers (on_submit sru confirm jobID w).2 = workers w ++ thread_starts es
    ∧ submission sru confirm jobID w (on_submit sru confirm jobID w).1 es.
Proof.
  destruct w as [plat cs cf bs es et sv cn th ds fs ws tr].
  unfold on_submit, searches, entered_catid, representsInt, bool_decide.
  unfold_callback. callback_simpl.
  destruct (cf enablePPNLookup) eqn:Hppn; callback_simpl.
  - (* PPN mode *)
    destruct (decide (Py.strip (et catid_entry) = "")) as [Hcat|Hcat];
      callback_simpl.
    + (* nothing entered: no search *)
      destruct (cf batchIsOpen) eqn:Hopen; callback_simpl;
        [|submission_leaf sub_not_ready].
      destruct (Py.int (Py.strip (et volumeNo_entry))) as [v|] eqn:Hint;
        callback_simpl; [|submission_leaf sub_type_mismatch].
      destruct (Z.ltb_spec v 1); callback_simpl;
        [submission_leaf sub_value_error | submission_leaf sub_not_found].
    + destruct (sru _ _) as [[nr recs]|] eqn:Hsru; callback_simpl;
        (destruct (cf batchIsOpen) eqn:Hopen; callback_simpl;
          [|submission_leaf sub_not_ready]);
        (destruct (Py.int (Py.strip (et volumeNo_entry))) as [v|] eqn:Hint;
          callback_simpl; [|submission_leaf sub_type_mismatch]);
        (destruct (Z.ltb_spec v 1); callback_simpl;
          [submission_leaf sub_value_error|]).
      * destruct (Z.eqb_spec nr 0); callback_simpl;
          [submission_leaf sub_not_found|].
        destruct recs as [|record recs]; callback_simpl;
          [submission_leaf sub_raised|].
        destruct (record_title record) as [title|] eqn:Htitle;
          callback_simpl; [|submission_leaf sub_raised].
        destruct confirm; callback_simpl;
          [submission_leaf sub_accepted | submission_leaf sub_declined].
      * submission_leaf sub_not_found.
  - (* title mode *)
    destruct (cf batchIsOpen) eqn:Hopen; callback_simpl;
      [|submission_leaf sub_not_ready].
    destruct (Py.int (Py.strip (et volumeNo_entry))) as [v|] eqn:Hint;
      callback_simpl; [|submission_leaf sub_type_mismatch].
    destruct (Z.ltb_spec v 1); callback_simpl;
      [submission_leaf sub_value_error|].
    destruct confirm; callback_simpl;
      [submission_leaf sub_accepted | submission_leaf sub_declined].
Qed.

Lemma thread_starts_app es1 es2 :
  thread_starts (es1 ++ es2) = thread_starts es1 ++ thread_starts es2.
Proof. apply omap_app. Qed.

Lemma thread_starts_searches w : thread_starts (searches w) = [].
Proof. unfold searches. by repeat case_match. Qed.

Lemma on_submit_effects sru confirm jobID w :
  ∃ es,
    effects_of (on_submit sru confirm jobID) w = searches w ++ es
    ∧ started_by (on_submit sru confirm jobID) w = thread_starts es
    ∧ submission sru confirm jobID w (on_submit sru confirm jobID w).1 es.
Proof.
  destruct (on_submit_submission sru confirm jobID w) as (es & E & _ & _ & S).
  exists es. unfold started_by. rewrite (effects_of_eq _ _ _ E).
  by rewrite thread_starts_app, thread_starts_searches.
Qed.

(** Only one path hands a carrier to a worker. *)
Lemma started_by_on_submit sru confirm jobID w cd :
  cd ∈ started_by (on_submit sru confirm jobID) w →
  ∃ v title,
    cflag w batchIsOpen = true
    ∧ Py.int (entered_volumeNo w) = Some v ∧ 1 ≤ v
    ∧ records_found sru w ≠ 0
    ∧ title_for sru w title
    ∧ confirm = true
    ∧ cd = make_carrierData jobID (entered_catid w) title (entered_volumeNo w).
Proof.
  destruct (on_submit_effects sru confirm jobID w) as (es & _ & -> & S).
  inversion S; subst; simpl; intros Hcd;
    try (by apply elem_of_nil in Hcd).
  apply list_elem_of_singleton in Hcd. eauto 10.
Qed.

Lemma make_carrierData_lookup jobID catid title volumeNo :
  let cd := make_carrierData jobID catid title volumeNo in
  cd !! "jobID" = Some jobID ∧ cd !! "PPN" = Some catid
  ∧ cd !! "title" = Some title ∧ cd !! "volumeNo" = Some volumeNo.
Proof.
  unfold make_carrierData. simpl.
  rewrite !lookup_insert. repeat case_decide; try done. 
Qed.

Lemma records_found_ppn sru w :
  cflag w enablePPNLookup = true → records_found sru w ≠ 0 →
  Py.strip (etext w catid_entry) ≠ "".
Proof.
  unfold records_found, entered_catid, lookup_records. intros -> H Hc.
  rewrite Hc in H. by rewrite decide_True in H.
Qed.

(** C2 (amended): in PPN mode the carrier data hold the entered,
    non-empty catalog identifier together with the title of the first
    matching catalog record; otherwise the PPN field is empty and the
    title is the entered title with surrounding whitespace stripped. *)
Theorem C2_catalog_id_and_title sru confirm jobID w cd :
  cd ∈ started_by (on_submit sru confirm jobID) w →
  if cflag w enablePPNLookup then
    let catid := Py.strip (etext w catid_entry) in
    catid ≠ "" ∧ cd !! "PPN" = Some catid
    ∧ ∃ response record title,
        sru (sruSearchString catid) "GGC" = Some response
        ∧ head (records response) = Some record
        ∧ record_title record = Some title
        ∧ cd !! "title" = Some title
  else
    cd !! "PPN" = Some "" ∧ cd !! "title" = Some (Py.strip (etext w title_entry)).
Proof.
  intros Hcd.
  apply started_by_on_submit in Hcd
    as (v & title & _ & _ & _ & Hrec & Htitle & _ & ->).
  destruct (make_carrierData_lookup jobID (entered_catid w) title
              (entered_volumeNo w)) as (_ & Hppn & Ht & _).
  rewrite Hppn, Ht. unfold title_for, entered_catid in *.
  destruct (cflag w enablePPNLookup) eqn:Hmode.
  - split; [by apply (records_found_ppn sru)|]. split; [done|].
    destruct Htitle as (response & record & ? & ? & ?). eauto 10.
  - by subst.
Qed.

Lemma last_effects_of_on_submit sru confirm jobID w e :
  effects_of (on_submit sru confirm jobID) w = searches w ++ [e] →
  last (effects_of (on_submit sru confirm jobID) w) = Some e.
Proof. intros ->. apply last_snoc. Qed.

(** C5: a carrier is handed to a worker only when the entered volume
    number is accepted by [int] and is at least 1, and then the carrier
    holds that entry; in every other case no carrier is handed over and
    the call ends with one of the validation error boxes. *)
Theorem C5_volume_number_validated sru confirm jobID w :
  let volumeNo := Py.strip (etext w volumeNo_entry) in
  let started := started_by (on_submit sru confirm jobID) w in
  match Py.int volumeNo with
  | Some v =>
      representsInt volumeNo = true
      ∧ if 1 <=? v
        then ∀ cd, cd ∈ started → cd !! "volumeNo" = Some volumeNo
        else started = []
             ∧ error_shown (on_submit sru confirm jobID) w
                 ["Not ready"; "Value error"]
  | None =>
      representsInt volumeNo = false
      ∧ started = []
      ∧ error_shown (on_submit sru confirm jobID) w
          ["Not ready"; "Type mismatch"]
  end.
Proof.
  intros volumeNo started. subst volumeNo started.
  change (Py.strip (etext w volumeNo_entry)) with (entered_volumeNo w).
  unfold representsInt, error_shown.
  destruct (on_submit_effects sru confirm jobID w) as (es & E & -> & S).
  destruct (Py.int (entered_volumeNo w)) as [v|] eqn:Hint.
  - split; [reflexivity|]. destruct (Z.leb_spec 1 v) as [Hv|Hv].
    + intros cd Hcd. inversion S; subst; simpl in Hcd;
        try (by apply elem_of_nil in Hcd).
      apply list_elem_of_singleton in Hcd as ->.
      apply make_carrierData_lookup.
    + inversion S; subst; simplify_eq; try lia; (split; [reflexivity|]);
        do 2 eexists; (split; [by apply last_effects_of_on_submit|]);
        set_solver.
  - split; [reflexivity|].
    inversion S; subst; simplify_eq; (split; [reflexivity|]);
      do 2 eexists; (split; [by apply last_effects_of_on_submit|]);
      set_solver.
Qed.

(** C10: the volume number in the carrier data is the entry with leading
    and trailing whitespace stripped, as a string, whatever form of
    integer it spells. *)
Theorem C10_volume_number_verbatim sru confirm jobID w cd :
  cd ∈ started_by (on_submit sru confirm jobID) w →
  cd !! "volumeNo" = Some (Py.strip (etext w volumeNo_entry))
  ∧ ∃ v, Py.int (Py.strip (etext w volumeNo_entry)) = Some v ∧ 1 ≤ v.
Proof.
  intros Hcd.
  apply started_by_on_submit in Hcd
    as (v & title & _ & Hint & Hv & _ & _ & _ & ->).
  split; [apply make_carrierData_lookup | by exists v].
Qed.

(** C9 (amended): in PPN mode an entry that strips to the empty string
    gives a record count of zero without a catalog search, no carrier is
    handed over, and exactly one error box is shown: "PPN not found" when
    a batch is open and the volume number is an integer of at least 1,
    otherwise the box of the check that fails first. *)
Theorem C9_empty_catalog_id sru confirm jobID w :
  cflag w enablePPNLookup = true →
  Py.strip (etext w catid_entry) = "" →
  lookup_records sru true "" w = (Ok (0, None), w)
  ∧ started_by (on_submit sru confirm jobID) w = []
  ∧ ∃ msg,
      effects_of (on_submit sru confirm jobID) w =
        [ShowError
           (if cflag w batchIsOpen then
              match Py.int (Py.strip (etext w volumeNo_entry)) with
              | None => "Type mismatch"
              | Some v => if v <? 1 then "Value error" else "PPN not found"
              end
            else "Not ready")
           msg].
Proof.
  intros Hmode Hcat. split; [reflexivity|].
  destruct (on_submit_effects sru confirm jobID w) as (es & -> & -> & S).
  assert (searches w = []) as ->.
  { unfold searches, entered_catid. rewrite Hmode, Hcat. reflexivity. }
  assert (records_found sru w = 0) as Hnone.
  { unfold records_found, entered_catid, lookup_records.
    rewrite Hmode, Hcat. reflexivity. }
  change (Py.strip (etext w volumeNo_entry)) with (entered_volumeNo w).
  inversion S; subst; simplify_eq; simpl;
    repeat match goal with H : _ = _ |- _ => rewrite H end;
    try (split; [reflexivity|]; eexists; reflexivity).
  - split; [reflexivity|]. destruct (Z.ltb_spec v 1); [|lia].
    eexists; reflexivity.
  - split; [reflexivity|]. destruct (Z.ltb_spec v 1); [lia|].
    eexists; reflexivity.
Qed.

(** ** Quitting *)

Lemma worker_done_frame w :
  (worker_done w).1 = Ok tt
  ∧ (∀ f, f ≠ finishedDisc → cflag (worker_done w).2 f = cflag w f)
  ∧ (workers w = [] → (worker_done w).2 = w).
Proof.
  destruct w as [plat cs cf bs es et sv cn th ds fs ws tr].
  unfold worker_done. unfold_callback. destruct ws as [|cd ws]; simpl.
  - done.
  - split; [done|]. split; [|done]. intros f Hf.
    by rewrite fn_lookup_insert_ne.
Qed.



(** With [readyToStart] unset the process ends at once, whatever else
    is going on. *)
Lemma on_quit_exits sched w :
  cflag w readyToStart = false →
  (on_quit sched w).1 = Exited
  ∧ cflag (on_quit sched w).2 processingDisc = cflag w processingDisc
  ∧ workers (on_quit sched w).2 = workers w.
Proof.
  intros Hready.
  destruct w as [plat cs cf bs es et sv cn th ds fs ws tr]. simpl in *.
  unfold on_quit. unfold_callback. callback_simpl.
  destruct (cf batchIsOpen); callback_simpl; by rewrite Hready.
Qed.

(** ** Idle turns of the loop *)





(** ** Paths *)

Lemma string_app_inv_head (a b b' : string) : a +:+ b = a +:+ b' → b = b'.
Proof. induction a as [|c a IH]; simpl; [done|]. intros [= H]. by apply IH. Qed.

Lemma string_app_self (a b : string) : a +:+ b = a → b = "".
Proof. induction a as [|c a IH]; simpl; [done|]. intros [= H]. by apply IH. Qed.

Lemma string_app_cons x (a b : string) : String x a +:+ b = String x (a +:+ b).
Proof. reflexivity. Qed.

Lemma string_app_nil_l (b : string) : "" +:+ b = b.
Proof. reflexivity. Qed.

Lemma string_app_assoc (a b c : string) : (a +:+ b) +:+ c = a +:+ (b +:+ c).
Proof.
  induction a as [|x a IH]; [done|]. rewrite !string_app_cons. by f_equal.
Qed.

Lemma string_app_nil_r (a : string) : a +:+ "" = a.
Proof.
  induction a as [|x a IH]; [done|]. rewrite string_app_cons. by f_equal.
Qed.

Lemma string_app_nonempty (a b : string) : b ≠ "" → a +:+ b ≠ "".
Proof. by destruct a. Qed.

Lemma last_char_None a : Path.last_char a = None → a = "".
Proof.
  induction a as [|c a IH]; [done|]. simpl.
  destruct a; [done|]. intros H. by specialize (IH H).
Qed.

Lemma span_nosep_spec s :
  (Path.span_nosep s).1 +:+ (Path.span_nosep s).2 = s
  ∧ ((Path.span_nosep s).2 = ""
     ∨ Path.starts_with Path.nt_sep (Path.span_nosep s).2 = true).
Proof.
  induction s as [|c s [IH1 IH2]]; simpl; [by split; [|left]|].
  destruct (Path.nt_sep c) eqn:Hc; simpl.
  - split; [done|]. right. done.
  - destruct (Path.span_nosep s) as [h t]. simpl in *.
    by rewrite string_app_cons, IH1.
Qed.

Lemma unc_start_spec s :
  (Path.unc_start s).1 +:+ (Path.unc_start s).2 = s.
Proof.
  destruct s as [|c2 [|c3 [|c4 [|c5 [|c6 [|c7 s']]]]]]; try done.
  unfold Path.unc_start. by destruct (_ && _).
Qed.

Lemma splitdrive_spec p :
  (Path.splitdrive p).1 +:+ (Path.splitdrive p).2 = p
  ∧ ((Path.splitdrive p).1 = ""
     ∨ Path.ends_with Path.is_colon (Path.splitdrive p).1 = true
     ∨ (Path.splitdrive p).2 = ""
     ∨ Path.starts_with Path.nt_sep (Path.splitdrive p).2 = true).
Proof.
  destruct p as [|c0 [|c1 rest]]; [by split; [|left]..|].
  unfold Path.splitdrive.
  destruct (_ && _).
  - pose proof (unc_start_spec rest) as U.
    destruct (Path.unc_start rest) as [prefix body]. simpl in U.
    destruct (span_nosep_spec body) as [R1 R2].
    destruct (Path.span_nosep body) as [server tail]. simpl in R1, R2.
    destruct tail as [|s1 tail'].
    { simpl. split; [by rewrite string_app_nil_r | tauto]. }
    destruct (span_nosep_spec tail') as [T1 T2].
    destruct (Path.span_nosep tail') as [share path]. simpl in T1, T2.
    destruct path as [|x path].
    { simpl. split; [by rewrite string_app_nil_r | tauto]. }
    split; [|destruct T2; [done | tauto]].
    cbn [fst snd].
    by rewrite !string_app_cons, !string_app_assoc, string_app_cons, T1, R1, U.
  - destruct (Path.is_colon c1) eqn:Hc; simpl; [|by split; [|left]].
    split; [done|]. right. left. unfold Path.ends_with. simpl. exact Hc.
Qed.

Lemma plain_spec b :
  Path.plain b = true →
  b ≠ "" ∧ Path.nonempty b = true
  ∧ Path.starts_with Path.nt_sep b = false
  ∧ Path.starts_with Path.is_slash b = false
  ∧ Path.splitdrive b = ("", b).
Proof.
  destruct b as [|c rest]; [done|]. simpl.
  intros [Hc Hr]%andb_prop. apply negb_true_iff in Hc, Hr.
  split_and!; try done.
  - unfold Path.nt_sep in Hc. unfold Path.is_slash.
    by apply orb_false_elim in Hc as [_ ->].
  - destruct rest as [|c1 rest]; [done|]. simpl in Hr.
    by rewrite Hc, Hr.
Qed.

(** For a plain name [os.path.join] appends to the folder: a separator
    that depends on the folder only, and the name. *)
Lemma join_plain plat a :
  ∃ s, ∀ b, Path.plain b = true → Path.join plat a b = a +:+ s +:+ b.
Proof.
  unfold Path.join. case_decide.
  - (* ntpath *)
    unfold Path.nt_join.
    destruct (splitdrive_spec a) as [A1 A2].
    destruct (Path.splitdrive a) as [rd rp]. simpl in A1, A2.
    destruct rp as [|c r].
    + exists (if Path.nonempty rd && negb (Path.ends_with Path.is_colon rd)
              then String "\" "" else "").
      intros b (_ & Hb1 & Hb2 & _ & ->)%plain_spec.
      rewrite Hb2. simpl. rewrite !string_app_nil_l, Hb1, Hb2. simpl.
      rewrite string_app_nil_r in A1. subst rd.
      destruct (_ && _); [done|]. by rewrite string_app_nil_l.
    + exists (if negb (Path.ends_with Path.nt_sep (String c r))
              then String "\" "" else "").
      intros b (_ & Hb1 & Hb2 & _ & ->)%plain_spec.
      rewrite Hb2. cbn [Path.nonempty andb negb].
      assert (negb (Path.nt_sep c) && Path.nonempty rd
              && negb (Path.ends_with Path.is_colon rd) = false) as Hc.
      { destruct A2 as [->|[->|[?|A2]]]; try done.
        - by rewrite andb_false_r.
        - by rewrite andb_false_r.
        - simpl in A2. by rewrite A2. }
      rewrite <- A1.
      destruct (Path.ends_with Path.nt_sep (String c r)); cbn [negb];
        rewrite ?string_app_cons; cbn [Path.nonempty Path.starts_with andb];
        rewrite Hc;
        by rewrite ?string_app_assoc, ?string_app_cons, ?string_app_nil_l.
  - (* posixpath *)
    unfold Path.posix_join.
    exists (if negb (Path.nonempty a) || Path.ends_with Path.is_slash a
            then "" else String "/" "").
    intros b (_ & _ & _ & -> & _)%plain_spec.
    by destruct (_ || _).
Qed.

Lemma join_inj plat a b b' :
  Path.plain b = true → Path.plain b' = true →
  Path.join plat a b = Path.join plat a b' → b = b'.
Proof.
  intros Hb Hb'. destruct (join_plain plat a) as [s Hs].
  rewrite !Hs by done. intros Heq.
  by apply string_app_inv_head, string_app_inv_head in Heq.
Qed.

Lemma join_ne plat a b b' :
  b ≠ b' → Path.plain b = true → Path.plain b' = true →
  Path.join plat a b ≠ Path.join plat a b'.
Proof. intros Hne Hb Hb' H. by apply Hne, (join_inj plat a). Qed.

Lemma join_ne_self plat a b :
  Path.plain b = true → Path.join plat a b ≠ a.
Proof.
  intros Hb. destruct (join_plain plat a) as [s Hs]. rewrite Hs by done.
  intros Heq. apply string_app_self in Heq.
  apply plain_spec in Hb as [Hb _].
  by apply (string_app_nonempty s b Hb).
Qed.

Lemma join_nonempty plat a b : b ≠ "" → Path.join plat a b ≠ "".
Proof.
  intros Hb. unfold Path.join. case_decide.
  - unfold Path.nt_join.
    destruct (Path.splitdrive a) as [rd rp].
    destruct (splitdrive_spec b) as [B1 _].
    destruct (Path.splitdrive b) as [pd pp]. simpl in B1.
    assert (∀ d q, q ≠ "" ∨ d ≠ "" →
              (if Path.nonempty q && negb (Path.starts_with Path.nt_sep q)
                  && Path.nonempty d
                  && negb (Path.ends_with Path.is_colon d)
               then d +:+ String "\" q else d +:+ q) ≠ "") as Hfin.
    { intros d q Hdq. destruct (_ && _ && _ && _).
      - by apply string_app_nonempty.
      - destruct d; [|done]. simpl. by destruct Hdq. }
    destruct (Path.starts_with Path.nt_sep pp) eqn:Hpp.
    { apply Hfin. left. by destruct pp. }
    destruct pd as [|x pd].
    + rewrite string_app_nil_l in B1. subst pp. simpl. apply Hfin. left.
      by apply string_app_nonempty.
    + cbn [Path.nonempty andb].
      destruct (negb (bool_decide (String x pd = rd))
                && negb (bool_decide (Path.lower (String x pd)
                                      = Path.lower rd)));
        [by apply Hfin; right|].
      apply Hfin. right.
      case_bool_decide as Hd; simpl; [by rewrite <- Hd|done].
  - unfold Path.posix_join.
    destruct (Path.starts_with Path.is_slash b); [done|].
    destruct (_ || _); by apply string_app_nonempty.
Qed.

(** ** The batch manifest *)

Ltac unfold_files :=
  unfold setupLogger, enable_carrier_entry, mark_batch_open, open_file,
    makedirs, write_line, isfile, isdir, path_join, try_except, is_OSError,
    entry_delete_all, entry_insert_end.

(** Decides a test of the code and simplifies. *)
Ltac case_test P :=
  let H := fresh "Htest" in
  destruct (decide P) as [H|H];
  [ rewrite (bool_decide_eq_true_2 P H) | rewrite (bool_decide_eq_false_2 P H) ];
  callback_simpl.

Ltac create_leaf :=
  repeat split; intros; simplify_eq;
  rewrite ?lookup_insert_ne by done; eauto;
  try tauto;
  try match goal with
      | H : is_Some ?x, H' : ?x = None |- _ =>
          exfalso; rewrite H' in H; by destruct H
      end.

Lemma create_batch_folder_spec batchID w :
  let batchName := cstr w prefixBatch +:+ "-" +:+ batchID in
  let folder := Path.join (platform w) (cstr w rootDir) batchName in
  let vf := Path.join (platform w) folder "version.txt" in
  let r := create_batch_folder batchID w in
  platform r.2 = platform w
  ∧ (∀ p, p ≠ vf → files r.2 !! p = files w !! p)
  ∧ (dirs r.2 = dirs w ∨ dirs r.2 = {[folder]} ∪ dirs w)
  ∧ (∀ x, r.1 = Ok x →
       x = (batchName, folder) ∧ folder ∈ dirs r.2
       ∧ cstr r.2 batchFolder = folder)
  ∧ (files w !! folder = None → vf ∉ dirs w → ∃ x, r.1 = Ok x)
  ∧ ((∃ x, r.1 = Ok x) ∨ r.1 = Raised OSError).
Proof.
  destruct w as [plat cs cf bs es et sv cn th ds fs ws tr]. simpl.
  set (batchName := cs prefixBatch +:+ "-" +:+ batchID).
  set (folder := Path.join plat (cs rootDir) batchName).
  set (vf := Path.join plat folder "version.txt").
  assert (vf ≠ folder) as Hvf by (by apply join_ne_self).
  assert (folder ≠ "") as Hfolder
    by (by apply join_nonempty, string_app_nonempty).
  unfold create_batch_folder. unfold_files. unfold_callback. callback_simpl.
  fold batchName folder vf.
  case_test (folder ∈ ds).
  - (* the folder is there *)
    case_test (folder = "" ∨ folder ∈ ds); [|tauto].
    case_test (vf ∈ ds); create_leaf.
  - case_test (is_Some (fs !! folder)).
    + (* the name is taken by a file *)
      case_test (folder = "" ∨ folder ∈ ds);
        [case_test (vf ∈ ds)|]; create_leaf.
    + (* the folder is made *)
      assert (folder ∈ ({[folder]} ∪ ds : gset string)) as Hnew
        by (apply elem_of_union_l, elem_of_singleton; reflexivity).
      case_test (folder = "" ∨ folder ∈ {[folder]} ∪ ds); [|tauto].
      case_test (vf ∈ {[folder]} ∪ ds); create_leaf.
      exfalso. apply elem_of_union in Htest2 as [Hin|Hin]; [|done].
      by apply elem_of_singleton in Hin.
Qed.

Lemma write_manifest_header_spec folder w :
  let manifest := Path.join (platform w) folder "manifest.csv" in
  let r := write_manifest_header folder w in
  platform r.2 = platform w
  ∧ (∀ a, a ≠ batchManifest → cstr r.2 a = cstr w a)
  ∧ cstr r.2 batchManifest = manifest
  ∧ (∀ p, p ≠ manifest → files r.2 !! p = files w !! p)
  ∧ match files w !! manifest with
    | Some rows => files r.2 !! manifest = Some rows ∧ ∃ e, r.1 = Raised e
    | None =>
        folder = "" ∨ folder ∈ dirs w → manifest ∉ dirs w →
        r.1 = Ok tt
        ∧ files r.2 !! manifest = Some [Csv.row headerBatchManifest]
    end.
Proof.
  destruct w as [plat cs cf bs es et sv cn th ds fs ws tr]. simpl.
  set (manifest := Path.join plat folder "manifest.csv").
  unfold write_manifest_header. unfold_files. unfold_callback. callback_simpl.
  fold manifest.
  destruct (fs !! manifest) as [rows|] eqn:Hfs.
  - (* the file exists: the header is not bound *)
    rewrite (bool_decide_eq_true_2 (is_Some (Some rows))) by eauto.
    callback_simpl.
    destruct (_ && _); callback_simpl; rewrite ?Hfs; callback_simpl;
      repeat split; intros; rewrite ?fn_lookup_insert_ne by done; eauto.
  - rewrite (bool_decide_eq_false_2 (is_Some None)) by (by intros [? ?]).
    callback_simpl.
    case_test (folder = "" ∨ folder ∈ ds).
    + case_test (manifest ∈ ds); rewrite ?Hfs; callback_simpl.
      * repeat split; intros; rewrite ?fn_lookup_insert_ne by done; eauto; done.
      * rewrite !lookup_insert_eq. simpl.
        repeat split; intros; rewrite ?fn_lookup_insert_ne by done;
          rewrite ?lookup_insert_ne by done; eauto.
    + repeat split; intros; rewrite ?fn_lookup_insert_ne by done; eauto; tauto.
Qed.

Lemma announce_batch_spec batchName folder w :
  let log := Path.join (platform w) (cstr w batchFolder) "batch.log" in
  let r := announce_batch batchName folder w in
  r.1 = Ok tt
  ∧ (∀ p, p ≠ log → files r.2 !! p = files w !! p)
  ∧ cstr r.2 = cstr w.
Proof.
  destruct w as [plat cs cf bs es et sv cn th ds fs ws tr]. simpl.
  set (log := Path.join plat (cs batchFolder) "batch.log").
  unfold announce_batch. unfold_files. unfold_callback. state_simpl.
  fold log.
  destruct (_ && _); state_simpl; [|done].
  destruct (fs !! log) eqn:Hlog; state_simpl;
    destruct (cf enablePPNLookup); state_simpl;
    destruct (cf startOnFinalize); state_simpl;
    repeat split; intros; by rewrite ?lookup_insert_ne.
Qed.

Lemma on_open_spec chosen w :
  let manifest := Path.join (platform w) chosen "manifest.csv" in
  let r := on_open chosen w in
  r.1 = Ok tt
  ∧ cstr r.2 batchManifest = manifest
  ∧ files r.2 !! manifest = files w !! manifest.
Proof.
  destruct w as [plat cs cf bs es et sv cn th ds fs ws tr]. simpl.
  set (manifest := Path.join plat chosen "manifest.csv").
  set (log := Path.join plat chosen "batch.log").
  assert (log ≠ manifest) as Hlog by (by apply join_ne).
  unfold on_open. unfold_files. unfold_callback. state_simpl.
  fold manifest log.
  destruct (_ && _); state_simpl; [|done].
  destruct (fs !! log) eqn:Hfs; state_simpl;
    (destruct (decide (chosen ≠ "")); state_simpl; [|by rewrite ?lookup_insert_ne]);
    destruct (cf enablePPNLookup); state_simpl;
    destruct (cf startOnFinalize); state_simpl;
    by rewrite ?lookup_insert_ne.
Qed.

(** C1 (amended): a batch that [on_create] makes in a folder without
    manifest gets a manifest that consists of the header row, the 11
    column names in their order, and nothing else; where the manifest of
    the batch folder is already there, [on_create] stops with an exception
    before it writes and the file keeps its rows; [on_open] neither reads
    nor writes nor creates the manifest of the folder it opens, which
    stays as it was found. *)
Theorem C1_manifest_header batchID chosen w :
  let folder := Path.join (platform w) (cstr w rootDir)
                  (cstr w prefixBatch +:+ "-" +:+ batchID) in
  let manifest := Path.join (platform w) folder "manifest.csv" in
  let created := on_create batchID w in
  let opened := on_open chosen w in
  Csv.split_plain "" (Csv.row headerBatchManifest) =
    ["jobID"; "PPN"; "volumeNo"; "title"; "volumeID"; "success";
     "containsAudio"; "containsData"; "cdExtra"; "mixedMode"; "cdInteractive"]
  ∧ (files w !! manifest = None → files w !! folder = None →
     Path.join (platform w) folder "version.txt" ∉ dirs w →
     manifest ∉ dirs w →
     created.1 = Ok tt
     ∧ cstr created.2 batchManifest = manifest
     ∧ files created.2 !! manifest = Some [Csv.row headerBatchManifest])
  ∧ (∀ rows, files w !! manifest = Some rows →
     files created.2 !! manifest = Some rows ∧ ∃ e, created.1 = Raised e)
  ∧ (opened.1 = Ok tt
     ∧ cstr opened.2 batchManifest = Path.join (platform w) chosen "manifest.csv"
     ∧ files opened.2 !! cstr opened.2 batchManifest
       = files w !! cstr opened.2 batchManifest).
Proof.
  intros folder manifest created opened.
  split; [reflexivity|].
  pose proof (create_batch_folder_spec batchID w) as Hc. simpl in Hc.
  fold folder in Hc.
  destruct Hc as (Hplat & Hfiles & Hdirs & Hok & Hfresh & Hres).
  assert (Path.join (platform w) folder "version.txt" ≠ manifest) as Hvf
    by (by apply join_ne).
  assert (manifest ≠ folder) as Hmf by (by apply join_ne_self).
  subst created. unfold on_create. rewrite bind_unfold.
  destruct (create_batch_folder batchID w) as [r1 w1] eqn:Hcreate.
  simpl in *.
  split; [|split].
  - (* a new batch *)
    intros Hnone Hnofile Hvfdir Hmdir.
    destruct (Hfresh Hnofile Hvfdir) as [x ->].
    destruct (Hok x eq_refl) as (-> & Hin & Hbf).
    pose proof (write_manifest_header_spec folder w1) as Hw. simpl in Hw.
    rewrite Hplat in Hw. fold manifest in Hw.
    rewrite (Hfiles manifest) in Hw by done. rewrite Hnone in Hw.
    destruct Hw as (Hplat2 & Hcstr2 & Hman2 & _ & Hhdr).
    destruct Hhdr as [Hok2 Hrow]; [by right | |].
    { destruct Hdirs as [-> | ->]; [done|].
      intros [Hin'|Hin']%elem_of_union; [|done].
      by apply elem_of_singleton in Hin'. }
    rewrite bind_unfold.
    destruct (write_manifest_header folder w1) as [r2 w2]. simpl in *.
    subst r2.
    pose proof (announce_batch_spec
                  (cstr w prefixBatch +:+ "-" +:+ batchID) folder w2) as Ha.
    simpl in Ha. destruct Ha as (Hok3 & Hfiles3 & Hcstr3).
    rewrite Hok3, Hcstr3, Hman2, Hfiles3; [done|].
    rewrite Hplat2, Hcstr2, Hbf by done. by apply join_ne.
  - (* the manifest is there *)
    intros rows Hrows.
    destruct Hres as [[x ->] | ->].
    + destruct (Hok x eq_refl) as (-> & Hin & Hbf).
      pose proof (write_manifest_header_spec folder w1) as Hw. simpl in Hw.
      rewrite Hplat in Hw. fold manifest in Hw.
      rewrite (Hfiles manifest) in Hw by done. rewrite Hrows in Hw.
      destruct Hw as (_ & _ & _ & _ & Hkeep & e & He).
      rewrite bind_unfold.
      destruct (write_manifest_header folder w1) as [r2 w2]. simpl in *.
      subst r2. eauto.
    + simpl. rewrite Hfiles by done. eauto.
  - (* opening *)
    destruct (on_open_spec chosen w) as (Hopen & Hman & Hkeep).
    subst opened. simpl in *. by rewrite Hman.
Qed.

(** * Worked examples *)

(** Settles a decidable statement about concrete data by evaluation. *)
Ltac by_evaluation := apply (bool_decide_unpack _); vm_compute; exact I.

(** ** Python's [strip] and [int] *)

Example strip_ex : Py.strip "  007 " = "007".
Proof. reflexivity. Qed.

Example int_ex1 : Py.int "007" = Some 7.
Proof. reflexivity. Qed.

Example int_ex2 : Py.int "+3" = Some 3.
Proof. reflexivity. Qed.

Example int_ex3 : Py.int " -12 " = Some (-12).
Proof. reflexivity. Qed.

Example int_ex4 : Py.int "1_000" = Some 1000.
Proof. reflexivity. Qed.

Example int_ex5 :
  (Py.int "", Py.int "+", Py.int "1__0", Py.int "_1", Py.int "1_",
   Py.int "abc", Py.int "1.5", Py.int "+ 3")
  = (None, None, None, None, None, None, None, None).
Proof. reflexivity. Qed.

(** ** [os.path.join] *)

Example join_ex1 : Path.join "Linux" "/data" "kb-0001" = "/data/kb-0001".
Proof. reflexivity. Qed.

Example join_ex2 : Path.join "Linux" "/data" "/abs-0001" = "/abs-0001".
Proof. reflexivity. Qed.

Example join_ex3 :
  Path.join "Windows" "C:/" "manifest.csv" = "C:/manifest.csv".
Proof. reflexivity. Qed.

Example join_ex4 :
  Path.join "Windows" "C:\Users\op" "iromlab" = "C:\Users\op\iromlab".
Proof. reflexivity. Qed.

Example join_ex5 :
  Path.join "Windows" "C:\data" "D:kb" = "D:kb"
  ∧ Path.join "Windows" "c:\data" "C:kb" = "C:\data\kb"
  ∧ Path.join "Windows" "\\srv\share" "kb" = "\\srv\share\kb"
  ∧ Path.join "Windows" "\\srv" "kb" = "\\srv\kb"
  ∧ Path.join "Windows" "//a/b/" "kb" = "//a/b/kb"
  ∧ Path.join "Windows" "C:" "kb" = "C:kb"
  ∧ Path.join "Windows" "C:\data" "/kb" = "C:/kb"
  ∧ Path.join "Windows" "" "kb" = "kb".
Proof. by split_and!. Qed.

(** [int] does not skip the separators FS..US, which [strip] removes. *)
Example int_ex_fs :
  Py.int (String (ascii_of_nat 28) "7") = None
  ∧ Py.int (Py.strip (String (ascii_of_nat 28) "7")) = Some 7.
Proof. by split. Qed.

(** ** C1 *)

(** C1 as stated fails for resuming: [on_open] opens any folder that is
    there as a batch.  For a folder without [manifest.csv] the batch is
    open, the form is enabled and a carrier is accepted, and there is
    still no manifest, so no header row. *)
Lemma C1_counterexample :
  let w := example_started "False" "False" in
  let opened := on_open "/data" w in
  opened.1 = Ok tt
  ∧ cflag opened.2 batchIsOpen = true
  ∧ bstate opened.2 submit_button = normal
  ∧ cstr opened.2 batchManifest = "/data/manifest.csv"
  ∧ files opened.2 !! "/data/manifest.csv" = None
  ∧ started_by (on_submit example_catalog true "job-1")
      (type_into title_entry "Het boek" opened.2)
    = [make_carrierData "job-1" "" "Het boek" "1"]
  ∧ files (on_submit example_catalog true "job-1"
             (type_into title_entry "Het boek" opened.2)).2
      !! "/data/manifest.csv" = None.
Proof. intros w opened. split_and!; vm_compute; reflexivity. Qed.

Lemma C1_manifest_header_witness :
  let w := example_started "False" "False" in
  let again := on_create "0001" (on_create "0001" w).2 in
  (on_create "0001" w).1 = Ok tt
  ∧ files (on_create "0001" w).2 !! "/data/kb-0001/manifest.csv"
    = Some ["jobID,PPN,volumeNo,title,volumeID,success,containsAudio,containsData,cdExtra,mixedMode,cdInteractive"]
  ∧ files again.2 !! "/data/kb-0001/manifest.csv"
    = Some ["jobID,PPN,volumeNo,title,volumeID,success,containsAudio,containsData,cdExtra,mixedMode,cdInteractive"]
  ∧ (∃ e, again.1 = Raised e)
  ∧ files (on_open "/data/kb-0001" (on_create "0001" w).2).2
      !! "/data/kb-0001/manifest.csv"
    = Some ["jobID,PPN,volumeNo,title,volumeID,success,containsAudio,containsData,cdExtra,mixedMode,cdInteractive"].
Proof.
  intros w again.
  pose proof (C1_manifest_header "0001" "/data/kb-0001" w) as H.
  cbv zeta in H. destruct H as (_ & H & _).
  destruct H as (H1 & _ & H3).
  - vm_compute; reflexivity.
  - vm_compute; reflexivity.
  - by_evaluation.
  - by_evaluation.
  - split; [exact H1|]. split; [exact H3|].
    pose proof (C1_manifest_header "0001" "/data/kb-0001"
                  (on_create "0001" w).2) as H'.
    cbv zeta in H'. destruct H' as (_ & _ & H4 & _ & _ & H5).
    destruct (H4 ["jobID,PPN,volumeNo,title,volumeID,success,containsAudio,containsData,cdExtra,mixedMode,cdInteractive"])
      as [H6 H7]; [vm_compute; reflexivity|].
    split; [exact H6|]. split; [exact H7|].
    etrans; [|etrans; [exact H5|]]; vm_compute; reflexivity.
Defined.

(** ** C2 *)

(** C2 as stated fails: in PPN mode both fields of an accepted carrier are
    filled, and in title mode an empty title is accepted, so that neither
    is. *)
Lemma C2_counterexample :
  (∃ cd,
     cd ∈ started_by (on_submit example_catalog true "job-1")
            (example_ppn " 123456789 " "+3")
     ∧ populated cd "PPN" ∧ populated cd "title")
  ∧ (∃ cd,
       cd ∈ started_by (on_submit example_catalog true "job-1")
              (example_titled "False" "" "1")
       ∧ ¬ populated cd "PPN" ∧ ¬ populated cd "title").
Proof.
  split.
  - exists (make_carrierData "job-1" "123456789" "Het boek, deel 2" "+3").
    split; [|split].
    + assert (started_by (on_submit example_catalog true "job-1")
                (example_ppn " 123456789 " "+3")
              = [make_carrierData "job-1" "123456789" "Het boek, deel 2" "+3"])
        as -> by (vm_compute; reflexivity).
      by apply list_elem_of_singleton.
    + by exists "123456789".
    + by exists "Het boek, deel 2".
  - exists (make_carrierData "job-1" "" "" "1").
    split; [|split].
    + assert (started_by (on_submit example_catalog true "job-1")
                (example_titled "False" "" "1")
              = [make_carrierData "job-1" "" "" "1"])
        as -> by (vm_compute; reflexivity).
      by apply list_elem_of_singleton.
    + intros (v & Hv & Hne). vm_compute in Hv. congruence.
    + intros (v & Hv & Hne). vm_compute in Hv. congruence.
Qed.

Lemma C2_catalog_id_and_title_witness :
  let w := example_ppn " 123456789 " "+3" in
  let cd := make_carrierData "job-1" "123456789" "Het boek, deel 2" "+3" in
  cd ∈ started_by (on_submit example_catalog true "job-1") w
  ∧ cd !! "PPN" = Some "123456789"
  ∧ cd !! "title" = Some "Het boek, deel 2".
Proof.
  intros w cd.
  assert (cd ∈ started_by (on_submit example_catalog true "job-1") w) as Hin.
  { assert (started_by (on_submit example_catalog true "job-1") w = [cd])
      as -> by (vm_compute; reflexivity).
    by apply list_elem_of_singleton. }
  split; [exact Hin|].
  pose proof (C2_catalog_id_and_title example_catalog true "job-1" w cd Hin)
    as H.
  change (cflag w enablePPNLookup) with true in H. cbv iota zeta in H.
  destruct H as (_ & Hppn & response & record & title & _ & _ & _ & Ht).
  split; [exact Hppn|]. reflexivity.
Defined.

(** ** C3 *)

Lemma click_on_disabled_button sru b i w :
  bstate w b = disabled → deliver sru (Click b) i w = (Ok tt, w).
Proof.
  intros H. unfold deliver, gets. rewrite bind_unfold. simpl. by rewrite H.
Qed.

(** C3: after an accepted submission the Submit button is disabled and a
    click on it is dropped, but the shortcut Control-s still calls
    [on_submit], which starts a second worker thread while the first one
    has not finished. *)
Theorem C3_second_submission_while_processing :
  let w := example_titled "False" "Het boek" "1" in
  let w1 := (deliver example_catalog (Click submit_button)
               (example_inputs "job-1") w).2 in
  let w2 := (deliver example_catalog (KeyControl "s")
               (example_inputs "job-2") w1).2 in
  length (workers w1) = 1%nat
  ∧ bstate w1 submit_button = disabled
  ∧ deliver example_catalog (Click submit_button) (example_inputs "job-2") w1
    = (Ok tt, w1)
  ∧ cflag w2 finishedDisc = false
  ∧ workers w2 = [make_carrierData "job-1" "" "Het boek" "1";
                  make_carrierData "job-2" "" "Het boek" "1"].
Proof.
  intros w w1 w2.
  assert (bstate w1 submit_button = disabled) as Hb by (vm_compute; reflexivity).
  split; [vm_compute; reflexivity|].
  split; [exact Hb|].
  split; [by apply click_on_disabled_button|].
  split; vm_compute; reflexivity.
Qed.

(** ** C4 *)

(** C4: with [startOnFinalize] enabled, a quit request made while a batch
    is open and a disc is being processed ends the process at once: the
    flag [processingDisc] is still set and the worker has not finished. *)
Theorem C4_quit_exits_while_disc_is_processed :
  let w := example_titled "True" "Het boek" "1" in
  let w1 := (on_submit example_catalog true "job-1" w).2 in
  let quit := on_quit [false; false] w1 in
  cflag w1 batchIsOpen = true
  ∧ cflag w1 processingDisc = true
  ∧ workers w1 = [make_carrierData "job-1" "" "Het boek" "1"]
  ∧ quit.1 = Exited
  ∧ cflag quit.2 processingDisc = true
  ∧ workers quit.2 = workers w1.
Proof. intros w w1 quit. split_and!; vm_compute; reflexivity. Qed.

(** ** C5 *)

Lemma C5_volume_number_validated_witness :
  (∀ cd,
     cd ∈ started_by (on_submit example_catalog true "job-1")
            (example_titled "False" "Het boek" " 007 ") →
     cd !! "volumeNo" = Some "007")
  ∧ started_by (on_submit example_catalog true "job-1")
      (example_titled "False" "Het boek" "0") = []
  ∧ started_by (on_submit example_catalog true "job-1")
      (example_titled "False" "Het boek" "1.5") = [].
Proof.
  split; [|split].
  - pose proof (C5_volume_number_validated example_catalog true "job-1"
                  (example_titled "False" "Het boek" " 007 ")) as H.
    exact (proj2 H).
  - pose proof (C5_volume_number_validated example_catalog true "job-1"
                  (example_titled "False" "Het boek" "0")) as H.
    exact (proj1 (proj2 H)).
  - pose proof (C5_volume_number_validated example_catalog true "job-1"
                  (example_titled "False" "Het boek" "1.5")) as H.
    exact (proj1 (proj2 H)).
Defined.

(** ** C6 and C7 *)

Lemma C6_drive_checked_once_at_startup_witness :
  let env := example_env (config_xml "False" "False" "flac") ["E"; "F"] in
  let w1 := (configure env (at_build_gui example_boot)).2 in
  configure env (at_build_gui example_boot) = (Ok tt, w1)
  ∧ cstr w1 cdDriveLetter = "D"
  ∧ drive_checks (effects_of (startup env) example_boot) = 1%nat
  ∧ (main env example_catalog [] example_boot).1 = Raised SystemExit
  ∧ started_by (main env example_catalog []) example_boot = [].
Proof.
  intros env w1.
  assert (configure env (at_build_gui example_boot) = (Ok tt, w1)) as Hc
    by (vm_compute; reflexivity).
  split; [exact Hc|]. split; [vm_compute; reflexivity|].
  destruct (C6_drive_checked_once_at_startup env example_catalog []
              example_boot w1 Hc) as (H1 & _ & _ & H4).
  split; [exact H1|].
  destruct H4 as (Hexit & Hnone & _); [by_evaluation|].
  split; [exact Hexit | exact Hnone].
Defined.

Lemma C7_audio_format_validated_witness :
  let env := example_env (config_xml "False" "False" "mp3") ["D"] in
  let w2 := ((configure env;; check_drive env) (at_build_gui example_boot)).2 in
  (configure env;; check_drive env) (at_build_gui example_boot) = (Ok tt, w2)
  ∧ cstr w2 audioFormat = "mp3"
  ∧ (main env example_catalog [] example_boot).1 = Raised SystemExit
  ∧ started_by (main env example_catalog []) example_boot = [].
Proof.
  intros env w2.
  assert ((configure env;; check_drive env) (at_build_gui example_boot)
          = (Ok tt, w2)) as Hc by (vm_compute; reflexivity).
  split; [exact Hc|]. split; [vm_compute; reflexivity|].
  pose proof (C7_audio_format_validated env example_catalog []
                example_boot w2 Hc) as H.
  assert (bool_decide (cstr w2 audioFormat = "wav" ∨ cstr w2 audioFormat = "flac")
          = false) as E by (vm_compute; reflexivity).
  rewrite E in H. destruct H as (_ & Hexit & Hnone).
  split; [exact Hexit | exact Hnone].
Defined.

Example startup_example :
  let env := example_env (config_xml "False" "False" "flac") ["D"; "E"] in
  (startup env example_boot).1 = Ok tt
  ∧ effects_of (startup env) example_boot = [GetDrives].
Proof. split; vm_compute; reflexivity. Qed.

(** ** C8 *)



(** ** C9 *)

(** C9 as stated fails: with an empty identifier and a volume number that
    is not an integer the box shown is "Type mismatch", not "PPN not
    found". *)
Lemma C9_counterexample :
  let w := example_ppn "  " "abc" in
  cflag w enablePPNLookup = true
  ∧ Py.strip (etext w catid_entry) = ""
  ∧ effects_of (on_submit example_catalog true "job-1") w
    = [ShowError "Type mismatch" "Volume number must be integer value"].
Proof. intros w. split_and!; vm_compute; reflexivity. Qed.

Lemma C9_empty_catalog_id_witness :
  let w := example_ppn "  " "2" in
  cflag w enablePPNLookup = true
  ∧ Py.strip (etext w catid_entry) = ""
  ∧ started_by (on_submit example_catalog true "job-1") w = []
  ∧ ∃ msg, effects_of (on_submit example_catalog true "job-1") w
           = [ShowError "PPN not found" msg].
Proof.
  intros w.
  assert (cflag w enablePPNLookup = true) as H1 by (vm_compute; reflexivity).
  assert (Py.strip (etext w catid_entry) = "") as H2 by (vm_compute; reflexivity).
  split; [exact H1|]. split; [exact H2|].
  destruct (C9_empty_catalog_id example_catalog true "job-1" w H1 H2)
    as (_ & Hnone & msg & Hmsg).
  split; [exact Hnone|]. exists msg. exact Hmsg.
Defined.

(** ** C10 *)

Lemma C10_volume_number_verbatim_witness :
  let w := example_ppn " 123456789 " " +3 " in
  let cd := make_carrierData "job-1" "123456789" "Het boek, deel 2" "+3" in
  cd ∈ started_by (on_submit example_catalog true "job-1") w
  ∧ cd !! "volumeNo" = Some "+3"
  ∧ ∃ v, Py.int "+3" = Some v ∧ 1 ≤ v.
Proof.
  intros w cd.
  assert (cd ∈ started_by (on_submit example_catalog true "job-1") w) as Hin.
  { assert (started_by (on_submit example_catalog true "job-1") w = [cd])
      as -> by (vm_compute; reflexivity).
    by apply list_elem_of_singleton. }
  split; [exact Hin|].
  exact (C10_volume_number_verbatim example_catalog true "job-1" w cd Hin).
Defined.

Example volume_number_007 :
  started_by (on_submit example_catalog true "job-1")
    (example_titled "False" "Het boek" " 007 ")
  = [make_carrierData "job-1" "" "Het boek" "007"].
Proof. vm_compute; reflexivity. Qed.

(** * Further properties of the module *)

(** ** [str] and [int] (lines 248, 261, 598, 611, 635-642) *)

Lemma digit_of_pretty_N_char x :
  (x < 10)%N → Py.digit_of (pretty_N_char x) = Some (Z.of_N x).
Proof.
  intros Hx.
  assert (x = 0 ∨ x = 1 ∨ x = 2 ∨ x = 3 ∨ x = 4 ∨ x = 5 ∨ x = 6 ∨ x = 7
          ∨ x = 8 ∨ x = 9)%N as H by lia.
  repeat (destruct H as [->|H]; [reflexivity|]). by subst.
Qed.

Lemma digit_char_plain c :
  is_Some (Py.digit_of c) →
  Py.int_space c = false
  ∧ (N_of_ascii c =? 43)%N = false ∧ (N_of_ascii c =? 45)%N = false.
Proof.
  unfold Py.digit_of, Py.int_space. intros [d Hd].
  destruct (_ && _) eqn:Hrange in Hd; [|done].
  apply andb_true_iff in Hrange as [H1%N.leb_le H2%N.leb_le].
  split_and!.
  - repeat (apply orb_false_iff; split);
      first [apply andb_false_iff | apply N.eqb_neq];
      rewrite ?N.leb_gt; lia.
  - apply N.eqb_neq; lia.
  - apply N.eqb_neq; lia.
Qed.

(** The digits that [pretty_N_go] puts in front are read back. *)
Lemma digits_val_pretty_N_go x s :
  (0 < x)%N →
  Py.digits_val 0 false (String.list_ascii_of_string (pretty_N_go x s))
  = Py.digits_val (Z.of_N x) true (String.list_ascii_of_string s).
Proof.
  revert s. induction (N.lt_wf_0 x) as [x _ IH]. intros s Hx.
  rewrite pretty_N_go_step by done.
  assert (x `mod` 10 < 10)%N as Hmod by (by apply N.mod_lt).
  pose proof (N.div_mod x 10 ltac:(done)) as Hdm.
  destruct (decide (x `div` 10 = 0)%N) as [Hz|Hz].
  - rewrite Hz, pretty_N_go_0. simpl.
    rewrite digit_of_pretty_N_char by done. f_equal. lia.
  - rewrite IH; [|apply N.div_lt; lia|lia]. simpl.
    rewrite digit_of_pretty_N_char by done. f_equal. lia.
Qed.

Lemma pretty_N_go_digits x s :
  Forall (λ c, is_Some (Py.digit_of c)) (String.list_ascii_of_string s) →
  Forall (λ c, is_Some (Py.digit_of c))
    (String.list_ascii_of_string (pretty_N_go x s)).
Proof.
  revert s. induction (N.lt_wf_0 x) as [x _ IH]. intros s Hs.
  destruct (decide (x = 0)%N) as [->|Hx]; [by rewrite pretty_N_go_0|].
  rewrite pretty_N_go_step by lia. apply IH; [apply N.div_lt; lia|].
  simpl. constructor; [|done].
  rewrite digit_of_pretty_N_char; [done | by apply N.mod_lt].
Qed.

Lemma lstrip_chars_plain l :
  Forall (λ c, Py.int_space c = false) l → Py.int_lstrip l = l.
Proof. destruct 1 as [|c l Hc _]; [done|]. simpl. by rewrite Hc. Qed.

Lemma strip_chars_plain l :
  Forall (λ c, Py.int_space c = false) l →
  Py.int_rstrip (Py.int_lstrip l) = l.
Proof.
  intros H. rewrite lstrip_chars_plain by done. unfold Py.int_rstrip.
  rewrite lstrip_chars_plain; [apply rev_involutive | by apply Forall_rev].
Qed.

Lemma int_pretty_pos p : Py.int (pretty (N.pos p)) = Some (Z.pos p).
Proof.
  unfold pretty, pretty_N. rewrite decide_False by done.
  pose proof (pretty_N_go_digits (N.pos p) "" ltac:(constructor)) as Hd.
  pose proof (digits_val_pretty_N_go (N.pos p) "" ltac:(done)) as Hv.
  unfold Py.int. rewrite strip_chars_plain.
  - destruct (String.list_ascii_of_string _) as [|c l]; [done|].
    apply Forall_cons in Hd as [Hc _].
    apply digit_char_plain in Hc as (_ & H43 & H45).
    unfold Py.signed_val. by rewrite H43, H45, Hv.
  - eapply Forall_impl; [exact Hd|]. intros c Hc. by apply digit_char_plain.
Qed.

(** [int(str(n))] is [n] for every integer [n]: what [str] prints,
    [int] accepts and reads back. *)
Lemma int_of_str (n : Z) : Py.int (pretty n) = Some n.
Proof.
  destruct n as [|p|p]; [reflexivity | apply int_pretty_pos |].
  change (pretty (Z.neg p)) with ("-" +:+ pretty (N.pos p)).
  pose proof (int_pretty_pos p) as Hp. unfold Py.int in *.
  unfold pretty, pretty_N in *. rewrite decide_False in * by done.
  pose proof (pretty_N_go_digits (N.pos p) "" ltac:(constructor)) as Hd.
  assert (Forall (λ c, Py.int_space c = false)
            (String.list_ascii_of_string (pretty_N_go (N.pos p) ""))) as Hs.
  { eapply Forall_impl; [exact Hd|]. intros c Hc. by apply digit_char_plain. }
  rewrite strip_chars_plain in Hp by done.
  simpl String.list_ascii_of_string.
  rewrite strip_chars_plain by (by constructor).
  destruct (String.list_ascii_of_string _) as [|c l] eqn:Hl; [done|].
  apply Forall_cons in Hd as [Hc _].
  apply digit_char_plain in Hc as (_ & H43 & H45).
  unfold Py.signed_val in Hp. rewrite H43, H45 in Hp.
  change (Py.signed_val ("-"%char :: c :: l))
    with (Z.opp <$> Py.digits_val 0 false (c :: l)).
  by rewrite Hp.
Qed.

(** ** "Use previous" (lines 238-263) *)

Ltac unfold_previous :=
  unfold on_usepreviousPPN, on_usepreviousTitle, use_previous, bump_volumeNo,
    next_volumeNo, entry_delete_all, entry_insert_end.

Lemma use_previous_undefined old e title msg w :
  svar w old = "" →
  use_previous old e title msg w
  = (Ok tt, upd_trace (λ t, t ++ [ShowError title msg]) w).
Proof.
  intros H. destruct w. simpl in H. unfold_previous. unfold_callback.
  callback_simpl. rewrite H. reflexivity.
Qed.

Lemma use_previous_fills old e title msg w v :
  e ≠ volumeNo_entry →
  svar w old ≠ "" →
  Py.int (svar w volumeNoOld) = Some v →
  estate w e = normal → estate w volumeNo_entry = normal →
  let r := use_previous old e title msg w in
  r.1 = Ok tt
  ∧ etext r.2 e = svar w old
  ∧ etext r.2 volumeNo_entry = pretty (v + 1)
  ∧ (∀ e', e' ≠ e → e' ≠ volumeNo_entry → etext r.2 e' = etext w e')
  ∧ trace r.2 = trace w ∧ cflag r.2 = cflag w ∧ svar r.2 = svar w.
Proof.
  intros Hne Hprev Hint He Hv.
  assert (svar w volumeNoOld ≠ "") as Hvol.
  { intros Hempty. by rewrite Hempty in Hint. }
  destruct w as [plat cs cf bs es et sv cn th ds fs ws tr]. simpl in *.
  unfold_previous. unfold_callback. callback_simpl.
  repeat (progress
    (rewrite ?He, ?Hv, ?Hint, ?(decide_False (P := sv old = "")),
       ?(decide_True (P := sv volumeNoOld ≠ "")) by done;
     callback_simpl)).
  split_and!; try reflexivity.
  intros e' H1 H2. by rewrite !fn_lookup_insert_ne by done.
Qed.


(** ** More on submission (lines 265-366) *)

Ltac frame_leaf :=
  unfold entered_volumeNo, entered_catid; callback_simpl;
  repeat match goal with
         | H : ?f ?x = _ |- context [?f ?x] => rewrite H
         end;
  callback_simpl;
  split_and!; try reflexivity;
  first
    [ left; split_and!; reflexivity
    | right; eexists; split_and!; try reflexivity;
      intros b Hb; rewrite !fn_lookup_insert_ne; [reflexivity|..];
      intros Heq; apply Hb; rewrite <- Heq; set_solver ].

Lemma on_submit_frame sru confirm jobID w :
  let w' := (on_submit sru confirm jobID w).2 in
  carrierNumber w' = carrierNumber w + 1
  ∧ svar w' volumeNoOld = entered_volumeNo w
  ∧ (if cflag w enablePPNLookup
     then svar w' catidOld = entered_catid w
          ∧ svar w' titleOld = svar w titleOld
     else svar w' titleOld = Py.strip (etext w title_entry)
          ∧ svar w' catidOld = svar w catidOld)
  ∧ etext w' = etext w ∧ files w' = files w ∧ dirs w' = dirs w
  ∧ cstr w' = cstr w
  ∧ ((workers w' = workers w ∧ bstate w' = bstate w ∧ estate w' = estate w
      ∧ t1 w' = t1 w)
     ∨ (∃ cd,
          workers w' = workers w ++ [cd] ∧ t1 w' = Some cd
          ∧ bstate w' submit_button = disabled
          ∧ estate w' volumeNo_entry = disabled
          ∧ (if cflag w enablePPNLookup
             then estate w' catid_entry = disabled
                  ∧ bstate w' usepreviousPPN_button = disabled
             else estate w' title_entry = disabled
                  ∧ bstate w' usepreviousTitle_button = disabled)
          ∧ (∀ b, b ∉ [submit_button; usepreviousPPN_button;
                       usepreviousTitle_button] →
                  bstate w' b = bstate w b))).
Proof.
  destruct w as [plat cs cf bs es et sv cn th ds fs ws tr].
  unfold on_submit, representsInt. unfold_callback. callback_simpl.
  destruct (cf enablePPNLookup) eqn:Hppn; callback_simpl.
  - destruct (decide (Py.strip (et catid_entry) = "")) as [Hcat|Hcat];
      callback_simpl.
    + destruct (cf batchIsOpen) eqn:Hopen; callback_simpl; [|frame_leaf].
      destruct (Py.int (Py.strip (et volumeNo_entry))) as [v|] eqn:Hint;
        callback_simpl; [|frame_leaf].
      destruct (Z.ltb_spec v 1); callback_simpl; frame_leaf.
    + destruct (sru _ _) as [[nr recs]|] eqn:Hsru; callback_simpl;
        (destruct (cf batchIsOpen) eqn:Hopen; callback_simpl; [|frame_leaf]);
        (destruct (Py.int (Py.strip (et volumeNo_entry))) as [v|] eqn:Hint;
          callback_simpl; [|frame_leaf]);
        (destruct (Z.ltb_spec v 1); callback_simpl; [frame_leaf|]).
      * destruct (Z.eqb_spec nr 0); callback_simpl; [frame_leaf|].
        destruct recs as [|record recs]; callback_simpl; [frame_leaf|].
        destruct (record_title record) as [title|] eqn:Htitle;
          callback_simpl; [|frame_leaf].
        destruct confirm; callback_simpl; frame_leaf.
      * frame_leaf.
  - destruct (cf batchIsOpen) eqn:Hopen; callback_simpl; [|frame_leaf].
    destruct (Py.int (Py.strip (et volumeNo_entry))) as [v|] eqn:Hint;
      callback_simpl; [|frame_leaf].
    destruct (Z.ltb_spec v 1); callback_simpl; [frame_leaf|].
    destruct confirm; callback_simpl; frame_leaf.
Qed.

Lemma on_submit_started sru confirm jobID w :
  workers (on_submit sru confirm jobID w).2
  = workers w ++ started_by (on_submit sru confirm jobID) w.
Proof.
  destruct (on_submit_submission sru confirm jobID w) as (es & E & _ & Hw & _).
  unfold started_by. rewrite (effects_of_eq _ _ _ E).
  by rewrite thread_starts_app, thread_starts_searches.
Qed.

(** X1: every call of [on_submit], whether it ends in a worker thread, an
    error box or an exception, counts one carrier and remembers the
    stripped entries of the current mode and the volume number; it leaves
    the entry texts, the files and the configured strings alone. *)
Theorem on_submit_counts_and_remembers sru confirm jobID w :
  let w' := (on_submit sru confirm jobID w).2 in
  carrierNumber w' = carrierNumber w + 1
  ∧ svar w' volumeNoOld = Py.strip (etext w volumeNo_entry)
  ∧ (if cflag w enablePPNLookup
     then svar w' catidOld = Py.strip (etext w catid_entry)
          ∧ svar w' titleOld = svar w titleOld
     else svar w' titleOld = Py.strip (etext w title_entry)
          ∧ svar w' catidOld = svar w catidOld)
  ∧ etext w' = etext w ∧ files w' = files w ∧ dirs w' = dirs w
  ∧ cstr w' = cstr w.
Proof.
  intros w'. subst w'.
  destruct (on_submit_frame sru confirm jobID w)
    as (Hn & Hv & Hm & He & Hf & Hd & Hc & _).
  unfold entered_volumeNo, entered_catid in *.
  destruct (cflag w enablePPNLookup); destruct Hm; by split_and!.
Qed.

(** X2: an accepted submission locks the entry form: the carrier handed to
    the worker becomes [self.t1]'s argument, carries the job identifier
    that was drawn, is shown in the tree view under the new carrier
    number, and the Submit button, the volume entry and the entry and
    "Use previous" button of the current mode are disabled. *)
Theorem on_submit_accepted_locks_form sru confirm jobID w cd :
  cd ∈ started_by (on_submit sru confirm jobID) w →
  let w' := (on_submit sru confirm jobID w).2 in
  started_by (on_submit sru confirm jobID) w = [cd]
  ∧ t1 w' = Some cd
  ∧ cd !! "jobID" = Some jobID
  ∧ (∃ title,
       cd !! "title" = Some title
       ∧ TvInsert (pretty (carrierNumber w + 1))
           (entered_catid w, title, entered_volumeNo w)
         ∈ effects_of (on_submit sru confirm jobID) w)
  ∧ bstate w' submit_button = disabled
  ∧ estate w' volumeNo_entry = disabled
  ∧ (if cflag w enablePPNLookup
     then estate w' catid_entry = disabled
          ∧ bstate w' usepreviousPPN_button = disabled
     else estate w' title_entry = disabled
          ∧ bstate w' usepreviousTitle_button = disabled).
Proof.
  intros Hcd w'. subst w'.
  destruct (on_submit_frame sru confirm jobID w)
    as (_ & _ & _ & _ & _ & _ & _ & Hlock).
  pose proof (on_submit_started sru confirm jobID w) as Hws.
  destruct (on_submit_effects sru confirm jobID w) as (es & Heff & Hst & S).
  destruct Hlock as [(Hsame & _) | (cd' & Hnew & Ht1 & Hb & He & Hmode & _)].
  { rewrite Hsame in Hws.
    rewrite <- (app_nil_r (workers w)) in Hws at 1.
    apply app_inv_head in Hws. rewrite <- Hws in Hcd.
    by apply elem_of_nil in Hcd. }
  rewrite Hnew in Hws. apply app_inv_head in Hws.
  rewrite <- Hws in Hcd. apply list_elem_of_singleton in Hcd as ->.
  split; [done|]. split; [done|].
  rewrite Hst in Hws.
  inversion S; subst; simpl in Hws; try discriminate.
  injection Hws as ->.
  split; [apply make_carrierData_lookup|].
  split; [|done].
  exists title. split; [apply make_carrierData_lookup|].
  rewrite Heff. apply elem_of_app. right. set_solver.
Qed.

(** X3: a submission that starts no worker leaves every widget and the
    thread handle as they were. *)
Theorem on_submit_rejected_keeps_form sru confirm jobID w :
  started_by (on_submit sru confirm jobID) w = [] →
  let w' := (on_submit sru confirm jobID w).2 in
  bstate w' = bstate w ∧ estate w' = estate w ∧ t1 w' = t1 w
  ∧ workers w' = workers w.
Proof.
  intros Hnone w'. subst w'.
  destruct (on_submit_frame sru confirm jobID w)
    as (_ & _ & _ & _ & _ & _ & _ & Hlock).
  pose proof (on_submit_started sru confirm jobID w) as Hws.
  rewrite Hnone, app_nil_r in Hws.
  destruct Hlock as [(_ & Hb & He & Ht) | (cd' & Hnew & _)]; [done|].
  rewrite Hws in Hnew. rewrite <- (app_nil_r (workers w)) in Hnew at 1.
  by apply app_inv_head in Hnew.
Qed.

Lemma submission_no_search sru confirm jobID w r es :
  submission sru confirm jobID w r es → Forall (λ e, is_search e = false) es.
Proof. destruct 1; by repeat constructor. Qed.

(** X4: in PPN mode the catalog is asked first, once, for every non-empty
    identifier, before any check: also when no batch is open, where the
    search is followed by the "Not ready" box only. *)
Theorem on_submit_searches_first sru confirm jobID w :
  cflag w enablePPNLookup = true →
  Py.strip (etext w catid_entry) ≠ "" →
  ∃ es,
    effects_of (on_submit sru confirm jobID) w
    = SruSearch (sruSearchString (Py.strip (etext w catid_entry))) "GGC" :: es
    ∧ Forall (λ e, is_search e = false) es
    ∧ (cflag w batchIsOpen = false →
       es = [ShowError "Not ready"
               "You must first create a batch or open an existing batch"]).
Proof.
  intros Hmode Hcat.
  destruct (on_submit_effects sru confirm jobID w) as (es & Heff & _ & S).
  exists es. rewrite Heff. unfold searches, entered_catid.
  rewrite Hmode, decide_False by done.
  split; [reflexivity|]. split; [by eapply submission_no_search|].
  intros Hclosed. inversion S; subst; congruence.
Qed.

(** X5: when the catalog reports records for the identifier but hands
    none over, [next] raises [StopIteration]; when the first record has
    neither a main title nor a plain title, [titles[0]] raises
    [IndexError].  Either way [on_submit] is left by the exception and no
    worker is started. *)
Theorem on_submit_catalog_record_missing sru confirm jobID w v response :
  cflag w enablePPNLookup = true →
  cflag w batchIsOpen = true →
  Py.int (Py.strip (etext w volumeNo_entry)) = Some v → 1 ≤ v →
  Py.strip (etext w catid_entry) ≠ "" →
  sru (sruSearchString (Py.strip (etext w catid_entry))) "GGC" = Some response →
  nr_of_records response ≠ 0 →
  match head (records response) with
  | None =>
      (on_submit sru confirm jobID w).1 = Raised StopIteration
      ∧ started_by (on_submit sru confirm jobID) w = []
  | Some record =>
      titlesMain record = [] → titles record = [] →
      (on_submit sru confirm jobID w).1 = Raised IndexError
      ∧ started_by (on_submit sru confirm jobID) w = []
  end.
Proof.
  intros Hmode Hopen Hint Hv Hcat Hsru Hnr.
  assert (∀ e, (on_submit sru confirm jobID w).1 = Raised e →
               started_by (on_submit sru confirm jobID) w = []) as Hnone.
  { intros e He.
    destruct (on_submit_effects sru confirm jobID w) as (es & _ & -> & S).
    rewrite He in S. by inversion S. }
  assert (1 ≤ v → (v <? 1) = false) as Hlt by (intros; apply Z.ltb_ge; lia).
  assert ((nr_of_records response =? 0) = false) as Hz by (by apply Z.eqb_neq).
  destruct response as [nr recs]. simpl in *.
  assert (match recs with
          | [] => (on_submit sru confirm jobID w).1 = Raised StopIteration
          | record :: _ =>
              titlesMain record = [] → titles record = [] →
              (on_submit sru confirm jobID w).1 = Raised IndexError
          end) as Hres.
  { destruct w as [plat cs cf bs es et sv cn th ds fs ws tr]. simpl in *.
    unfold on_submit, representsInt. unfold_callback. callback_simpl.
    rewrite Hmode. callback_simpl.
    rewrite (decide_False (P := Py.strip (et catid_entry) = "")) by done.
    callback_simpl. rewrite Hsru. callback_simpl.
    rewrite Hopen. callback_simpl. rewrite Hint. callback_simpl.
    rewrite Hlt by done. callback_simpl. rewrite Hz. callback_simpl.
    destruct recs as [|record recs]; callback_simpl; [reflexivity|].
    intros Hmain Htitles. unfold record_title. by rewrite Hmain, Htitles. }
  destruct recs as [|record recs]; simpl; eauto.
Qed.

(** ** "Use previous", the callbacks (lines 238-263) *)

(** X6: as long as no identifier (PPN mode) or title (title mode) has
    been submitted, "Use previous" shows an error box and does nothing
    else: no entry is edited. *)
Theorem use_previous_without_history w :
  svar w catidOld = "" → svar w titleOld = "" →
  on_usepreviousPPN w
  = (Ok tt, upd_trace (λ t, t ++ [ShowError "PPN not defined"
                                    "Previous PPN is not defined"]) w)
  ∧ on_usepreviousTitle w
    = (Ok tt, upd_trace (λ t, t ++ [ShowError "Tile not defined"
                                      "Previous title is not defined"]) w).
Proof.
  intros Hcat Htitle. split; by apply use_previous_undefined.
Qed.

(** X7: with a previous identifier or title and a previous volume number
    that reads as the integer [v], "Use previous" replaces the content of
    the identifier or title entry by the previous one and that of the
    volume entry by the decimal form of [v + 1], which [int] reads back as
    [v + 1]; it shows nothing. *)
Theorem use_previous_next_volume w v :
  Py.int (svar w volumeNoOld) = Some v →
  estate w volumeNo_entry = normal →
  (svar w catidOld ≠ "" → estate w catid_entry = normal →
   let r := on_usepreviousPPN w in
   r.1 = Ok tt
   ∧ etext r.2 catid_entry = svar w catidOld
   ∧ etext r.2 volumeNo_entry = pretty (v + 1)
   ∧ Py.int (etext r.2 volumeNo_entry) = Some (v + 1)
   ∧ etext r.2 title_entry = etext w title_entry
   ∧ trace r.2 = trace w)
  ∧ (svar w titleOld ≠ "" → estate w title_entry = normal →
     let r := on_usepreviousTitle w in
     r.1 = Ok tt
     ∧ etext r.2 title_entry = svar w titleOld
     ∧ etext r.2 volumeNo_entry = pretty (v + 1)
     ∧ Py.int (etext r.2 volumeNo_entry) = Some (v + 1)
     ∧ etext r.2 catid_entry = etext w catid_entry
     ∧ trace r.2 = trace w).
Proof.
  intros Hint Hvol. split; intros Hprev He r.
  - destruct (use_previous_fills catidOld catid_entry "PPN not defined"
                "Previous PPN is not defined" w v)
      as (H1 & H2 & H3 & H4 & H5 & _); try done.
    subst r. unfold on_usepreviousPPN.
    split_and!; try done.
    + rewrite H3. apply int_of_str.
    + by apply H4.
  - destruct (use_previous_fills titleOld title_entry "Tile not defined"
                "Previous title is not defined" w v)
      as (H1 & H2 & H3 & H4 & H5 & _); try done.
    subst r. unfold on_usepreviousTitle.
    split_and!; try done.
    + rewrite H3. apply int_of_str.
    + by apply H4.
Qed.


(** ** Resetting the form and the loop of [main] (lines 529-547, 586-618,
    836-847) *)

Ltac unfold_socket :=
  unfold handleSocketRequests, try_except, bump_volumeNo, next_volumeNo,
    entry_delete_all, entry_insert_end, any_exn.

Lemma handleSocketRequests_edits message w :
  ∃ et, handleSocketRequests message w = (Ok tt, upd_etext (λ _, et) w).
Proof.
  destruct w as [plat cs cf bs es et sv cn th ds fs ws tr].
  destruct message as [text|]; [|by exists et].
  unfold_socket. unfold_callback. callback_simpl.
  destruct (cf enablePPNLookup); callback_simpl;
    repeat (case_match; simplify_eq/=; try done);
    eexists; reflexivity.
Qed.

(** X9: in PPN mode [reset_carrier] re-enables the form for the next
    carrier: identifier entry empty, volume entry 1, "Submit" and "Use
    previous" enabled, all else as before.  In title mode its first
    statement calls the title entry, which raises [TypeError] before
    anything is changed. *)
Theorem reset_carrier_outcome w :
  let r := reset_carrier w in
  if cflag w enablePPNLookup then
    r.1 = Ok tt
    ∧ etext r.2 catid_entry = "" ∧ etext r.2 volumeNo_entry = "1"
    ∧ etext r.2 title_entry = etext w title_entry
    ∧ estate r.2
      = <[volumeNo_entry := normal]> (<[catid_entry := normal]> (estate w))
    ∧ bstate r.2
      = <[submit_button := normal]>
          (<[usepreviousPPN_button := normal]> (bstate w))
    ∧ cflag r.2 = cflag w ∧ svar r.2 = svar w ∧ trace r.2 = trace w
    ∧ workers r.2 = workers w ∧ t1 r.2 = t1 w
    ∧ carrierNumber r.2 = carrierNumber w
  else r = (Raised TypeError, w).
Proof.
  destruct w as [plat cs cf bs es et sv cn th ds fs ws tr]. simpl.
  unfold reset_carrier, entry_delete_all, entry_insert_end. unfold_callback.
  callback_simpl.
  destruct (cf enablePPNLookup); callback_simpl; [|reflexivity].
  by split_and!.
Qed.

(** X10: a message of the socket interface replaces the content of the
    identifier or title entry, and raises the volume number when the
    message repeats the previous identifier or title; what goes wrong on
    the way, like a previous volume number that is no integer, is
    swallowed.  The call always returns and changes nothing but entry
    contents; while the form is locked the message is dropped. *)
Theorem handleSocketRequests_outcome text w :
  let e := if cflag w enablePPNLookup then catid_entry else title_entry in
  let old := if cflag w enablePPNLookup then catidOld else titleOld in
  let r := handleSocketRequests (Some text) w in
  r.1 = Ok tt
  ∧ (∃ et, r.2 = upd_etext (λ _, et) w)
  ∧ (estate w e = normal → etext r.2 e = text)
  ∧ (∀ v, text = svar w old → text ≠ "" →
          Py.int (svar w volumeNoOld) = Some v →
          estate w volumeNo_entry = normal →
          etext r.2 volumeNo_entry = pretty (v + 1))
  ∧ (text ≠ svar w old ∨ text = "" ∨ Py.int (svar w volumeNoOld) = None →
     etext r.2 volumeNo_entry = etext w volumeNo_entry)
  ∧ (estate w e = disabled → estate w volumeNo_entry = disabled → r.2 = w).
Proof.
  intros e old r.
  destruct (handleSocketRequests_edits (Some text) w) as [et0 Hedit].
  split; [subst r; by rewrite Hedit|].
  split; [exists et0; subst r; by rewrite Hedit|].
  clear et0 Hedit. subst r e old.
  destruct w as [plat cs cf bs es et sv cn th ds fs ws tr]. simpl.
  unfold_socket. unfold_callback. callback_simpl.
  assert (∀ e old,
            e ≠ volumeNo_entry →
            let r := try_except
                       (entry_delete_all e;; entry_insert_end e text;;
                        prev ← gets (λ w, svar w old);
                        if decide (text = prev ∧ text ≠ EmptyString)
                        then bump_volumeNo else mret tt)
                       any_exn (mret tt)
                       (World plat cs cf bs es et sv cn th ds fs ws tr) in
            (es e = normal → etext r.2 e = text)
            ∧ (∀ v, text = sv old → text ≠ "" →
                 Py.int (sv volumeNoOld) = Some v →
                 es volumeNo_entry = normal →
                 etext r.2 volumeNo_entry = pretty (v + 1))
            ∧ (text ≠ sv old ∨ text = "" ∨ Py.int (sv volumeNoOld) = None →
               etext r.2 volumeNo_entry = et volumeNo_entry)
            ∧ (es e = disabled → es volumeNo_entry = disabled →
               r.2 = World plat cs cf bs es et sv cn th ds fs ws tr)) as Hgen.
  { intros e old Hne. unfold_socket. unfold_callback. callback_simpl.
    destruct (es e) eqn:He;
      (destruct (decide (text = sv old ∧ text ≠ "")) as [[H1 H2]|Hn];
       [destruct (Py.int (sv volumeNoOld)) as [v'|] eqn:Hint;
        [destruct (es volumeNo_entry) eqn:Hv|]|]);
      repeat (progress
        (rewrite ?He, ?Hv, ?Hint,
           ?(decide_True (P := text = sv old ∧ text ≠ "")),
           ?(decide_False (P := text = sv old ∧ text ≠ "")) by done;
         callback_simpl));
      rewrite ?fn_lookup_insert, ?fn_lookup_insert_ne by done;
      (split_and!;
       [ done
       | intros v ???; simplify_eq/=; try done; try tauto
       | intros [?|[?|?]]; simplify_eq/=; try done; try tauto
       | done ]). }
  unfold handleSocketRequests. unfold_callback. callback_simpl.
  destruct (cf enablePPNLookup); by apply Hgen.
Qed.

Lemma socket_step_edits (api : bool) message w :
  ∃ et, (if api then handleSocketRequests message else mret tt) w
        = (Ok tt, upd_etext (λ _, et) w).
Proof.
  destruct api; [apply handleSocketRequests_edits|].
  exists (etext w). by destruct w.
Qed.

(** X11: the turn of the loop in which the worker of the current carrier
    ends.  In PPN mode the loop joins the thread, resets the form and
    clears [processingDisc] and [finishedDisc].  In title mode
    [reset_carrier] raises [TypeError], which the loop does not catch:
    [main] ends there, with both flags still set and the form locked. *)
Theorem main_iteration_disc_finished sru t turns w cd :
  idle t → worker_ends t = true →
  workers w = [cd] → t1 w = Some cd →
  let r := main_iteration sru t w in
  workers r.2 = []
  ∧ effects_of (main_iteration sru t) w = [Sleep 100]
  ∧ if cflag w enablePPNLookup then
      r.1 = Ok tt
      ∧ cflag r.2 processingDisc = false ∧ cflag r.2 finishedDisc = false
      ∧ bstate r.2 submit_button = normal
      ∧ bstate r.2 usepreviousPPN_button = normal
      ∧ estate r.2 catid_entry = normal ∧ estate r.2 volumeNo_entry = normal
      ∧ etext r.2 catid_entry = "" ∧ etext r.2 volumeNo_entry = "1"
    else
      r.1 = Raised TypeError
      ∧ cflag r.2 processingDisc = cflag w processingDisc
      ∧ cflag r.2 finishedDisc = true
      ∧ bstate r.2 = bstate w ∧ estate r.2 = estate w
      ∧ (main_loop sru (t :: turns) w).1 = Raised TypeError.
Proof.
  intros Hidle Hends Hws Ht1 r. unfold idle in Hidle.
  destruct (socket_step_edits (cflag w enableSocketAPI) (socket_message t) w)
    as [et0 H1].
  assert (cd ∉ ([] : list (gmap string string))) as Hnil
    by apply not_elem_of_nil.
  assert (main_loop sru (t :: turns) w
          = (main_iteration sru t ≫= λ _, main_loop sru turns) w) as Hloop
    by reflexivity.
  rewrite Hloop, bind_unfold. clear Hloop.
  subst r. unfold effects_of, main_iteration. rewrite Hidle, Hends.
  rewrite (bind_Ok (get_flag enableSocketAPI) _ w _ w eq_refl).
  rewrite (bind_Ok _ _ _ _ _ H1). clear H1.
  destruct w as [plat cs cf bs es et sv cn th ds fs ws tr]. simpl in *.
  subst ws th.
  unfold worker_done, join_t1, reset_carrier, entry_delete_all,
    entry_insert_end.
  unfold_callback. callback_simpl.
  change (t1 ?w) with (let (_, _, _, _, _, _, _, _, x, _, _, _, _) := w in x).
  cbv beta iota. callback_simpl.
  rewrite (bool_decide_eq_false_2 _ Hnil). callback_simpl.
  destruct (cf enablePPNLookup); state_simpl;
    rewrite drop_app_length; by split_and!.
Qed.

(** ** Quitting (lines 69-94) *)

Lemma worker_done_quiet w :
  trace (worker_done w).2 = trace w ∧ bstate (worker_done w).2 = bstate w.
Proof.
  destruct w as [plat cs cf bs es et sv cn th ds fs ws tr].
  unfold worker_done. unfold_callback. by destruct ws.
Qed.

Lemma wait_processingDisc_free sched w :
  cflag w processingDisc = false → wait_processingDisc sched w = (Ok tt, w).
Proof.
  intros Hfree. destruct sched; simpl; unfold get_flag, gets;
    rewrite bind_unfold; simpl; by rewrite Hfree.
Qed.

Lemma wait_processingDisc_busy sched w :
  cflag w processingDisc = true →
  let r := wait_processingDisc sched w in
  r.1 = Waiting
  ∧ trace r.2 = trace w ++ replicate (length sched) (Sleep 2000)
  ∧ bstate r.2 = bstate w
  ∧ ∀ f, f ≠ finishedDisc → cflag r.2 f = cflag w f.
Proof.
  revert w. induction sched as [|ended sched IH]; intros w Hbusy.
  - simpl. unfold get_flag, gets, act. rewrite bind_unfold. simpl.
    rewrite Hbusy. simpl. by rewrite app_nil_r.
  - simpl. unfold get_flag, gets. rewrite bind_unfold. simpl. rewrite Hbusy.
    unfold sleep, emit, modify. rewrite !bind_unfold. simpl.
    set (w1 := upd_trace _ w).
    assert (cflag w1 = cflag w ∧ bstate w1 = bstate w
            ∧ trace w1 = trace w ++ [Sleep 2000]) as (Hf1 & Hb1 & Ht1)
      by (by destruct w).
    assert (∃ w2, (if ended then worker_done else mret tt) w1 = (Ok tt, w2)
                  ∧ trace w2 = trace w1 ∧ bstate w2 = bstate w1
                  ∧ ∀ f, f ≠ finishedDisc → cflag w2 f = cflag w1 f)
      as (w2 & -> & Ht2 & Hb2 & Hf2).
    { destruct ended; [|by exists w1].
      destruct (worker_done_frame w1) as (Hok & Hflags & _).
      destruct (worker_done_quiet w1) as (Htr & Hbs).
      destruct (worker_done w1) as [r w2]. simpl in *. subst r.
      by exists w2. }
    destruct (IH w2) as (H1 & H2 & H3 & H4).
    { by rewrite Hf2, Hf1. }
    split_and!; [done| | |].
    + rewrite H2, Ht2, Ht1, <- app_assoc. reflexivity.
    + by rewrite H3, Hb2.
    + intros f Hf. by rewrite H4, Hf2, Hf1.
Qed.

(** X12: [on_quit] sets [quitFlag] and disables the Exit button, tells
    the operator that it waits when a batch is open, and never returns to
    its caller.  Unless [readyToStart] and [processingDisc] are both set
    it sleeps once, shows the closing box and ends the process; otherwise
    it does nothing but sleep, and shows no closing box. *)
Theorem on_quit_outcome sched w :
  let r := on_quit sched w in
  let info :=
    if cflag w batchIsOpen
    then [ShowInfo "Info"
            "User pressed Exit, quitting after current disc has been processed"]
    else [] in
  cflag r.2 quitFlag = true
  ∧ bstate r.2 bExit = disabled
  ∧ if cflag w readyToStart && cflag w processingDisc then
      r.1 = Waiting
      ∧ effects_of (on_quit sched) w
        = info ++ replicate (length sched) (Sleep 2000)
    else
      r.1 = Exited
      ∧ effects_of (on_quit sched) w
        = info ++ [Sleep 2000; ShowInfo "Exit" quit_msg].
Proof.
  unfold effects_of.
  destruct w as [plat cs cf bs es et sv cn th ds fs ws tr]. simpl.
  unfold on_quit. unfold_callback. callback_simpl.
  destruct (cf batchIsOpen); callback_simpl;
    (destruct (cf readyToStart) eqn:Hready; callback_simpl;
     [destruct (cf processingDisc) eqn:Hbusy; callback_simpl|]);
    try (rewrite <- ?app_assoc, drop_app_length; by split_and!);
    match goal with
    | |- context [wait_processingDisc ?s ?w] =>
        first
          [ rewrite (wait_processingDisc_free s w)
              by (simpl; by rewrite fn_lookup_insert_ne);
            callback_simpl;
            rewrite <- ?app_assoc, drop_app_length; by split_and!
          | destruct (wait_processingDisc_busy s w) as (H1 & H2 & H3 & H4);
            [ simpl; by rewrite fn_lookup_insert_ne |];
            destruct (wait_processingDisc s w) as [r w'];
            simpl in H1, H2, H3, H4; subst r; callback_simpl;
            rewrite H2, H3, H4 by done;
            rewrite <- ?app_assoc, drop_app_length;
            callback_simpl; by split_and! ]
    end.
Qed.

(** ** Opening and creating a batch, the form (lines 96-236) *)

(** X13: [on_open] always returns.  When the log file of the chosen
    folder cannot be opened, because the folder is not there or
    [batch.log] is a directory, it shows an error box and leaves widgets,
    flags and files alone.  Otherwise the log file is there afterwards and
    one line is logged; the batch is opened (flags set, "New" and "Open"
    disabled, the form enabled with volume number 1) unless the dialog was
    cancelled, in which case widgets and flags stay as they are.  Whether
    the folder holds a manifest is not looked at. *)
Theorem on_open_outcome chosen w :
  let log := Path.join (platform w) chosen "batch.log" in
  let e := if cflag w enablePPNLookup then catid_entry else title_entry in
  let b := if cflag w enablePPNLookup then usepreviousPPN_button
           else usepreviousTitle_button in
  let r := on_open chosen w in
  r.1 = Ok tt
  ∧ cstr r.2 batchFolder = chosen
  ∧ dirs r.2 = dirs w
  ∧ if bool_decide (chosen = "" ∨ chosen ∈ dirs w)
       && negb (bool_decide (log ∈ dirs w))
    then
      effects_of (on_open chosen) w
      = [LogInfo ("*** Opening existing batch " +:+ chosen +:+ " ***")]
      ∧ is_Some (files r.2 !! log)
      ∧ (∀ p, p ≠ log → files r.2 !! p = files w !! p)
      ∧ if decide (chosen = "") then
          cflag r.2 = cflag w ∧ bstate r.2 = bstate w
          ∧ estate r.2 = estate w ∧ etext r.2 = etext w
        else
          cflag r.2 batchIsOpen = true
          ∧ cflag r.2 readyToStart
            = negb (cflag w startOnFinalize) || cflag w readyToStart
          ∧ bstate r.2 bNew = disabled ∧ bstate r.2 bOpen = disabled
          ∧ bstate r.2 submit_button = normal ∧ bstate r.2 b = normal
          ∧ estate r.2 e = normal ∧ estate r.2 volumeNo_entry = normal
          ∧ etext r.2 volumeNo_entry = "1"
    else
      effects_of (on_open chosen) w
      = [ShowError "ERROR" "error trying to write log file"]
      ∧ files r.2 = files w ∧ cflag r.2 = cflag w
      ∧ bstate r.2 = bstate w ∧ estate r.2 = estate w ∧ etext r.2 = etext w.
Proof.
  unfold effects_of.
  destruct w as [plat cs cf bs es et sv cn th ds fs ws tr]. simpl.
  set (log := Path.join plat chosen "batch.log").
  unfold on_open. unfold_files. unfold_callback. state_simpl.
  fold log.
  destruct (_ && _); state_simpl;
    [|rewrite drop_app_length; by split_and!].
  destruct (fs !! log) eqn:Hfs; state_simpl;
    (destruct (decide (chosen ≠ "")) as [Hc|Hc];
     [rewrite (decide_False (P := chosen = "")) by done
     |rewrite (decide_True (P := chosen = "")) by (by apply dec_stable)];
     state_simpl);
    try (destruct (cf enablePPNLookup); state_simpl;
         destruct (cf startOnFinalize) eqn:Hsof; state_simpl);
    rewrite drop_app_length;
    split_and!; try done;
    rewrite ?lookup_insert_eq, ?Hfs; try done;
    try (intros p Hp; by rewrite lookup_insert_ne);
    try (by destruct (cf readyToStart)).
Qed.





(** X15: when the name of the batch folder is taken by a file,
    [on_create] reports that the folder cannot be made and is then ended
    by the [OSError] of opening the version file: no batch is opened, and
    nothing is written. *)
Theorem on_create_name_taken batchID w content :
  let batchName := cstr w prefixBatch +:+ "-" +:+ batchID in
  let folder := Path.join (platform w) (cstr w rootDir) batchName in
  let r := on_create batchID w in
  files w !! folder = Some content → folder ∉ dirs w →
  r.1 = Raised OSError
  ∧ effects_of (on_create batchID) w
    = [ShowError "Error" ("Cannot create batch folder " +:+ folder)]
  ∧ files r.2 = files w ∧ dirs r.2 = dirs w
  ∧ cflag r.2 = cflag w ∧ bstate r.2 = bstate w ∧ estate r.2 = estate w
  ∧ etext r.2 = etext w.
Proof.
  unfold effects_of.
  destruct w as [plat cs cf bs es et sv cn th ds fs ws tr]. simpl.
  set (batchName := cs prefixBatch +:+ "-" +:+ batchID).
  set (folder := Path.join plat (cs rootDir) batchName).
  intros Hfile Hdir.
  assert (folder ≠ "") as Hne
    by (by apply join_nonempty, string_app_nonempty).
  unfold on_create, create_batch_folder. unfold_files. unfold_callback.
  callback_simpl. fold batchName folder.
  rewrite (bool_decide_eq_false_2 (folder ∈ ds)) by done.
  rewrite (bool_decide_eq_true_2 (is_Some (fs !! folder))) by eauto.
  callback_simpl.
  rewrite (bool_decide_eq_false_2 (folder = "" ∨ folder ∈ ds)) by tauto.
  callback_simpl. rewrite drop_app_length. by split_and!.
Qed.

(** ** Reading the configuration (lines 645-688, 691-806) *)

(** Runs the first action of a sequence whose outcome [tac] computes. *)
Ltac run_with tac :=
  match goal with
  | |- context [(?m ≫= ?f) ?w] =>
      let H := fresh "Hrun" in
      eassert (m w = (Ok _, _)) as H;
      [ tac
      | rewrite (bind_Ok m f w _ _ H); clear H; cbv beta ]
  end.

Ltac state_norm :=
  cbn [platform cstr cflag bstate estate etext svar carrierNumber t1 dirs
       files workers trace upd_cstr upd_cflag upd_bstate upd_estate
       upd_etext upd_svar upd_carrierNumber upd_t1 upd_dirs upd_files
       upd_workers upd_trace];
  repeat first [ rewrite fn_lookup_insert
               | rewrite fn_lookup_insert_ne by done ].

Ltac run := run_with ltac:(reflexivity).

(** The same, with the new state in normal form. *)
Ltac run_norm :=
  run_with ltac:(unfold normalise, join3, join4, get_str, set_str, path_join,
                   gets, modify, mbind, M_bind, mret, M_ret;
                 state_norm; reflexivity).

Lemma read_required_ok elt a name v w :
  elt !! name = Some v →
  read_required elt a name w = (Ok tt, upd_cstr <[a := v]> w).
Proof.
  intros H. unfold read_required, findElementText. by rewrite H.
Qed.

Lemma read_required_absent elt a name w :
  elt !! name = None →
  read_required elt a name w
  = (Raised SystemExit,
     upd_trace
       (λ t, t ++ [ShowError "Error" ("no element found at ./config/" +:+ name)])
       w).
Proof.
  intros H. unfold read_required, findElementText. by rewrite H.
Qed.

Lemma read_optional_eq elt a name w :
  read_optional elt a name w
  = (Ok tt,
     upd_trace (λ t, t ++ missing_element elt name)
       (upd_cstr (λ c, match elt !! name with
                       | Some v => <[a := v]> c
                       | None => c
                       end) w)).
Proof.
  unfold read_optional, try_except, missing_element.
  destruct (elt !! name) as [v|] eqn:H.
  - rewrite (read_required_ok _ _ _ v) by done.
    destruct w. simpl. by rewrite app_nil_r.
  - rewrite read_required_absent by done. by destruct w.
Qed.

Lemma read_optional_ok elt a name v w :
  elt !! name = Some v →
  read_optional elt a name w = (Ok tt, upd_cstr <[a := v]> w).
Proof.
  intros H. rewrite read_optional_eq, H. unfold missing_element. rewrite H.
  destruct w. simpl. by rewrite app_nil_r.
Qed.

Lemma read_optional_absent elt a name w :
  elt !! name = None →
  read_optional elt a name w
  = (Ok tt,
     upd_trace
       (λ t, t ++ [ShowError "Error" ("no element found at ./config/" +:+ name)])
       w).
Proof.
  intros H. rewrite read_optional_eq, H. unfold missing_element. rewrite H.
  by destruct w.
Qed.

Lemma read_optional_flag_eq elt f name w :
  read_optional_flag elt f name w
  = (Ok tt,
     upd_trace (λ t, t ++ missing_element elt name)
       (upd_cflag (λ c, match elt !! name with
                        | Some v => <[f := bool_decide (v = "True")]> c
                        | None => c
                        end) w)).
Proof.
  unfold read_optional_flag, try_except, missing_element, findElementText.
  destruct (elt !! name) as [v|] eqn:H.
  - destruct w. simpl. by rewrite app_nil_r.
  - by destruct w.
Qed.

Lemma config_dir_run env w d :
  config_dir env w = Some d →
  (if decide (platform w = "Windows")
   then match USERPROFILE env with
        | Some userDir => path_join userDir "iromlab"
        | None => raise KeyError
        end
   else path_join (package_dir env) "conf") w = (Ok d, w).
Proof.
  unfold config_dir. case_decide.
  - destruct (USERPROFILE env); [|done]. simpl. by intros [= <-].
  - by intros [= <-].
Qed.

(** X16: without a configuration file start-up prints the path it looked
    at, shows "configuration file not found" and ends with [SystemExit];
    on Windows without [USERPROFILE] it ends with [KeyError] before it
    shows anything.  The configuration stays untouched, and [main] does
    not get to its loop. *)
Theorem configure_without_config_file env sru turns w :
  match config_dir env w with
  | Some d =>
      let configFileUser := Path.join (platform w) d "config.xml" in
      files w !! configFileUser = None →
      configure env w
      = (Raised SystemExit,
         upd_trace (λ t, t ++ [Stdout configFileUser;
                               ShowError "Error" "configuration file not found"])
           w)
      ∧ (main env sru turns w).1 = Raised SystemExit
      ∧ started_by (main env sru turns) w = []
  | None =>
      configure env w = (Raised KeyError, w)
      ∧ (main env sru turns w).1 = Raised KeyError
  end.
Proof.
  assert (∀ r w1, configure env (at_build_gui w) = (r, w1) → r ≠ Ok tt →
                  startup env w = (r, w1)) as Hstart.
  { intros r w1 Hc Hr. rewrite startup_eq. unfold build_gui, getConfiguration.
    rewrite !bind_unfold, Hc. by destruct r as [[]| | |]. }
  assert (platform (at_build_gui w) = platform w
          ∧ files (at_build_gui w) = files w) as [Hp Hf] by (by destruct w).
  assert (config_dir env (at_build_gui w) = config_dir env w) as Hd
    by (unfold config_dir; by rewrite Hp).
  assert (∀ w0 : world,
            match config_dir env w0 with
            | Some d =>
                files w0 !! Path.join (platform w0) d "config.xml" = None →
                configure env w0
                = (Raised SystemExit,
                   upd_trace
                     (λ t, t ++ [Stdout (Path.join (platform w0) d "config.xml");
                                 ShowError "Error"
                                   "configuration file not found"]) w0)
            | None => configure env w0 = (Raised KeyError, w0)
            end) as Hconf.
  { intros w0. destruct (config_dir env w0) as [d|] eqn:Hdir.
    - intros Hnone. unfold configure.
      run. run. run_with ltac:(by apply config_dir_run).
      run. run.
      run_with ltac:(unfold isfile, gets; rewrite Hnone;
                     rewrite (bool_decide_eq_false_2 (is_Some None))
                       by (by intros [? ?]);
                     reflexivity).
      rewrite bind_unfold. destruct w0. simpl. by rewrite <- app_assoc.
    - unfold configure. run. run.
      unfold config_dir in Hdir. case_decide; [|done].
      destruct (USERPROFILE env); [done|]. reflexivity. }
  pose proof (Hconf w) as H1. pose proof (Hconf (at_build_gui w)) as H2.
  rewrite Hd, Hp, Hf in H2.
  destruct (config_dir env w) as [d|].
  - intros f Hnone. subst f. split; [by apply H1|].
    specialize (H2 Hnone).
    assert (Raised SystemExit ≠ Ok tt) as Hr by done.
    destruct (main_startup_fails env sru turns w _ _ (Hstart _ _ H2 Hr) Hr)
      as [-> ->].
    done.
  - split; [exact H1|].
    assert (Raised KeyError ≠ Ok tt) as Hr by done.
    by destruct (main_startup_fails env sru turns w _ _ (Hstart _ _ H2 Hr) Hr)
      as [-> _].
Qed.

(** The lines up to the parsed configuration, where the file is there
    and well-formed. *)
Ltac run_prefix Hdir Hfile Hparse :=
  unfold configure; run; run;
  run_with ltac:(by apply config_dir_run);
  run; run;
  run_with ltac:(unfold isfile, gets; cbn [platform files]; rewrite Hfile;
                 rewrite (bool_decide_eq_true_2 (is_Some (Some _)))
                   by eauto;
                 reflexivity);
  run; run;
  run_with ltac:(cbv beta; cbn [platform files]; rewrite Hfile; reflexivity);
  run_with ltac:(rewrite Hparse; reflexivity).

Lemma upd_cstr_trace f w : trace (upd_cstr f w) = trace w.
Proof. by destruct w. Qed.

Lemma upd_cstr_cflag f w : cflag (upd_cstr f w) = cflag w.
Proof. by destruct w. Qed.

Ltac read_or_stop elt name pre post :=
  let H := fresh "Helt" in
  let v := fresh "v" in
  destruct (elt !! name) as [v|] eqn:H;
  [ run_with ltac:(by apply read_required_ok)
  | match goal with
    | |- ?P ((?m ≫= ?f) ?w) =>
        rewrite (bind_Raised m f w _ _ (read_required_absent _ _ _ _ H));
        subst P; cbv beta;
        exists name, pre, post, w;
        split_and!;
        [ reflexivity
        | repeat (apply Forall_cons; split; [by eexists|]); by apply Forall_nil
        | done | reflexivity
        | by rewrite ?upd_cstr_trace | by rewrite ?upd_cstr_cflag ]
    end ].

(** X17: when the configuration file is read and one of the nine
    required elements is missing, start-up shows one error box that names
    the first of them that is missing and ends with [SystemExit]; that is
    before the optional elements are read and before anything is checked
    in the file system. *)
Theorem configure_required_element_missing env w d bytes elt name :
  config_dir env w = Some d →
  files w !! Path.join (platform w) d "config.xml" = Some bytes →
  fromstring env bytes = Some elt →
  name ∈ required_elements → elt !! name = None →
  ∃ missing pre post,
    required_elements = pre ++ missing :: post
    ∧ Forall (λ n, is_Some (elt !! n)) pre
    ∧ elt !! missing = None
    ∧ (configure env w).1 = Raised SystemExit
    ∧ effects_of (configure env) w
      = [ShowError "Error" ("no element found at ./config/" +:+ missing)]
    ∧ cflag (configure env w).2 = cflag w.
Proof.
  intros Hdir Hfile Hparse Hin Hnone.
  set (P := λ x : result unit * world,
    ∃ missing pre post w',
      required_elements = pre ++ missing :: post
      ∧ Forall (λ n, is_Some (elt !! n)) pre
      ∧ elt !! missing = None
      ∧ x = (Raised SystemExit,
             upd_trace
               (λ t, t ++ [ShowError "Error"
                             ("no element found at ./config/" +:+ missing)])
               w')
      ∧ trace w' = trace w ∧ cflag w' = cflag w).
  assert (P (configure env w)) as (missing & pre & post & w' & H1 & H2 & H3
                                   & H4 & H5 & H6).
  { run_prefix Hdir Hfile Hparse.
    read_or_stop elt "cdDriveLetter" (@nil string)
      ["rootDir"; "tempDir"; "secondsToTimeout"; "prefixBatch";
       "audioFormat"; "reportFormatString"; "isoBusterExe";
       "dBpowerampConsoleRipExe"].
    read_or_stop elt "rootDir" ["cdDriveLetter"]
      ["tempDir"; "secondsToTimeout"; "prefixBatch";
       "audioFormat"; "reportFormatString"; "isoBusterExe";
       "dBpowerampConsoleRipExe"].
    read_or_stop elt "tempDir" ["cdDriveLetter"; "rootDir"]
      ["secondsToTimeout"; "prefixBatch";
       "audioFormat"; "reportFormatString"; "isoBusterExe";
       "dBpowerampConsoleRipExe"].
    read_or_stop elt "secondsToTimeout" ["cdDriveLetter"; "rootDir"; "tempDir"]
      ["prefixBatch"; "audioFormat"; "reportFormatString"; "isoBusterExe";
       "dBpowerampConsoleRipExe"].
    read_or_stop elt "prefixBatch"
      ["cdDriveLetter"; "rootDir"; "tempDir"; "secondsToTimeout"]
      ["audioFormat"; "reportFormatString"; "isoBusterExe";
       "dBpowerampConsoleRipExe"].
    read_or_stop elt "audioFormat"
      ["cdDriveLetter"; "rootDir"; "tempDir"; "secondsToTimeout";
       "prefixBatch"]
      ["reportFormatString"; "isoBusterExe"; "dBpowerampConsoleRipExe"].
    read_or_stop elt "reportFormatString"
      ["cdDriveLetter"; "rootDir"; "tempDir"; "secondsToTimeout";
       "prefixBatch"; "audioFormat"]
      ["isoBusterExe"; "dBpowerampConsoleRipExe"].
    read_or_stop elt "isoBusterExe"
      ["cdDriveLetter"; "rootDir"; "tempDir"; "secondsToTimeout";
       "prefixBatch"; "audioFormat"; "reportFormatString"]
      ["dBpowerampConsoleRipExe"].
    read_or_stop elt "dBpowerampConsoleRipExe"
      ["cdDriveLetter"; "rootDir"; "tempDir"; "secondsToTimeout";
       "prefixBatch"; "audioFormat"; "reportFormatString"; "isoBusterExe"]
      (@nil string).
    exfalso. unfold required_elements in Hin.
    repeat (apply elem_of_cons in Hin as [->|Hin]; [congruence|]).
    by apply elem_of_nil in Hin. }
  exists missing, pre, post. unfold effects_of. rewrite H4.
  split_and!; try done.
  - destruct w'. simpl in *. subst. apply drop_app_length.
  - by destruct w'.
Qed.

(** ** A start-up that succeeds (lines 42-67, 407-527, 691-827) *)

Ltac check_passes H :=
  unfold checkDirExists, checkFileExists, isdir, isfile, get_str, gets,
    mbind, M_bind, mret, M_ret;
  state_norm;
  rewrite (bool_decide_eq_true_2 _ H); reflexivity.

Lemma configure_ok env w d bytes elt :
  let val := element_text elt in
  let tools := Path.join (platform w) (package_dir env) "tools" in
  let join := Path.join (platform w) in
  config_dir env w = Some d →
  files w !! join d "config.xml" = Some bytes →
  fromstring env bytes = Some elt →
  Forall (λ n, is_Some (elt !! n)) required_elements →
  normpath env (val "rootDir") ∈ dirs w →
  normpath env (val "tempDir") ∈ dirs w →
  is_Some (files w !! normpath env (val "isoBusterExe")) →
  is_Some (files w !! normpath env (val "dBpowerampConsoleRipExe")) →
  is_Some (files w !! join (join tools "shntool") "shntool.exe") →
  is_Some (files w !! join (join (join tools "flac") "win64") "flac.exe") →
  is_Some (files w !! join (join (join tools "libcdio") "win64") "cd-info.exe") →
  ∃ w1,
    configure env w = (Ok tt, w1)
    ∧ trace w1 = trace w ++ concat (missing_element elt <$> optional_elements)
    ∧ cstr w1 cdDriveLetter = val "cdDriveLetter"
    ∧ cstr w1 audioFormat = val "audioFormat"
    ∧ cstr w1 prefixBatch = val "prefixBatch"
    ∧ cstr w1 rootDir = normpath env (val "rootDir")
    ∧ cstr w1 tempDir = normpath env (val "tempDir")
    ∧ cstr w1 version = cstr w version
    ∧ cflag w1 enablePPNLookup
      = configured_flag elt "enablePPNLookup" (cflag w enablePPNLookup)
    ∧ cflag w1 startOnFinalize
      = configured_flag elt "startOnFinalize" (cflag w startOnFinalize)
    ∧ cflag w1 enableSocketAPI
      = configured_flag elt "enableSocketAPI" (cflag w enableSocketAPI)
    ∧ (∀ f, f ∉ [enablePPNLookup; startOnFinalize; enableSocketAPI] →
            cflag w1 f = cflag w f)
    ∧ bstate w1 = bstate w ∧ estate w1 = estate w ∧ etext w1 = etext w
    ∧ svar w1 = svar w ∧ carrierNumber w1 = carrierNumber w ∧ t1 w1 = t1 w
    ∧ dirs w1 = dirs w ∧ files w1 = files w ∧ workers w1 = workers w.
Proof.
  intros val tools join Hdir Hfile Hparse Hreq Hroot Htemp Hiso Hdb Hshn
    Hflac Hcd.
  unfold required_elements in Hreq.
  apply Forall_cons in Hreq as [[vLetter E1] Hreq].
  apply Forall_cons in Hreq as [[vRoot E2] Hreq].
  apply Forall_cons in Hreq as [[vTemp E3] Hreq].
  apply Forall_cons in Hreq as [[vSecs E4] Hreq].
  apply Forall_cons in Hreq as [[vPrefix E5] Hreq].
  apply Forall_cons in Hreq as [[vFormat E6] Hreq].
  apply Forall_cons in Hreq as [[vReport E7] Hreq].
  apply Forall_cons in Hreq as [[vIso E8] Hreq].
  apply Forall_cons in Hreq as [[vDb E9] _].
  subst val. unfold element_text in *.
  rewrite E2 in Hroot. rewrite E3 in Htemp. rewrite E8 in Hiso.
  rewrite E9 in Hdb. rewrite E1, E2, E3, E5, E6.
  cbn [default from_option id] in *.
  match goal with
  | |- ∃ w1, _ = _ ∧ @?Q w1 =>
      set (P := λ x : result unit * world, ∃ w1, x = (Ok tt, w1) ∧ Q w1)
  end.
  change (P (configure env w)).
  destruct w as [plat cs cf bs es et sv cn th ds fs ws tr].
  cbn [platform files dirs] in *. subst join tools. cbv beta in *.
  destruct (elt !! "socketHost") as [vHost|] eqn:O1;
    destruct (elt !! "socketPort") as [vPort|] eqn:O2.
  all: run_prefix Hdir Hfile Hparse.
  all: run_with ltac:(by apply read_required_ok).
  all: run_with ltac:(by apply read_required_ok).
  all: run_with ltac:(by apply read_required_ok).
  all: run_with ltac:(by apply read_required_ok).
  all: run_with ltac:(by apply read_required_ok).
  all: run_with ltac:(by apply read_required_ok).
  all: run_with ltac:(by apply read_required_ok).
  all: run_with ltac:(by apply read_required_ok).
  all: run_with ltac:(by apply read_required_ok).
  all: first [ run_with ltac:(by apply read_optional_ok)
        | run_with ltac:(by apply read_optional_absent) ].
  all: first [ run_with ltac:(by apply read_optional_ok)
        | run_with ltac:(by apply read_optional_absent) ].
  all: run_with ltac:(apply read_optional_flag_eq).
  all: run_with ltac:(apply read_optional_flag_eq).
  all: run_with ltac:(apply read_optional_flag_eq).
  all: do 10 run_norm.
  all: run_with ltac:(check_passes Hroot).
  all: run_with ltac:(check_passes Htemp).
  all: run_with ltac:(check_passes Hiso).
  all: run_with ltac:(check_passes Hdb).
  all: run_with ltac:(check_passes Hshn).
  all: run_with ltac:(check_passes Hflac).
  all: match goal with
  | |- _ (?m ?w) =>
      let H := fresh in
      eassert (m w = (Ok tt, _)) as H by check_passes Hcd;
      rewrite H; clear H
  end.
  all: match goal with Q := _ |- _ => subst Q end.
  all: cbv beta; eexists; (split; [reflexivity|]).
  all: split_and!.
  all: cbn [platform cstr cflag bstate estate etext svar carrierNumber t1
            dirs files workers trace];
    try reflexivity.
  all: try (unfold optional_elements, missing_element;
            cbn [fmap list_fmap concat]; rewrite ?O1, ?O2;
            rewrite <- ?app_assoc, ?app_nil_r; reflexivity).
  all: try (repeat first [ rewrite fn_lookup_insert
                         | rewrite fn_lookup_insert_ne by done ];
            reflexivity).
  all: unfold configured_flag.
  all: try (intros f Hf;
            apply not_elem_of_cons in Hf as [Hf1 Hf];
            apply not_elem_of_cons in Hf as [Hf2 Hf];
            apply not_elem_of_cons in Hf as [Hf3 _]).
  all: destruct (elt !! "enablePPNLookup");
    destruct (elt !! "startOnFinalize");
    destruct (elt !! "enableSocketAPI");
    repeat first [ rewrite fn_lookup_insert
                 | rewrite fn_lookup_insert_ne by done ];
    reflexivity.
Qed.

Lemma at_build_gui_eq plat cs cf bs es et sv cn th ds fs ws tr :
  at_build_gui (World plat cs cf bs es et sv cn th ds fs ws tr)
  = World plat (<[version := iromlab_version]> cs)
      (<[finishedBatch := false]> (<[readyToStart := false]> cf))
      bs es et
      (<[volumeNoOld := ""]> (<[titleOld := ""]> (<[catidOld := ""]> sv)))
      0 None ds fs ws tr.
Proof. reflexivity. Qed.

(** X18: a start-up that succeeds.  With a configuration file that is
    well-formed and holds the nine required elements, the two folders and
    the five programs in place, a drive letter that names an optical
    drive and the audio format wav or flac, [main] gets to its loop: the
    settings are read, each optional element that is missing is reported
    in an error box and leaves its setting alone, the drives are asked for
    once, the three batch buttons are enabled and the form is disabled, no
    batch is open or ready, and nothing has been written. *)
Theorem startup_succeeds env w d bytes elt :
  let val := element_text elt in
  let tools := Path.join (platform w) (package_dir env) "tools" in
  let join := Path.join (platform w) in
  let ppn := configured_flag elt "enablePPNLookup" (cflag w enablePPNLookup) in
  let r := startup env w in
  config_dir env w = Some d →
  files w !! join d "config.xml" = Some bytes →
  fromstring env bytes = Some elt →
  Forall (λ n, is_Some (elt !! n)) required_elements →
  normpath env (val "rootDir") ∈ dirs w →
  normpath env (val "tempDir") ∈ dirs w →
  is_Some (files w !! normpath env (val "isoBusterExe")) →
  is_Some (files w !! normpath env (val "dBpowerampConsoleRipExe")) →
  is_Some (files w !! join (join tools "shntool") "shntool.exe") →
  is_Some (files w !! join (join (join tools "flac") "win64") "flac.exe") →
  is_Some (files w !! join (join (join tools "libcdio") "win64") "cd-info.exe") →
  val "cdDriveLetter" ∈ getDrives env →
  val "audioFormat" = "wav" ∨ val "audioFormat" = "flac" →
  r.1 = Ok tt
  ∧ effects_of (startup env) w
    = concat (missing_element elt <$> optional_elements) ++ [GetDrives]
  ∧ cstr r.2 version = iromlab_version
  ∧ cstr r.2 rootDir = normpath env (val "rootDir")
  ∧ cstr r.2 prefixBatch = val "prefixBatch"
  ∧ cflag r.2 enablePPNLookup = ppn
  ∧ cflag r.2 startOnFinalize
    = configured_flag elt "startOnFinalize" (cflag w startOnFinalize)
  ∧ cflag r.2 enableSocketAPI
    = configured_flag elt "enableSocketAPI" (cflag w enableSocketAPI)
  ∧ cflag r.2 readyToStart = false
  ∧ cflag r.2 batchIsOpen = cflag w batchIsOpen
  ∧ (∀ x, svar r.2 x = "") ∧ carrierNumber r.2 = 0 ∧ t1 r.2 = None
  ∧ bstate r.2 bNew = normal ∧ bstate r.2 bOpen = normal
  ∧ bstate r.2 bExit = normal ∧ bstate r.2 submit_button = disabled
  ∧ bstate r.2 (if ppn then usepreviousPPN_button
                else usepreviousTitle_button) = disabled
  ∧ estate r.2 (if ppn then catid_entry else title_entry) = disabled
  ∧ estate r.2 volumeNo_entry = disabled
  ∧ files r.2 = files w ∧ dirs r.2 = dirs w ∧ workers r.2 = workers w.
Proof.
  intros val tools join ppn r Hdir Hfile Hparse Hreq Hroot Htemp Hiso Hdb
    Hshn Hflac Hcd Hdrive Hformat.
  subst r ppn. unfold effects_of.
  destruct w as [plat cs cf bs es et sv cn th ds fs ws tr].
  destruct (configure_ok env
              (at_build_gui (World plat cs cf bs es et sv cn th ds fs ws tr))
              d bytes elt Hdir Hfile Hparse Hreq Hroot Htemp Hiso Hdb Hshn
              Hflac Hcd)
    as (w1 & Hc & C1 & C2 & C3 & C4 & C5 & C6 & C7 & C8 & C9 & C10 & C11
        & C12 & C13 & C14 & C15 & C16 & C17 & C18 & C19 & C20).
  rewrite (startup_after_configure _ _ _ Hc).
  fold val in C2, C3, C4, C5, C6.
  rewrite at_build_gui_eq in C1, C7, C8, C9, C10, C11, C12, C13, C14, C15,
    C16, C17, C18, C19, C20.
  destruct w1 as [plat1 cs1 cf1 bs1 es1 et1 sv1 cn1 th1 ds1 fs1 ws1 tr1].
  cbn [platform cstr cflag bstate estate etext svar carrierNumber t1 dirs
       files workers trace] in *.
  subst tr1 bs1 es1 et1 sv1 cn1 th1 ds1 fs1 ws1.
  rewrite fn_lookup_insert in C7.
  rewrite !fn_lookup_insert_ne in C8, C9, C10 by done.
  assert (check_drive env
            (World plat1 cs1 cf1 bs es et
               (<[volumeNoOld := ""]> (<[titleOld := ""]> (<[catidOld := ""]> sv)))
               0 None ds fs ws
               (tr ++ concat (missing_element elt <$> optional_elements)))
          = (Ok tt,
             World plat1 cs1 cf1 bs es et
               (<[volumeNoOld := ""]> (<[titleOld := ""]> (<[catidOld := ""]> sv)))
               0 None ds fs ws
               ((tr ++ concat (missing_element elt <$> optional_elements))
                ++ [GetDrives]))) as Hd.
  { rewrite check_drive_found; [reflexivity|]. simpl. by rewrite C2. }
  rewrite (bind_Ok _ _ _ _ _ Hd). clear Hd.
  rewrite <- C3 in Hformat.
  match goal with
  | |- context [(check_audioFormat ≫= ?f) ?w0] =>
      rewrite (bind_Ok check_audioFormat f w0 tt w0
                 (check_audioFormat_valid w0 Hformat))
  end.
  unfold build_gui_widgets. unfold_callback.
  cbn [platform cstr cflag bstate estate etext svar carrierNumber t1 dirs
       files workers trace upd_bstate upd_estate fst snd].
  rewrite C8.
  destruct (configured_flag elt "enablePPNLookup" (cf enablePPNLookup));
    cbn [platform cstr cflag bstate estate etext svar carrierNumber t1 dirs
         files workers trace upd_bstate upd_estate fst snd];
    rewrite <- app_assoc, drop_app_length;
    (split_and!;
     [ reflexivity | reflexivity | done | done | done | done | done | done
     | by rewrite C11 by (rewrite !not_elem_of_cons; split_and!; try done;
                          apply not_elem_of_nil)
     | by rewrite C11 by (rewrite !not_elem_of_cons; split_and!; try done;
                          apply not_elem_of_nil)
     | by intros []
     | done | done | done | done | done | done | done | done | done | done
     | done | done ]).
Qed.

(** * Worked examples for the further properties *)

Lemma on_submit_accepted_locks_form_witness :
  let w := example_ppn " 123456789 " "+3" in
  let cd := make_carrierData "job-1" "123456789" "Het boek, deel 2" "+3" in
  cd ∈ started_by (on_submit example_catalog true "job-1") w
  ∧ t1 (on_submit example_catalog true "job-1" w).2 = Some cd
  ∧ bstate (on_submit example_catalog true "job-1" w).2 submit_button
    = disabled.
Proof.
  intros w cd.
  assert (cd ∈ started_by (on_submit example_catalog true "job-1") w) as Hin.
  { assert (started_by (on_submit example_catalog true "job-1") w = [cd])
      as -> by (vm_compute; reflexivity).
    by apply list_elem_of_singleton. }
  split; [exact Hin|].
  pose proof (on_submit_accepted_locks_form example_catalog true "job-1" w cd
                Hin) as H.
  cbv zeta in H. destruct H as (_ & H2 & _ & _ & H5 & _).
  split; [exact H2 | exact H5].
Defined.

Lemma on_submit_rejected_keeps_form_witness :
  let w := example_titled "False" "Het boek" "0" in
  started_by (on_submit example_catalog true "job-1") w = []
  ∧ bstate (on_submit example_catalog true "job-1" w).2 = bstate w
  ∧ estate (on_submit example_catalog true "job-1" w).2 = estate w.
Proof.
  intros w.
  assert (started_by (on_submit example_catalog true "job-1") w = []) as Hnone
    by (vm_compute; reflexivity).
  split; [exact Hnone|].
  pose proof (on_submit_rejected_keeps_form example_catalog true "job-1" w
                Hnone) as H.
  cbv zeta in H. destruct H as (H1 & H2 & _).
  split; [exact H1 | exact H2].
Defined.

Lemma on_submit_searches_first_witness :
  let w := type_into catid_entry " 123 " (example_started "True" "False") in
  cflag w enablePPNLookup = true
  ∧ Py.strip (etext w catid_entry) = "123"
  ∧ effects_of (on_submit example_catalog true "job-1") w
    = [SruSearch (sruSearchString "123") "GGC";
       ShowError "Not ready"
         "You must first create a batch or open an existing batch"].
Proof.
  intros w.
  assert (cflag w enablePPNLookup = true) as H1 by (vm_compute; reflexivity).
  assert (Py.strip (etext w catid_entry) = "123") as H2
    by (vm_compute; reflexivity).
  assert (Py.strip (etext w catid_entry) ≠ "") as H3
    by (rewrite H2; discriminate).
  assert (cflag w batchIsOpen = false) as H4 by (vm_compute; reflexivity).
  split; [exact H1|]. split; [exact H2|].
  destruct (on_submit_searches_first example_catalog true "job-1" w H1 H3)
    as (es & E & _ & Hes).
  rewrite E, (Hes H4), H2. reflexivity.
Defined.

Lemma on_submit_catalog_record_missing_witness :
  let w := example_ppn "123" "1" in
  (on_submit example_catalog_no_records true "job-1" w).1
  = Raised StopIteration
  ∧ started_by (on_submit example_catalog_no_records true "job-1") w = [].
Proof.
  intros w.
  pose proof (on_submit_catalog_record_missing example_catalog_no_records
                true "job-1" w 1
                {| nr_of_records := 1; records := [] |}) as H.
  apply H.
  - vm_compute; reflexivity.
  - vm_compute; reflexivity.
  - vm_compute; reflexivity.
  - lia.
  - by_evaluation.
  - reflexivity.
  - simpl. lia.
Defined.

Lemma use_previous_without_history_witness :
  let w := example_batch "True" "False" in
  effects_of on_usepreviousPPN w
  = [ShowError "PPN not defined" "Previous PPN is not defined"]
  ∧ effects_of on_usepreviousTitle w
    = [ShowError "Tile not defined" "Previous title is not defined"].
Proof.
  intros w.
  destruct (use_previous_without_history w) as [H1 H2].
  - vm_compute; reflexivity.
  - vm_compute; reflexivity.
  - unfold effects_of. rewrite H1, H2. destruct w. simpl.
    by rewrite !drop_app_length.
Defined.

Lemma use_previous_next_volume_witness :
  svar example_declined catidOld = "123456789"
  ∧ svar example_declined volumeNoOld = "2"
  ∧ etext (on_usepreviousPPN example_declined).2 catid_entry = "123456789"
  ∧ etext (on_usepreviousPPN example_declined).2 volumeNo_entry = "3".
Proof.
  split; [vm_compute; reflexivity|]. split; [vm_compute; reflexivity|].
  destruct (use_previous_next_volume example_declined 2) as [H _].
  - vm_compute; reflexivity.
  - vm_compute; reflexivity.
  - destruct H as (_ & H2 & H3 & _).
    + by_evaluation.
    + vm_compute; reflexivity.
    + split; [exact H2 | exact H3].
Defined.


Lemma handleSocketRequests_outcome_witness :
  let r := handleSocketRequests (Some "123456789") example_declined in
  r.1 = Ok tt
  ∧ etext r.2 catid_entry = "123456789"
  ∧ etext r.2 volumeNo_entry = "3".
Proof.
  intros r.
  pose proof (handleSocketRequests_outcome "123456789" example_declined) as H.
  cbv zeta in H.
  assert (cflag example_declined enablePPNLookup = true) as Hm
    by (vm_compute; reflexivity).
  rewrite Hm in H.
  destruct H as (H1 & _ & H3 & H4 & _).
  split; [exact H1|]. split.
  - apply H3. vm_compute; reflexivity.
  - etrans; [apply (H4 2)|]; try (vm_compute; reflexivity).
    discriminate.
Defined.

Lemma main_iteration_disc_finished_witness :
  (main_iteration example_catalog example_finishing_turn example_processing).1
  = Ok tt
  ∧ cflag (main_iteration example_catalog example_finishing_turn
             example_processing).2 processingDisc = false
  ∧ (main_iteration example_catalog example_finishing_turn
       example_processing_title).1 = Raised TypeError
  ∧ (main_loop example_catalog
       [example_finishing_turn; example_finishing_turn]
       example_processing_title).1 = Raised TypeError.
Proof.
  pose proof (main_iteration_disc_finished example_catalog
                example_finishing_turn [example_finishing_turn]
                example_processing
                (make_carrierData "job-1" "123456789" "Het boek, deel 2" "1"))
    as H.
  pose proof (main_iteration_disc_finished example_catalog
                example_finishing_turn [example_finishing_turn]
                example_processing_title
                (make_carrierData "job-1" "" "Het boek" "1"))
    as H'.
  cbv zeta in H, H'.
  assert (cflag example_processing enablePPNLookup = true) as Hm
    by (vm_compute; reflexivity).
  assert (cflag example_processing_title enablePPNLookup = false) as Hm'
    by (vm_compute; reflexivity).
  rewrite Hm in H. rewrite Hm' in H'.
  destruct H as (_ & _ & H1 & H2 & _);
    [reflexivity | reflexivity | vm_compute; reflexivity
    | vm_compute; reflexivity |].
  destruct H' as (_ & _ & H3 & _ & _ & _ & _ & H4);
    [reflexivity | reflexivity | vm_compute; reflexivity
    | vm_compute; reflexivity |].
  split; [exact H1|]. split; [exact H2|]. split; [exact H3 | exact H4].
Defined.

Lemma on_open_outcome_witness :
  let w := example_started "False" "False" in
  cflag (on_open "/data" w).2 batchIsOpen = true
  ∧ bstate (on_open "/data" w).2 bOpen = disabled
  ∧ effects_of (on_open "/nowhere") w
    = [ShowError "ERROR" "error trying to write log file"]
  ∧ cflag (on_open "" w).2 = cflag w.
Proof.
  intros w.
  pose proof (on_open_outcome "/data" w) as H1.
  pose proof (on_open_outcome "/nowhere" w) as H2.
  pose proof (on_open_outcome "" w) as H3.
  cbv zeta in H1, H2, H3.
  destruct H1 as (_ & _ & _ & H1). destruct H2 as (_ & _ & _ & H2).
  destruct H3 as (_ & _ & _ & H3).
  match type of H1 with
  | if ?c then _ else _ =>
      assert (c = true) as E1 by (vm_compute; reflexivity)
  end.
  match type of H2 with
  | if ?c then _ else _ =>
      assert (c = false) as E2 by (vm_compute; reflexivity)
  end.
  match type of H3 with
  | if ?c then _ else _ =>
      assert (c = true) as E3 by (vm_compute; reflexivity)
  end.
  rewrite E1 in H1. rewrite E2 in H2. rewrite E3 in H3.
  destruct H1 as (_ & _ & _ & H1).
  rewrite (decide_False (P := "/data" = "")) in H1 by discriminate.
  destruct H1 as (H1 & _ & _ & H1' & _).
  destruct H2 as (H2 & _).
  destruct H3 as (_ & _ & _ & H3).
  rewrite (decide_True (P := "" = "")) in H3 by reflexivity.
  destruct H3 as (H3 & _).
  split; [exact H1|]. split; [exact H1'|]. split; [exact H2 | exact H3].
Defined.


Lemma on_create_name_taken_witness :
  let w := upd_files <["/data/kb-0001" := ["x"]]>
             (example_started "False" "False") in
  (on_create "0001" w).1 = Raised OSError
  ∧ effects_of (on_create "0001") w
    = [ShowError "Error" "Cannot create batch folder /data/kb-0001"]
  ∧ cflag (on_create "0001" w).2 = cflag w
  ∧ files (on_create "0001" w).2 = files w.
Proof.
  intros w.
  pose proof (on_create_name_taken "0001" w ["x"]) as H. cbv zeta in H.
  destruct H as (H1 & H2 & H3 & _ & H5 & _).
  - vm_compute; reflexivity.
  - by_evaluation.
  - split; [exact H1|]. split.
    + etrans; [exact H2|]. vm_compute; reflexivity.
    + split; [exact H5 | exact H3].
Defined.

Lemma configure_without_config_file_witness :
  let env := example_env (config_xml "False" "False" "flac") ["D"; "E"] in
  (configure env example_unconfigured).1 = Raised SystemExit
  ∧ effects_of (configure env) example_unconfigured
    = [Stdout "/opt/iromlab/conf/config.xml";
       ShowError "Error" "configuration file not found"]
  ∧ (main env example_catalog [] example_unconfigured).1 = Raised SystemExit.
Proof.
  intros env.
  pose proof (configure_without_config_file env example_catalog []
                example_unconfigured) as H.
  assert (config_dir env example_unconfigured = Some "/opt/iromlab/conf")
    as Hd by (vm_compute; reflexivity).
  rewrite Hd in H. cbv zeta in H.
  destruct H as (H1 & H2 & _); [vm_compute; reflexivity|].
  split; [by rewrite H1|]. split; [|exact H2].
  unfold effects_of. rewrite H1. vm_compute; reflexivity.
Defined.

Lemma configure_required_element_missing_witness :
  (configure (example_env_without "tempDir") example_boot).1
  = Raised SystemExit
  ∧ effects_of (configure (example_env_without "tempDir")) example_boot
    = [ShowError "Error" "no element found at ./config/tempDir"].
Proof.
  destruct (configure_required_element_missing
              (example_env_without "tempDir") example_boot
              "/opt/iromlab/conf" ["<config/>"]
              (delete "tempDir" (config_xml "True" "False" "flac"))
              "tempDir")
    as (missing & pre & post & _ & _ & _ & H1 & _).
  - vm_compute; reflexivity.
  - vm_compute; reflexivity.
  - reflexivity.
  - by_evaluation.
  - vm_compute; reflexivity.
  - split; [exact H1|]. vm_compute; reflexivity.
Defined.

Lemma startup_succeeds_witness :
  let env := example_env_without "socketHost" in
  (startup env example_boot).1 = Ok tt
  ∧ effects_of (startup env) example_boot
    = [ShowError "Error" "no element found at ./config/socketHost";
       GetDrives]
  ∧ cflag (startup env example_boot).2 enablePPNLookup = true
  ∧ estate (startup env example_boot).2 catid_entry = disabled
  ∧ bstate (startup env example_boot).2 bNew = normal.
Proof.
  intros env.
  pose proof (startup_succeeds env example_boot "/opt/iromlab/conf"
                ["<config/>"]
                (delete "socketHost" (config_xml "True" "False" "flac")))
    as H.
  cbv zeta in H.
  destruct H as (H1 & H2 & _ & _ & _ & H6 & _ & _ & _ & _ & _ & _ & _ & H14
                 & _ & _ & _ & _ & H19 & _).
  - vm_compute; reflexivity.
  - vm_compute; reflexivity.
  - reflexivity.
  - by_evaluation.
  - by_evaluation.
  - by_evaluation.
  - by_evaluation.
  - by_evaluation.
  - by_evaluation.
  - by_evaluation.
  - by_evaluation.
  - by_evaluation.
  - right. vm_compute; reflexivity.
  - split; [exact H1|]. split; [etrans; [exact H2|]; vm_compute; reflexivity|].
    split; [etrans; [exact H6|]; vm_compute; reflexivity|].
    split; [|exact H14].
    etrans; [|exact H19]. vm_compute; reflexivity.
Defined.
